(** * generate.py: texture-cache generator for Live2D model folders

    A shallow embedding of [src/generate.py] and the properties of its
    specification.  The development has four layers:

    - [Py]: the fragment of the Python runtime the script relies on
      (JSON documents as produced by [json.load], exceptions, the [in]
      operator, subscripting, [isinstance], [json.dump] with [indent=4]);
    - [FS]: a directory tree with lookup, [os.walk] and file creation;
    - the effect monad [M] (file system and standard input as state,
      exceptions, and a log of the observable events);
    - the four functions of the script, under their own names.

    Modelling conventions.  A Python [str] is represented by its UTF-8
    bytes (Rocq [string]); a lone surrogate, which [json.load] returns for
    an escape such as [\ud800] and which no UTF-8 text holds, is
    represented by the three bytes that the same scheme gives it (ED A0 80
    to ED BF BF).  A [float] is represented by the text that
    [float.__repr__] gives for it; [json.dump] prints it with [floatstr].
    The file system is the tree below the working directory, and a path is
    the list of its components from there; the line ends of a text file are
    those of POSIX.  The parser behind [json.load] is a parameter of the
    development: every theorem holds for all parsers.  A printed line is
    recorded as the text of its f-string together with the values of its
    fields.

    Not represented: symbolic links and permissions; file names that are
    not UTF-8; the limits of the interpreter and of the machine (recursion
    depth, memory, disk space); a standard output that cannot encode what
    is printed.  [print] is taken to succeed: the script prints texture
    names only after [json.dump] has encoded them.  Since a deeply nested
    value can exhaust the recursion depth of [json.dump], the statements
    that tell what a cache file holds are made for lists of names, which
    [json.dump] prints without recursion. *)

From Stdlib Require Import List String Ascii ZArith Lia Bool Arith DecimalString.
Import ListNotations.
Local Open Scope string_scope.
Local Open Scope list_scope.

Set Implicit Arguments.
Unset Elimination Schemes.

(** ** Exceptions and results *)

Inductive exn : Type :=
| TypeError
| KeyError
| IndexError
| JSONDecodeError
| UnicodeDecodeError
| UnicodeEncodeError
| OSError
| EOFError.

Inductive result (A : Type) : Type :=
| Ok (a : A)
| Raise (e : exn).
Arguments Raise {A} e.

(** Sequencing in the exception monad: an exception skips the rest. *)
Definition rbind {A B : Type} (c : result A) (k : A -> result B) : result B :=
  match c with
  | Ok a => k a
  | Raise e => Raise e
  end.

Declare Scope result_scope.
Delimit Scope result_scope with result.
Bind Scope result_scope with result.
Notation "x <- c1 ;; c2" := (rbind c1 (fun x => c2))
  (at level 61, c1 at next level, right associativity) : result_scope.

(** ** The Python values of a parsed JSON document *)

Module Py.

(** What [json.load] can return.  A [dict] is its list of items in insertion
    order; the keys of a dict are pairwise distinct, and a lookup takes the
    first binding of the key. *)
Inductive json : Type :=
| JNull
| JBool (b : bool)
| JInt (z : Z)
| JFloat (repr : string)
| JStr (s : string)
| JArr (items : list json)
| JObj (members : list (string * json)).

Fixpoint dict_get (key : string) (d : list (string * json)) : option json :=
  match d with
  | [] => None
  | (k, v) :: rest => if String.eqb key k then Some v else dict_get key rest
  end.

(** [needle in hay] for two strings: substring test. *)
Fixpoint is_substring (needle hay : string) : bool :=
  if String.prefix needle hay then true
  else match hay with
       | EmptyString => false
       | String _ rest => is_substring needle rest
       end.

(** [s == x] for a string [s] and an arbitrary value [x]. *)
Definition str_eq_value (s : string) (x : json) : bool :=
  match x with
  | JStr t => String.eqb s t
  | _ => false
  end.

(** [key in data] for a string [key]: key membership on a dict, element
    membership on a list, substring test on a str; the other types are not
    iterable. *)
Definition contains (key : string) (data : json) : result bool :=
  match data with
  | JObj d => Ok (match dict_get key d with Some _ => true | None => false end)
  | JArr l => Ok (existsb (str_eq_value key) l)
  | JStr s => Ok (is_substring key s)
  | _ => Raise TypeError
  end.

(** [data[key]] for a string [key]: only a dict can be subscripted by a
    string. *)
Definition getitem (data : json) (key : string) : result json :=
  match data with
  | JObj d => match dict_get key d with
              | Some v => Ok v
              | None => Raise KeyError
              end
  | _ => Raise TypeError
  end.

Definition isinstance_list (x : json) : bool :=
  match x with JArr _ => true | _ => false end.

Definition isinstance_dict (x : json) : bool :=
  match x with JObj _ => true | _ => false end.

(** [len(x)], the iteration over [x], and [x[i]] for an integer [i].  The
    script applies them to the extracted texture list only, so they are
    modelled on lists; a negative index counts from the end. *)
Definition len (x : json) : result nat :=
  match x with
  | JArr l => Ok (List.length l)
  | _ => Raise TypeError
  end.

Definition iter (x : json) : result (list json) :=
  match x with
  | JArr l => Ok l
  | _ => Raise TypeError
  end.

Definition getindex (x : json) (i : Z) : result json :=
  match x with
  | JArr l =>
      let n := Z.of_nat (List.length l) in
      let j := if (i <? 0)%Z then (i + n)%Z else i in
      if ((0 <=? j)%Z && (j <? n)%Z)%bool then
        match nth_error l (Z.to_nat j) with
        | Some v => Ok v
        | None => Raise IndexError
        end
      else Raise IndexError
  | _ => Raise TypeError
  end.

(** [enumerate(xs, start)]. *)
Fixpoint enumerate {A : Type} (start : nat) (xs : list A) : list (nat * A) :=
  match xs with
  | [] => []
  | x :: rest => (start, x) :: enumerate (S start) rest
  end.

(** [s * n] for a string. *)
Fixpoint str_mul (s : string) (n : nat) : string :=
  match n with
  | O => EmptyString
  | S k => (s ++ str_mul s k)%string
  end.

(** [s.strip()].  White space is what [str.isspace] accepts.  In the ASCII
    range these are the characters 9-13, 28-31 and 32. *)
Definition is_space (c : ascii) : bool :=
  let n := nat_of_ascii c in
  ((Nat.leb 9 n && Nat.leb n 13) || (Nat.leb 28 n && Nat.leb n 32))%bool.

(** Beyond it, U+0085 and U+00A0, of two bytes each (C2 85, C2 A0). *)
Definition is_space2 (a b : ascii) : bool :=
  let y := nat_of_ascii b in
  ((Nat.eqb y 133 || Nat.eqb y 160) && Nat.eqb (nat_of_ascii a) 194)%bool.

(** And, of three bytes each: U+1680 (E1 9A 80), U+2000 to U+200A (E2 80 80
    to E2 80 8A), U+2028, U+2029 and U+202F (E2 80 A8, E2 80 A9, E2 80 AF),
    U+205F (E2 81 9F) and U+3000 (E3 80 80). *)
Definition is_space3 (a b c : ascii) : bool :=
  let x := nat_of_ascii a in
  let y := nat_of_ascii b in
  let z := nat_of_ascii c in
  ((Nat.eqb z 128 && Nat.eqb y 154 && Nat.eqb x 225)
   || (((Nat.leb 128 z && Nat.leb z 138) || Nat.eqb z 168 || Nat.eqb z 169 || Nat.eqb z 175)
       && Nat.eqb y 128 && Nat.eqb x 226)
   || (Nat.eqb z 159 && Nat.eqb y 129 && Nat.eqb x 226)
   || (Nat.eqb z 128 && Nat.eqb y 128 && Nat.eqb x 227))%bool.

(** Dropping the white space at the head of a string, for any reading of
    one, two and three bytes as a white-space character. *)
Section Strip.

Variable space1 : ascii -> bool.
Variable space2 : ascii -> ascii -> bool.
Variable space3 : ascii -> ascii -> ascii -> bool.

Fixpoint strip_head (s : string) : string :=
  match s with
  | EmptyString => s
  | String a rest =>
      if space1 a then strip_head rest
      else
        match rest with
        | EmptyString => s
        | String b rest2 =>
            if space2 a b then strip_head rest2
            else
              match rest2 with
              | EmptyString => s
              | String c rest3 => if space3 a b c then strip_head rest3 else s
              end
        end
  end.

End Strip.

Fixpoint reverse (s : string) : string :=
  match s with
  | EmptyString => EmptyString
  | String c rest => (reverse rest ++ String c EmptyString)%string
  end.

Definition lstrip (s : string) : string := strip_head is_space is_space2 is_space3 s.

(** At the tail the bytes of a character are met last byte first. *)
Definition rstrip (s : string) : string :=
  reverse (strip_head is_space (fun b a => is_space2 a b) (fun c b a => is_space3 a b c)
                      (reverse s)).

Definition strip (s : string) : string := rstrip (lstrip s).

(** [s.lower()], on the ASCII range: the letters [A]-[Z] are lowered.  The
    other letters that [str.lower] changes are not ASCII and none of them
    becomes a letter of [y], [yes] or [是], the only strings the script
    compares a lowered string with. *)
Definition lower_char (c : ascii) : ascii :=
  let n := nat_of_ascii c in
  if (Nat.leb 65 n && Nat.leb n 90)%bool then ascii_of_nat (n + 32) else c.

Fixpoint lower (s : string) : string :=
  match s with
  | EmptyString => EmptyString
  | String c rest => String (lower_char c) (lower rest)
  end.

(** [x in xs] for a string and a list of strings. *)
Definition str_in (x : string) (xs : list string) : bool :=
  existsb (String.eqb x) xs.

(** [a and b]: [b] is evaluated only when [a] is true. *)
Definition and_then (a b : result bool) : result bool :=
  (x <- a ;; if x then b else Ok false)%result.

(** *** [json.dump(obj, f, ensure_ascii=False, indent=4)] *)

Definition hex_digit (n : nat) : ascii :=
  if Nat.ltb n 10 then ascii_of_nat (48 + n) else ascii_of_nat (87 + n).

Definition escape_char (c : ascii) : string :=
  let n := nat_of_ascii c in
  if Nat.eqb n 34 then String "\" (String "034" EmptyString)
  else if Nat.eqb n 92 then String "\" (String "\" EmptyString)
  else if Nat.eqb n 8 then "\b"
  else if Nat.eqb n 12 then "\f"
  else if Nat.eqb n 10 then "\n"
  else if Nat.eqb n 13 then "\r"
  else if Nat.eqb n 9 then "\t"
  else if Nat.ltb n 32 then
    ("\u00" ++ String (hex_digit (n / 16)) (String (hex_digit (n mod 16)) EmptyString))%string
  else String c EmptyString.

Fixpoint escape (s : string) : string :=
  match s with
  | EmptyString => EmptyString
  | String c rest => (escape_char c ++ escape rest)%string
  end.

Definition encode_str (s : string) : string :=
  String "034" (escape s ++ String "034" EmptyString).

Fixpoint spaces (n : nat) : string :=
  match n with
  | O => EmptyString
  | S k => String " " (spaces k)
  end.

Definition newline_indent (level : nat) : string :=
  String "010" (spaces (4 * level)).

(** [floatstr]: the text of a float, from the text of [float.__repr__]
    ([allow_nan] is left at its default). *)
Definition floatstr (repr : string) : string :=
  if String.eqb repr "nan" then "NaN"
  else if String.eqb repr "inf" then "Infinity"
  else if String.eqb repr "-inf" then "-Infinity"
  else repr.

(** The text of a value that the encoder yields in one piece: a str, [None],
    a bool, an int or a float.  A list and a dict are yielded in several. *)
Definition atom (x : json) : option string :=
  match x with
  | JStr s => Some (encode_str s)
  | JNull => Some "null"
  | JBool true => Some "true"
  | JBool false => Some "false"
  | JInt z => Some (NilZero.string_of_int (Z.to_int z))
  | JFloat r => Some (floatstr r)
  | JArr _ | JObj _ => None
  end.

(** The chunks that the encoder yields, in order ([_make_iterencode] of
    [json.encoder], which [json.dump] always uses).  First the loops of
    [_iterencode_list] and [_iterencode_dict] over the items: [buf] is the
    text held back for the next item of a list, [first] the flag of a dict,
    and [chunks_of] gives the chunks of a list or a dict one level down. *)
Section Loops.

Variable chunks_of : json -> list string.
Variable separator : string.

Fixpoint iterencode_list (buf : string) (lst : list json) : list string :=
  match lst with
  | [] => []
  | value :: rest =>
      match atom value with
      | Some text => [(buf ++ text)%string]
      | None => buf :: chunks_of value
      end ++ iterencode_list separator rest
  end.

Fixpoint iterencode_dict (first : bool) (items : list (string * json)) : list string :=
  match items with
  | [] => []
  | (key, value) :: rest =>
      (if first then [] else [separator])
      ++ [encode_str key; ": "]
      ++ match atom value with
         | Some text => [text]
         | None => chunks_of value
         end
      ++ iterencode_dict false rest
  end.

End Loops.

Fixpoint iterencode (level : nat) (x : json) : list string :=
  match x with
  | JArr [] => ["[]"]
  | JArr items =>
      iterencode_list (iterencode (S level)) ("," ++ newline_indent (S level))
                      ("[" ++ newline_indent (S level)) items
      ++ [newline_indent level; "]"]
  | JObj [] => ["{}"]
  | JObj members =>
      ["{"; newline_indent (S level)]
      ++ iterencode_dict (iterencode (S level)) ("," ++ newline_indent (S level))
                         true members
      ++ [newline_indent level; "}"]
  | _ => match atom x with Some text => [text] | None => [] end
  end.

(** [''.join(chunks)]. *)
Fixpoint joined (chunks : list string) : string :=
  match chunks with
  | [] => EmptyString
  | chunk :: rest => (chunk ++ joined rest)%string
  end.

(** [json.dumps(x, ensure_ascii=False, indent=4)]: all the chunks. *)
Definition dumps (x : json) : string := joined (iterencode 0 x).

(** Whether a text can be encoded as UTF-8, which is what [f.write] does
    with every chunk: not when it holds a lone surrogate, that is, the byte
    ED followed by a byte from A0 to BF.  [after_ed] tells that the byte
    before was ED. *)
Fixpoint no_surrogate (after_ed : bool) (s : string) : bool :=
  match s with
  | EmptyString => true
  | String c rest =>
      let n := nat_of_ascii c in
      if (after_ed && Nat.leb 160 n && Nat.leb n 191)%bool then false
      else no_surrogate (Nat.eqb n 237) rest
  end.

Definition encodable (s : string) : bool := no_surrogate false s.

(** The text that has reached the file when it is closed: the chunks in
    order, up to the first one that cannot be encoded. *)
Fixpoint written (chunks : list string) : string :=
  match chunks with
  | [] => EmptyString
  | chunk :: rest => if encodable chunk then (chunk ++ written rest)%string else EmptyString
  end.

(** [json.dump(x, f, ensure_ascii=False, indent=4)] into a file opened for
    writing as UTF-8: whether it returns, and what the file holds when it is
    closed. *)
Definition dump_completes (x : json) : bool := forallb encodable (iterencode 0 x).

Definition dumped (x : json) : string := written (iterencode 0 x).

End Py.
Import Py.

(** ** The extractor *)

Definition FORMAT_STANDARD : string := "标准格式".
Definition FORMAT_CUBISM3 : string := "Cubism 3.0+ 格式".
Definition FORMAT_UNKNOWN : string := "未知格式".

(** Lines 6-27.  The result is the pair [(textures, format_type)];
    [textures] is [None] when no shape matched. *)
Definition extract_textures_from_json (data : json) : result (option json * string) :=
  (* 格式1: 标准格式 *)
  (c1 <- and_then (contains "textures" data)
                 (v <- getitem data "textures" ;; Ok (isinstance_list v)) ;;
  if c1 then
    textures <- getitem data "textures" ;;
    Ok (Some textures, FORMAT_STANDARD)
  else
    (* 格式2: Live2D Cubism 3.0+ 格式 *)
    c2 <- and_then (contains "FileReferences" data)
                   (v <- getitem data "FileReferences" ;; Ok (isinstance_dict v)) ;;
    if c2 then
      file_refs <- getitem data "FileReferences" ;;
      c3 <- and_then (contains "Textures" file_refs)
                     (v <- getitem file_refs "Textures" ;; Ok (isinstance_list v)) ;;
      if c3 then
        textures <- getitem file_refs "Textures" ;;
        Ok (Some textures, FORMAT_CUBISM3)
      else Ok (None, FORMAT_UNKNOWN)
    else Ok (None, FORMAT_UNKNOWN))%result.

(** ** The file system *)

Module FS.

Definition path : Type := list string.

(** A directory lists its entries in the order in which the operating
    system enumerates them; an entry name occurs once, and a lookup takes
    the first entry of that name. *)
Inductive node : Type :=
| File (bytes : string)
| Dir (entries : list (string * node)).

Fixpoint child (name : string) (es : list (string * node)) : option node :=
  match es with
  | [] => None
  | (k, c) :: rest => if String.eqb name k then Some c else child name rest
  end.

Fixpoint lookup (n : node) (p : path) : option node :=
  match p with
  | [] => Some n
  | name :: rest =>
      match n with
      | File _ => None
      | Dir es =>
          match child name es with
          | Some c => lookup c rest
          | None => None
          end
      end
  end.

(** Replace the entry [name], or add it after the existing entries. *)
Fixpoint set_child (name : string) (c : node) (es : list (string * node))
  : list (string * node) :=
  match es with
  | [] => [(name, c)]
  | (k, v) :: rest =>
      if String.eqb name k then (k, c) :: rest else (k, v) :: set_child name c rest
  end.

(** [open(p, 'w')] followed by writing [bytes] and closing: the file is
    created in an existing directory or truncated, and holds [bytes]; [None]
    stands for the [OSError] raised when [p] is a directory or its parent is
    not an existing directory. *)
Fixpoint write (n : node) (p : path) (bytes : string) : option node :=
  match p with
  | [] =>
      match n with
      | File _ => Some (File bytes)
      | Dir _ => None
      end
  | name :: rest =>
      match n with
      | File _ => None
      | Dir es =>
          match child name es with
          | Some c =>
              match write c rest bytes with
              | Some c' => Some (Dir (set_child name c' es))
              | None => None
              end
          | None =>
              match rest with
              | [] => Some (Dir (set_child name (File bytes) es))
              | _ :: _ => None
              end
          end
      end
  end.

(** The directories that [os.walk(top)] yields, top-down, when [n] is what
    [top] names: nothing for a regular file. *)
Fixpoint walk (top : path) (n : node) : list path :=
  match n with
  | File _ => []
  | Dir es => top :: flat_map (fun e => walk (top ++ [fst e]) (snd e)) es
  end.

(** What a path is, as far as the script can tell without listing it:
    absent, a directory, or a regular file with its contents. *)
Inductive kind : Type :=
| Absent
| IsDir
| IsFile (bytes : string).

Definition kind_of (n : node) (p : path) : kind :=
  match lookup n p with
  | None => Absent
  | Some (Dir _) => IsDir
  | Some (File b) => IsFile b
  end.

(** The pieces of [s] between slashes, [cur] being the piece read so far. *)
Fixpoint split_slash (s : string) (cur : string) : list string :=
  match s with
  | EmptyString => [cur]
  | String c rest =>
      if Ascii.eqb c "/" then cur :: split_slash rest EmptyString
      else split_slash rest (cur ++ String c EmptyString)
  end.

(** [Path(s)] for a relative [s] that stays below the working directory:
    the components of [s], without the empty ones and the dots.  An absolute
    [s], or one that goes up through [..], names a place outside the tree,
    which is not represented; the components are then looked up in the tree
    all the same. *)
Definition Path (s : string) : path :=
  filter (fun c => negb (String.eqb c EmptyString || String.eqb c "."))
         (split_slash s EmptyString).

End FS.
Import FS.

(** ** Effects *)

(** Values interpolated into a printed line.  [AAbspath s] is the value of
    [os.path.abspath(s)], which depends on the working directory. *)
Inductive parg : Type :=
| AStr (s : string)
| ANat (n : nat)
| APath (p : path)
| AAbspath (s : string)
| AJson (x : json)
| AExn (e : exn).

(** The observable events of a run.  A printed line is the text of the
    f-string in the source with the values of its fields. *)
Inductive event : Type :=
| Print (template : string) (args : list parg)
| Input (prompt : string)
| Stat (p : path)
| Walk (top : path)
| Read (p : path)
| Write (p : path) (bytes : string).

Record world : Type := World { fs : node; stdin : list string }.

(** A computation: from a world to a result (or an exception), the world
    it leaves and the events it emitted, oldest first. *)
Definition M (A : Type) : Type := world -> result A * world * list event.

Definition ret {A : Type} (a : A) : M A := fun w => (Ok a, w, []).

Definition bind {A B : Type} (c : M A) (k : A -> M B) : M B :=
  fun w =>
    match c w with
    | (Ok a, w1, l1) => let '(r, w2, l2) := k a w1 in (r, w2, l1 ++ l2)
    | (Raise e, w1, l1) => (Raise e, w1, l1)
    end.

Declare Scope io_scope.
Delimit Scope io_scope with io.
Bind Scope io_scope with M.
Notation "x <- c1 ;; c2" := (bind c1 (fun x => c2))
  (at level 61, c1 at next level, right associativity) : io_scope.
Notation "c1 ;; c2" := (bind c1 (fun _ => c2))
  (at level 61, right associativity) : io_scope.

Definition lift {A : Type} (r : result A) : M A := fun w => (r, w, []).

(** [try: body except <any Exception> as e: handler e]. *)
Definition try_except {A : Type} (body : M A) (handler : exn -> M A) : M A :=
  fun w =>
    match body w with
    | (Ok a, w1, l1) => (Ok a, w1, l1)
    | (Raise e, w1, l1) => let '(r, w2, l2) := handler e w1 in (r, w2, l1 ++ l2)
    end.

(** [for x in xs: s = body x s]. *)
Fixpoint for_each {A S : Type} (xs : list A) (body : A -> S -> M S) (s : S) : M S :=
  match xs with
  | [] => ret s
  | x :: rest => (s1 <- body x s ;; for_each rest body s1)%io
  end.

Definition print (template : string) (args : list parg) : M unit :=
  fun w => (Ok tt, w, [Print template args]).

(** [input(prompt)]: the next line of standard input, [EOFError] at its end. *)
Definition input (prompt : string) : M string :=
  fun w =>
    match stdin w with
    | [] => (Raise EOFError, w, [Input prompt])
    | line :: rest => (Ok line, World (fs w) rest, [Input prompt])
    end.

(** [p.exists()]. *)
Definition path_exists (p : path) : M bool :=
  fun w =>
    (Ok (match lookup (fs w) p with Some _ => true | None => false end), w, [Stat p]).

(** [os.walk(top)].  The listing is taken when the loop starts: the loops of
    the script only create or overwrite regular files, which leaves the
    directories to visit unchanged (lemma [walk_write]). *)
Definition os_walk (top : path) : M (list path) :=
  fun w =>
    (Ok (match lookup (fs w) top with Some n => walk top n | None => [] end), w, [Walk top]).

(** [open(p, 'r', encoding='utf-8')] and reading the whole file. *)
Definition read_file (p : path) : M string :=
  fun w =>
    match lookup (fs w) p with
    | Some (File bytes) => (Ok bytes, w, [Read p])
    | _ => (Raise OSError, w, [])
    end.

(** [with open(p, 'w', encoding='utf-8') as f: json.dump(x, f,
    ensure_ascii=False, indent=4)].  [open] raises [OSError] when [p] is a
    directory; otherwise it creates the file or empties it, and [json.dump]
    writes the chunks of [x] in order.  A chunk that cannot be encoded makes
    [f.write] raise [UnicodeEncodeError]; leaving the [with] block closes
    the file, which then holds the chunks written before.  The event
    records the bytes of the file as it is closed. *)
Definition dump_file (x : json) (p : path) : M unit :=
  fun w =>
    match write (fs w) p (dumped x) with
    | Some n =>
        (if dump_completes x then Ok tt else Raise UnicodeEncodeError,
         World n (stdin w), [Write p (dumped x)])
    | None => (Raise OSError, w, [])
    end.

(** ** The script *)

Definition INDEX_JSON : string := "index.json".
Definition TEXTURES_CACHE : string := "textures.cache".

(** The three counters of the generation walk. *)
Record counts : Type :=
  Counts { processed_count : nat; skipped_count : nat; error_count : nat }.

(** An entry of [found_files] in preview mode. *)
Record file_info : Type :=
  FileInfo { info_path : path; info_format : string;
             info_texture_count : nat; info_textures : json }.

Section Script.

(** The parser of [json.load], applied to the bytes of the file: the parsed
    document, [JSONDecodeError], or [UnicodeDecodeError] for bytes that are
    not UTF-8. *)
Variable json_load : string -> result json.

(** Lines 54-55 and 128-129. *)
Definition load_json (p : path) : M json :=
  (text <- read_file p ;; lift (json_load text))%io.

(** Lines 72-80: the list of textures, abridged beyond five. *)
Definition print_textures (textures : json) : M unit :=
  (n <- lift (len textures) ;;
   if Nat.leb n 5 then
     items <- lift (iter textures) ;;
     for_each (enumerate 0 items)
       (fun it _ => print "    {i+1}. {texture}" [ANat (fst it + 1); AJson (snd it)]) tt
   else
     t0 <- lift (getindex textures 0) ;;
     print "    1. {textures[0]}" [AJson t0] ;;
     t1 <- lift (getindex textures 1) ;;
     print "    2. {textures[1]}" [AJson t1] ;;
     print "    ..." [] ;;
     tl <- lift (getindex textures (-1)) ;;
     print "    {len(textures)}. {textures[-1]}" [ANat n; AJson tl])%io.

(** Lines 68-80: the report of a generated cache file. *)
Definition report_generated (cache_path : path) (format_type : string) (textures : json)
  : M unit :=
  (print "✓ 已生成: {cache_path}" [APath cache_path] ;;
   print "  格式: {format_type}" [AStr format_type] ;;
   n <- lift (len textures) ;;
   print "  包含 {len(textures)} 个纹理文件" [ANat n] ;;
   (* 显示纹理文件列表（如果数量不多的话） *)
   print_textures textures)%io.

(** Lines 84-86. *)
Definition report_skipped (index_json_path : path) (format_type : string) : M unit :=
  (print "⚠ 跳过: {index_json_path}" [APath index_json_path] ;;
   print "  原因: 没有找到支持的textures字段格式" [] ;;
   print "  检测到的格式: {format_type}" [AStr format_type])%io.

(** Lines 89-96: the two [except] clauses; both count an error. *)
Definition handle_error (index_json_path : path) (c : counts) (e : exn) : M counts :=
  match e with
  | JSONDecodeError =>
      (print "✗ JSON错误: {index_json_path}" [APath index_json_path] ;;
       print "  错误详情: {e}" [AExn e] ;;
       ret (Counts (processed_count c) (skipped_count c) (error_count c + 1)))%io
  | _ =>
      (print "✗ 处理错误: {index_json_path}" [APath index_json_path] ;;
       print "  错误详情: {e}" [AExn e] ;;
       ret (Counts (processed_count c) (skipped_count c) (error_count c + 1)))%io
  end.

(** Lines 53-87: the [try] block of the loop body. *)
Definition generate_attempt (root_path : path) (c : counts) : M counts :=
  let index_json_path := root_path ++ [INDEX_JSON] in
  (* 读取index.json文件 *)
  (data <- load_json index_json_path ;;
   (* 提取textures数组 *)
   r <- lift (extract_textures_from_json data) ;;
   let format_type := snd r in
   match fst r with
   | Some textures =>
       (* 生成textures.cache文件路径 *)
       let cache_path := root_path ++ [TEXTURES_CACHE] in
       (* 写入textures.cache文件 *)
       dump_file textures cache_path ;;
       report_generated cache_path format_type textures ;;
       ret (Counts (processed_count c + 1) (skipped_count c) (error_count c))
   | None =>
       report_skipped index_json_path format_type ;;
       ret (Counts (processed_count c) (skipped_count c + 1) (error_count c))
   end)%io.

(** Lines 46-98: the body of the loop of [generate_textures_cache] for one
    directory [root_path] of the walk. *)
Definition generate_step (root_path : path) (c : counts) : M counts :=
  let index_json_path := root_path ++ [INDEX_JSON] in
  (* 检查当前目录是否包含index.json *)
  (found <- path_exists index_json_path ;;
   if found then
     c1 <- try_except (generate_attempt root_path c) (handle_error index_json_path c) ;;
     print (str_mul "-" 50) [] ;;
     ret c1
   else ret c)%io.

Definition LINE_PROCESSED : string := "✓ 成功生成: {processed_count} 个 textures.cache 文件".
Definition LINE_SKIPPED : string := "⚠ 跳过文件: {skipped_count} 个".
Definition LINE_ERRORS : string := "✗ 错误文件: {error_count} 个".
Definition LINE_TOTAL : string :=
  "📁 总计处理: {processed_count + skipped_count + error_count} 个 index.json 文件".

(** Lines 100-105. *)
Definition print_statistics (c : counts) : M unit :=
  (print "\n📊 处理统计:" [] ;;
   print LINE_PROCESSED [ANat (processed_count c)] ;;
   print LINE_SKIPPED [ANat (skipped_count c)] ;;
   print LINE_ERRORS [ANat (error_count c)] ;;
   print LINE_TOTAL [ANat (processed_count c + skipped_count c + error_count c)])%io.

(** Lines 29-105; [directory] is the value of [Path(directory)] (line 34). *)
Definition generate_textures_cache (directory : path) : M unit :=
  (present <- path_exists directory ;;
   if negb present then
     print "错误: 目录 '{directory}' 不存在" [APath directory]
   else
     roots <- os_walk directory ;;
     c <- for_each roots generate_step (Counts 0 0 0) ;;
     print_statistics c)%io.

(** Lines 122-141: the body of the scanning loop of [preview_mode]. *)
Definition preview_step (root_path : path) (found_files : list file_info)
  : M (list file_info) :=
  let index_json_path := root_path ++ [INDEX_JSON] in
  (found <- path_exists index_json_path ;;
   if found then
     try_except
       (data <- load_json index_json_path ;;
        r <- lift (extract_textures_from_json data) ;;
        match fst r with
        | Some textures =>
            n <- lift (len textures) ;;
            ret (found_files ++ [FileInfo index_json_path (snd r) n textures])
        | None => ret found_files
        end)
       (fun _ => ret found_files)
   else ret found_files)%io.

(** Lines 144-148. *)
Definition print_file_info (it : nat * file_info) : M unit :=
  let file_info := snd it in
  (print "{i}. {file_info['path']}" [ANat (fst it); APath (info_path file_info)] ;;
   print "   格式: {file_info['format']}" [AStr (info_format file_info)] ;;
   print "   纹理数量: {file_info['texture_count']}" [ANat (info_texture_count file_info)] ;;
   print "   将生成: {file_info['path'].parent / 'textures.cache'}"
         [APath (removelast (info_path file_info) ++ [TEXTURES_CACHE])])%io.

Definition ANSWERS_YES : list string := ["y"; "yes"; "是"].
Definition PROMPT_CONTINUE : string := "\n是否继续生成 textures.cache 文件? (y/N): ".
Definition LINE_CANCELLED : string := "已取消操作".
Definition LINE_NOTHING_FOUND : string := "没有找到可处理的 index.json 文件".

(** Lines 143-161: the listing of the recognized descriptors and the
    confirmation, or the notice that there is nothing to do. *)
Definition preview_confirm (directory : path) (found_files : list file_info) : M unit :=
  match found_files with
  | _ :: _ =>
      (for_each (enumerate 1 found_files) (fun it _ => print_file_info it) tt ;;
       print "\n总共找到 {len(found_files)} 个可处理的 index.json 文件"
             [ANat (List.length found_files)] ;;
       (* 询问是否继续 *)
       line <- input PROMPT_CONTINUE ;;
       let response := lower (strip line) in
       if str_in response ANSWERS_YES then
         print "\n开始生成..." [] ;;
         print (str_mul "=" 50) [] ;;
         generate_textures_cache directory
       else print LINE_CANCELLED [])%io
  | [] => print LINE_NOTHING_FOUND []
  end.

(** Lines 107-161; [directory] is the value of [Path(directory)] (line 111). *)
Definition preview_mode (directory : path) : M unit :=
  (present <- path_exists directory ;;
   if negb present then
     print "错误: 目录 '{directory}' 不存在" [APath directory]
   else
     print "🔍 预览模式 - 扫描结果:" [] ;;
     print (str_mul "-" 50) [] ;;
     roots <- os_walk directory ;;
     found_files <- for_each roots preview_step [] ;;
     preview_confirm directory found_files)%io.

Definition LINE_USAGE : string := "使用方法:".

(** Lines 170-178. *)
Definition print_usage : M unit :=
  (print LINE_USAGE [] ;;
   print "  python generate_textures_cache.py [目录路径] [选项]" [] ;;
   print "\n选项:" [] ;;
   print "  -p, --preview    预览模式，仅扫描不生成" [] ;;
   print "  -h, --help       显示帮助信息" [] ;;
   print "\n示例:" [] ;;
   print "  python generate_textures_cache.py" [] ;;
   print "  python generate_textures_cache.py /path/to/models" [] ;;
   print "  python generate_textures_cache.py /path/to/models --preview" [])%io.

(** Lines 185-188: the first argument that does not start with a dash. *)
Fixpoint first_positional (args : list string) (default : string) : string :=
  match args with
  | [] => default
  | arg :: rest =>
      if negb (String.prefix "-" arg) then arg else first_positional rest default
  end.

(** Lines 193-200. *)
Definition run (target_directory : string) (preview : bool) : M unit :=
  (print "目标目录: {os.path.abspath(target_directory)}" [AAbspath target_directory] ;;
   print "支持格式: 标准格式 + Live2D Cubism 3.0+ 格式" [] ;;
   print (str_mul "-" 50) [] ;;
   if preview then preview_mode (Path target_directory)
   else generate_textures_cache (Path target_directory))%io.

(** Lines 163-200; [argv] is [sys.argv]. *)
Definition main (argv : list string) : M unit :=
  (print "Live2D Textures Cache 生成器" [] ;;
   print (str_mul "=" 50) [] ;;
   (* 检查命令行参数 *)
   if Nat.ltb 1 (List.length argv) then
     if str_in (nth 1 argv EmptyString) ["-h"; "--help"] then print_usage
     else
       let preview := (str_in "--preview" argv || str_in "-p" argv)%bool in
       (* 获取目录参数 *)
       let target_directory := first_positional (tl argv) "." in
       run target_directory preview
   else run "." false)%io.

End Script.

(** ** Vocabulary of the statements *)

(** The file writes and the prompts among the events of a log. *)
Definition is_write (e : event) : bool :=
  match e with Write _ _ => true | _ => false end.

Definition is_prompt (e : event) : bool :=
  match e with Input _ => true | _ => false end.

(** The events that touch the file system. *)
Definition is_file_access (e : event) : bool :=
  match e with
  | Stat _ | Walk _ | Read _ | Write _ _ => true
  | _ => false
  end.

(** Whether a line with the given template was printed. *)
Definition printed (template : string) (log : list event) : bool :=
  existsb (fun e => match e with
                    | Print t _ => String.eqb t template
                    | _ => false
                    end) log.

Definition writes_of (log : list event) : list event := filter is_write log.
Definition prompts_of (log : list event) : list event := filter is_prompt log.

(** The rule cascade of the specification (section 4.1), by pattern
    matching on the shape of the object. *)
Definition standard_shape (d : list (string * json)) : option json :=
  match dict_get "textures" d with
  | Some (JArr l) => Some (JArr l)
  | _ => None
  end.

Definition cubism_shape (d : list (string * json)) : option json :=
  match dict_get "FileReferences" d with
  | Some (JObj file_refs) =>
      match dict_get "Textures" file_refs with
      | Some (JArr l) => Some (JArr l)
      | _ => None
      end
  | _ => None
  end.

Definition detect (d : list (string * json)) : option json * string :=
  match standard_shape d with
  | Some t => (Some t, FORMAT_STANDARD)
  | None =>
      match cubism_shape d with
      | Some t => (Some t, FORMAT_CUBISM3)
      | None => (None, FORMAT_UNKNOWN)
      end
  end.

(** How the generation walk ends for one directory: without an
    [index.json], with a cache file written in full, with a cache file cut
    short because [json.dump] raised, with a descriptor of no known shape,
    or with an exception raised before any file is opened for writing. *)
Inductive outcome : Type :=
| NoDescriptor
| Generated (textures : json) (format_type : string)
| Truncated (textures : json) (format_type : string)
| Skipped (format_type : string)
| Failed (e : exn).

Section Outcome.

Variable json_load : string -> result json.

(** What reading and parsing [root_path/index.json] and extracting from it
    gives: [None] when there is no such entry. *)
Definition descriptor (n : node) (root_path : path)
  : option (result (option json * string)) :=
  match kind_of n (root_path ++ [INDEX_JSON]) with
  | Absent => None
  | IsDir => Some (Raise OSError)
  | IsFile bytes => Some (data <- json_load bytes ;; extract_textures_from_json data)%result
  end.

Definition step_outcome (n : node) (root_path : path) : outcome :=
  match descriptor n root_path with
  | None => NoDescriptor
  | Some (Raise e) => Failed e
  | Some (Ok (None, format_type)) => Skipped format_type
  | Some (Ok (Some textures, format_type)) =>
      match kind_of n (root_path ++ [TEXTURES_CACHE]) with
      | IsDir => Failed OSError
      | _ =>
          if dump_completes textures then Generated textures format_type
          else Truncated textures format_type
      end
  end.

End Outcome.

Definition tally (o : outcome) (c : counts) : counts :=
  match o with
  | NoDescriptor => c
  | Generated _ _ => Counts (processed_count c + 1) (skipped_count c) (error_count c)
  | Skipped _ => Counts (processed_count c) (skipped_count c + 1) (error_count c)
  | Truncated _ _ | Failed _ =>
      Counts (processed_count c) (skipped_count c) (error_count c + 1)
  end.

Definition total (c : counts) : nat :=
  processed_count c + skipped_count c + error_count c.

(** The bytes that a step leaves in the cache file, when it opens it. *)
Definition cache_bytes (o : outcome) : option string :=
  match o with
  | Generated textures _ | Truncated textures _ => Some (dumped textures)
  | _ => None
  end.

Definition step_writes (o : outcome) (root_path : path) : list event :=
  match cache_bytes o with
  | Some bytes => [Write (root_path ++ [TEXTURES_CACHE]) bytes]
  | None => []
  end.

Definition step_fs (o : outcome) (root_path : path) (n : node) : node :=
  match cache_bytes o with
  | Some bytes =>
      match write n (root_path ++ [TEXTURES_CACHE]) bytes with
      | Some n1 => n1
      | None => n
      end
  | None => n
  end.

Definition has_descriptor (n : node) (root_path : path) : bool :=
  match kind_of n (root_path ++ [INDEX_JSON]) with
  | Absent => false
  | _ => true
  end.

(** The directories the walk visits from [directory]. *)
Definition walked (n : node) (directory : path) : list path :=
  match lookup n directory with
  | Some top => walk directory top
  | None => []
  end.

(** The confirmation test of preview mode (lines 153-154). *)
Definition confirms (line : string) : bool :=
  str_in (lower (strip line)) ANSWERS_YES.

(** Two trees agree when a step of the walk cannot tell them apart: the same
    paths are directories and every [index.json] is the same. *)
Definition agree (n n' : node) : Prop :=
  (forall p, kind_of n' p = IsDir <-> kind_of n p = IsDir)
  /\ (forall root_path,
        kind_of n' (root_path ++ [INDEX_JSON]) = kind_of n (root_path ++ [INDEX_JSON])).

Section Walk.

Variable json_load : string -> result json.

(** The walk over [roots] as a function of the tree [n0] it started from. *)
Definition walk_counts (n0 : node) (roots : list path) (c : counts) : counts :=
  fold_left (fun c root_path => tally (step_outcome json_load n0 root_path) c) roots c.

Definition walk_fs (n0 : node) (roots : list path) (m : node) : node :=
  fold_left (fun m root_path => step_fs (step_outcome json_load n0 root_path) root_path m)
            roots m.

Definition walk_writes (n0 : node) (roots : list path) : list event :=
  flat_map (fun root_path => step_writes (step_outcome json_load n0 root_path) root_path)
           roots.

(** The cache file of [root_path] already holds what the walk from [n0]
    writes there. *)
Definition settled (n0 : node) (root_path : path) (m : node) : Prop :=
  forall bytes,
    cache_bytes (step_outcome json_load n0 root_path) = Some bytes ->
    kind_of m (root_path ++ [TEXTURES_CACHE]) = IsFile bytes.

(** The recognized descriptors that the scan of preview mode collects. *)
Definition scan_entry (n : node) (root_path : path) : list file_info :=
  match descriptor json_load n root_path with
  | Some (Ok (Some (JArr l), format_type)) =>
      [FileInfo (root_path ++ [INDEX_JSON]) format_type (List.length l) (JArr l)]
  | _ => []
  end.

(** The recognized set of preview mode for [directory]. *)
Definition scan (n : node) (directory : path) : list file_info :=
  flat_map (scan_entry n) (walked n directory).

End Walk.

(** A computation that only prints: it returns [a], leaves the world as it
    is, writes no file and asks nothing. *)
Definition output_only {A : Type} (m : M A) (a : A) : Prop :=
  forall w, exists log,
    m w = (Ok a, w, log) /\ writes_of log = [] /\ prompts_of log = [].

(** ** Example inputs *)

Definition doc_empty : json := JObj [("textures", JArr [])].
Definition doc_standard : json := JObj [("textures", JArr [JStr "a.png"; JStr "b.png"])].
Definition doc_cubism : json :=
  JObj [("FileReferences", JObj [("Textures", JArr [JStr "t0.png"])])].
Definition doc_other : json := JObj [("foo", JStr "bar")].
Definition doc_array : json := JArr [JStr "textures"].

Definition example_documents : list json :=
  [doc_empty; doc_standard; doc_cubism; doc_other; doc_array].

(** A parser for the examples.  It reads each document of
    [example_documents] back from its JSON text, as [json.load] does, and
    answers [JSONDecodeError] otherwise; the only other text the examples
    use is "not json", which is not JSON. *)
Definition example_load (text : string) : result json :=
  match find (fun d => String.eqb text (dumps d)) example_documents with
  | Some d => Ok d
  | None => Raise JSONDecodeError
  end.

(** A working directory with one folder of models. *)
Definition example_tree : node :=
  Dir [("models",
        Dir [("index.json", File (dumps doc_empty));
             ("haru", Dir [("index.json", File (dumps doc_standard));
                           ("textures.cache", File "stale")]);
             ("hiyori", Dir [("index.json", File (dumps doc_cubism))]);
             ("broken", Dir [("index.json", File "not json")]);
             ("plain", Dir [("index.json", File (dumps doc_other))]);
             ("list", Dir [("index.json", File (dumps doc_array))]);
             ("empty", Dir [])])].

Definition example_world (answers : list string) : world := World example_tree answers.

(** A model folder in which [textures.cache] is a directory. *)
Definition blocked_tree : node :=
  Dir [("model", Dir [("index.json", File (dumps doc_empty));
                      ("textures.cache", Dir [])])].

(** ** Vocabulary of the further properties *)

(** The lines printed among the events of a log. *)
Definition is_print (e : event) : bool :=
  match e with Print _ _ => true | _ => false end.

Definition prints_of (log : list event) : list event := filter is_print log.

Section Classes.

Variable json_load : string -> result json.

(** The descriptors of a walk by what the loop body meets: one of no known
    shape; a recognized one next to which [textures.cache] can be opened;
    one on which an exception is raised before any file is opened for
    writing. *)
Definition unrecognized (n : node) (root_path : path) : bool :=
  match descriptor json_load n root_path with
  | Some (Ok (None, _)) => true
  | _ => false
  end.

Definition opens_cache (n : node) (root_path : path) : bool :=
  match descriptor json_load n root_path with
  | Some (Ok (Some _, _)) =>
      match kind_of n (root_path ++ [TEXTURES_CACHE]) with
      | IsDir => false
      | _ => true
      end
  | _ => false
  end.

Definition fails_early (n : node) (root_path : path) : bool :=
  match descriptor json_load n root_path with
  | Some (Raise _) => true
  | Some (Ok (Some _, _)) =>
      match kind_of n (root_path ++ [TEXTURES_CACHE]) with
      | IsDir => true
      | _ => false
      end
  | _ => false
  end.

(** The textures of the descriptor, if it is recognized, are names that can
    all be encoded. *)
Definition plain_names (n : node) (root_path : path) : Prop :=
  forall t f,
    descriptor json_load n root_path = Some (Ok (Some t, f)) ->
    exists names, t = JArr (map JStr names) /\ forallb encodable names = true.

End Classes.

(** The paths that the listing of preview mode announces (line 148), and
    the paths of the files opened for writing, among the events of a log. *)
Definition LINE_WILL_WRITE : string :=
  "   将生成: {file_info['path'].parent / 'textures.cache'}".

Definition announced (log : list event) : list path :=
  flat_map (fun e => match e with
                     | Print template [APath p] =>
                         if String.eqb template LINE_WILL_WRITE then [p] else []
                     | _ => []
                     end) log.

Definition opened_for_writing (log : list event) : list path :=
  flat_map (fun e => match e with Write p _ => [p] | _ => [] end) log.

(** The events of a computation run in a world. *)
Definition log_of {A : Type} (m : M A) (w : world) : list event := snd (m w).

(** A lone surrogate, U+D800, and a folder whose descriptor lists it as a
    texture name after a name that can be encoded.  The text of the
    descriptor holds it as an escape, which [json.load] accepts. *)
Definition lone_surrogate : string :=
  String "237" (String "160" (String "128" EmptyString)).

Definition doc_surrogate : json :=
  JObj [("textures", JArr [JStr "ok.png"; JStr lone_surrogate])].

Definition text_surrogate : string :=
  let quote := String "034" EmptyString in
  ("{" ++ quote ++ "textures" ++ quote ++ ": [" ++ quote ++ "ok.png" ++ quote ++ ", "
       ++ quote ++ "\ud800" ++ quote ++ "]}")%string.

Definition surrogate_load (text : string) : result json :=
  if String.eqb text text_surrogate then Ok doc_surrogate else Raise JSONDecodeError.

Definition surrogate_tree : node :=
  Dir [("model", Dir [("index.json", File text_surrogate);
                      ("textures.cache", File "stale")])].

(** [arg.startswith('-')]. *)
Definition starts_with_dash (arg : string) : bool := String.prefix "-" arg.

(** A string of white space only. *)
Fixpoint blank (s : string) : bool :=
  match s with
  | EmptyString => true
  | String c rest => (is_space c && blank rest)%bool
  end.

(** The value of a lower-case hexadecimal digit. *)
Definition hex_value (c : ascii) : nat :=
  let n := nat_of_ascii c in
  if Nat.leb 97 n then n - 87 else n - 48.

(** A reader for the first escaped character of a JSON string body and
    what follows it: the inverse of [escape_char], by which [escape] is shown
    to lose nothing. *)
Definition unescape_head (s : string) : option (ascii * string) :=
  match s with
  | EmptyString => None
  | String a rest =>
      if Ascii.eqb a "\" then
        match rest with
        | String b rest1 =>
            if Ascii.eqb b "034" then Some (b, rest1)
            else if Ascii.eqb b "\" then Some (b, rest1)
            else if Ascii.eqb b "b" then Some (ascii_of_nat 8, rest1)
            else if Ascii.eqb b "f" then Some (ascii_of_nat 12, rest1)
            else if Ascii.eqb b "n" then Some (ascii_of_nat 10, rest1)
            else if Ascii.eqb b "r" then Some (ascii_of_nat 13, rest1)
            else if Ascii.eqb b "t" then Some (ascii_of_nat 9, rest1)
            else
              match rest1 with
              | String _ (String _ (String h (String l rest2))) =>
                  Some (ascii_of_nat (16 * hex_value h + hex_value l), rest2)
              | _ => None
              end
        | EmptyString => None
        end
      else Some (a, rest)
  end.

(** The first line that the [except] clauses print for an exception (lines
    90 and 94). *)
Definition error_headline (e : exn) : string :=
  match e with
  | JSONDecodeError => "✗ JSON错误: {index_json_path}"
  | _ => "✗ 处理错误: {index_json_path}"
  end.

(** The listing of [print_textures] for a list: every texture when there
    are at most five, the first two and the last otherwise. *)
Definition texture_lines (l : list json) : list event :=
  if Nat.leb (List.length l) 5 then
    map (fun it => Print "    {i+1}. {texture}" [ANat (fst it + 1); AJson (snd it)])
        (enumerate 0 l)
  else
    [Print "    1. {textures[0]}" [AJson (nth 0 l JNull)];
     Print "    2. {textures[1]}" [AJson (nth 1 l JNull)];
     Print "    ..." [];
     Print "    {len(textures)}. {textures[-1]}" [ANat (List.length l); AJson (last l JNull)]].

(** A working directory in which [models] is a regular file. *)
Definition file_tree : node := Dir [("models", File "not a folder")].

(** * Properties *)

(** ** The extractor *)

Example extract_standard :
  extract_textures_from_json (JObj [("textures", JArr [JStr "a.png"; JStr "b.png"])])
  = Ok (Some (JArr [JStr "a.png"; JStr "b.png"]), FORMAT_STANDARD).
Proof. reflexivity. Qed.

Example extract_cubism :
  extract_textures_from_json
    (JObj [("FileReferences", JObj [("Textures", JArr [JStr "t0.png"])])])
  = Ok (Some (JArr [JStr "t0.png"]), FORMAT_CUBISM3).
Proof. reflexivity. Qed.

Example extract_unknown :
  extract_textures_from_json (JObj [("foo", JStr "bar")]) = Ok (None, FORMAT_UNKNOWN).
Proof. reflexivity. Qed.

Example extract_number_raises :
  extract_textures_from_json (JInt 7) = Raise TypeError.
Proof. reflexivity. Qed.

Example extract_plain_list :
  extract_textures_from_json (JArr [JStr "a.png"]) = Ok (None, FORMAT_UNKNOWN).
Proof. reflexivity. Qed.

Example dumps_two :
  dumps (JArr [JStr "a.png"; JStr "b.png"])
  = ("[" ++ newline_indent 1 ++ encode_str "a.png" ++ ","
         ++ newline_indent 1 ++ encode_str "b.png" ++ newline_indent 0 ++ "]")%string.
Proof. reflexivity. Qed.

Example dumps_empty : dumps (JArr []) = "[]".
Proof. reflexivity. Qed.

(** On an object the extractor is the rule cascade: it never raises. *)
Lemma extract_object (d : list (string * json)) :
  extract_textures_from_json (JObj d) = Ok (detect d).
Proof.
  unfold extract_textures_from_json, detect, standard_shape, cubism_shape,
    and_then, contains, getitem, rbind.
  destruct (dict_get "textures" d) as [[ | | | | | l | m]|]; try reflexivity;
    destruct (dict_get "FileReferences" d) as [[ | | | | | l' | fr]|]; try reflexivity;
    destruct (dict_get "Textures" fr) as [[ | | | | | l'' | m'']|]; reflexivity.
Qed.

(** What the extractor returns as textures is a list. *)
Lemma extract_some_list (data : json) (t : json) (format_type : string) :
  extract_textures_from_json data = Ok (Some t, format_type) ->
  exists l, t = JArr l.
Proof.
  destruct data as [ | b | z | r | s | l | d]; try discriminate.
  - unfold extract_textures_from_json, and_then, contains, getitem, rbind.
    destruct (is_substring "textures" s); [discriminate|].
    destruct (is_substring "FileReferences" s); discriminate.
  - unfold extract_textures_from_json, and_then, contains, getitem, rbind.
    destruct (existsb (str_eq_value "textures") l); [discriminate|].
    destruct (existsb (str_eq_value "FileReferences") l); discriminate.
  - rewrite extract_object. unfold detect, standard_shape, cubism_shape.
    destruct (dict_get "textures" d) as [[ | | | | | l | m]|];
      try (intros [= <- _]; eauto);
      destruct (dict_get "FileReferences" d) as [[ | | | | | l' | fr]|]; try discriminate;
      destruct (dict_get "Textures" fr) as [[ | | | | | l'' | m'']|]; try discriminate;
      intros [= <- _]; eauto.
Qed.

(** C1.  An object whose key "textures" holds a list yields exactly that
    list with the label of the standard format, whatever else the object
    holds, a well-formed "FileReferences"/"Textures" member included. *)
Theorem extract_standard_first (d : list (string * json)) (l : list json) :
  dict_get "textures" d = Some (JArr l) ->
  extract_textures_from_json (JObj d) = Ok (Some (JArr l), FORMAT_STANDARD).
Proof.
  intros H. rewrite extract_object. unfold detect, standard_shape.
  rewrite H. reflexivity.
Qed.

Lemma extract_standard_first_witness :
  extract_textures_from_json
    (JObj [("FileReferences", JObj [("Textures", JArr [JStr "n.png"])]);
           ("textures", JArr [JStr "a.png"; JStr "a.png"])])
  = Ok (Some (JArr [JStr "a.png"; JStr "a.png"]), FORMAT_STANDARD).
Proof. apply extract_standard_first. reflexivity. Defined.

(** C2.  An object without a list under "textures" whose "FileReferences"
    member is an object holding a list under "Textures" yields that nested
    list with the label of the Cubism 3.0+ format. *)
Theorem extract_cubism_nested (d file_refs : list (string * json)) (l : list json) :
  (forall l0, dict_get "textures" d <> Some (JArr l0)) ->
  dict_get "FileReferences" d = Some (JObj file_refs) ->
  dict_get "Textures" file_refs = Some (JArr l) ->
  extract_textures_from_json (JObj d) = Ok (Some (JArr l), FORMAT_CUBISM3).
Proof.
  intros Hstd Hrefs Htex. rewrite extract_object.
  unfold detect, standard_shape, cubism_shape. rewrite Hrefs, Htex.
  destruct (dict_get "textures" d) as [[ | | | | | l0 | m]|]; try reflexivity.
  exfalso. apply (Hstd l0). reflexivity.
Qed.

Lemma extract_cubism_nested_witness :
  extract_textures_from_json
    (JObj [("textures", JStr "none");
           ("FileReferences", JObj [("Textures", JArr [JStr "t0.png"])])])
  = Ok (Some (JArr [JStr "t0.png"]), FORMAT_CUBISM3).
Proof.
  apply extract_cubism_nested with (file_refs := [("Textures", JArr [JStr "t0.png"])]).
  - intros l0. simpl. discriminate.
  - reflexivity.
  - reflexivity.
Defined.

(** C4.  On an object the extractor never raises, and a relevant key with a
    value of the wrong type counts as a shape that does not match: a
    "textures" member that is not a list leaves the decision to the second
    rule, and a "FileReferences" member that is not an object, or a nested
    "Textures" member that is not a list, leaves the result absent with the
    label of the unknown format when the first rule did not match. *)
Theorem extract_wrong_type_falls_through (d : list (string * json)) :
  (exists r, extract_textures_from_json (JObj d) = Ok r) /\
  (forall v, dict_get "textures" d = Some v -> isinstance_list v = false ->
     extract_textures_from_json (JObj d) =
     Ok (match cubism_shape d with
         | Some t => (Some t, FORMAT_CUBISM3)
         | None => (None, FORMAT_UNKNOWN)
         end)) /\
  (forall v, standard_shape d = None ->
     dict_get "FileReferences" d = Some v -> isinstance_dict v = false ->
     extract_textures_from_json (JObj d) = Ok (None, FORMAT_UNKNOWN)) /\
  (forall file_refs v, standard_shape d = None ->
     dict_get "FileReferences" d = Some (JObj file_refs) ->
     dict_get "Textures" file_refs = Some v -> isinstance_list v = false ->
     extract_textures_from_json (JObj d) = Ok (None, FORMAT_UNKNOWN)) /\
  (standard_shape d = None -> cubism_shape d = None ->
     extract_textures_from_json (JObj d) = Ok (None, FORMAT_UNKNOWN)).
Proof.
  rewrite extract_object. repeat split.
  - eexists. reflexivity.
  - intros v Hv Hty. unfold detect, standard_shape. rewrite Hv.
    destruct v; try discriminate; reflexivity.
  - intros v Hstd Hv Hty. unfold detect, cubism_shape. rewrite Hstd, Hv.
    destruct v; try discriminate; reflexivity.
  - intros file_refs v Hstd Hrefs Hv Hty. unfold detect, cubism_shape.
    rewrite Hstd, Hrefs, Hv. destruct v; try discriminate; reflexivity.
  - intros Hstd Hcub. unfold detect. rewrite Hstd, Hcub. reflexivity.
Qed.

Lemma extract_wrong_type_falls_through_witness :
  extract_textures_from_json
    (JObj [("textures", JInt 3);
           ("FileReferences", JObj [("Textures", JArr [JStr "t0.png"])])])
  = Ok (Some (JArr [JStr "t0.png"]), FORMAT_CUBISM3)
  /\ extract_textures_from_json (JObj [("FileReferences", JArr [])])
     = Ok (None, FORMAT_UNKNOWN)
  /\ extract_textures_from_json
       (JObj [("textures", JNull); ("FileReferences", JObj [("Textures", JStr "t")])])
     = Ok (None, FORMAT_UNKNOWN).
Proof.
  split; [|split].
  - apply (proj1 (proj2 (extract_wrong_type_falls_through
             [("textures", JInt 3);
              ("FileReferences", JObj [("Textures", JArr [JStr "t0.png"])])]))
             (JInt 3)); reflexivity.
  - apply (proj1 (proj2 (proj2 (extract_wrong_type_falls_through
             [("FileReferences", JArr [])]))) (JArr [])); reflexivity.
  - apply (proj1 (proj2 (proj2 (proj2 (extract_wrong_type_falls_through
             [("textures", JNull); ("FileReferences", JObj [("Textures", JStr "t")])]))))
             [("Textures", JStr "t")] (JStr "t")); reflexivity.
Defined.

(** ** The file system *)

Lemma child_set_child_eq (name : string) (c : node) (es : list (string * node)) :
  child name (set_child name c es) = Some c.
Proof.
  induction es as [|[k v] rest IH]; simpl.
  - rewrite String.eqb_refl. reflexivity.
  - destruct (String.eqb name k) eqn:E; simpl; rewrite E; auto.
Qed.

Lemma child_set_child_neq (name other : string) (c : node) (es : list (string * node)) :
  other <> name ->
  child other (set_child name c es) = child other es.
Proof.
  intros Hne. induction es as [|[k v] rest IH]; simpl.
  - destruct (String.eqb_spec other name); [contradiction|reflexivity].
  - destruct (String.eqb_spec name k) as [->|Hk]; simpl.
    + destruct (String.eqb_spec other k); [contradiction|reflexivity].
    + rewrite IH. reflexivity.
Qed.

Lemma set_child_same (name : string) (c : node) (es : list (string * node)) :
  child name es = Some c -> set_child name c es = es.
Proof.
  induction es as [|[k v] rest IH]; simpl; [discriminate|].
  destruct (String.eqb name k).
  - intros [= ->]. reflexivity.
  - intros H. rewrite IH by assumption. reflexivity.
Qed.

Lemma kind_of_nil (n : node) :
  kind_of n [] = match n with File b => IsFile b | Dir _ => IsDir end.
Proof. destruct n; reflexivity. Qed.

Lemma kind_of_cons (n : node) (name : string) (rest : path) :
  kind_of n (name :: rest) =
  match n with
  | File _ => Absent
  | Dir es => match child name es with
              | Some c => kind_of c rest
              | None => Absent
              end
  end.
Proof.
  unfold kind_of. simpl. destruct n as [b|es]; [reflexivity|].
  destruct (child name es); reflexivity.
Qed.

(** A successful write changes what exactly one path is. *)
Lemma kind_of_write (p : path) :
  forall (n n' : node) (b : string),
    write n p b = Some n' ->
    forall q, kind_of n' q = if list_eq_dec string_dec q p then IsFile b else kind_of n q.
Proof.
  induction p as [|name rest IH]; intros n n' b Hw q.
  - destruct n as [b0|es]; simpl in Hw; [|discriminate].
    injection Hw as <-. destruct q as [|x q'].
    + destruct (list_eq_dec string_dec [] []); [reflexivity|contradiction].
    + destruct (list_eq_dec string_dec (x :: q') []); [discriminate|reflexivity].
  - destruct n as [b0|es]; simpl in Hw; [discriminate|].
    destruct (child name es) as [c|] eqn:Hc.
    + destruct (write c rest b) as [c'|] eqn:Hwc; [|discriminate].
      injection Hw as <-. destruct q as [|x q'].
      * destruct (list_eq_dec string_dec [] (name :: rest)); [discriminate|reflexivity].
      * rewrite !kind_of_cons.
        destruct (string_dec x name) as [->|Hx].
        -- rewrite child_set_child_eq, Hc, (IH _ _ _ Hwc q').
           destruct (list_eq_dec string_dec q' rest) as [->|Hq];
             destruct (list_eq_dec string_dec (name :: _) (name :: rest)) as [E|E];
             try reflexivity; try congruence.
        -- rewrite child_set_child_neq by assumption.
           destruct (list_eq_dec string_dec (x :: q') (name :: rest)); [congruence|reflexivity].
    + destruct rest as [|y rest']; [|discriminate].
      injection Hw as <-. destruct q as [|x q'].
      * destruct (list_eq_dec string_dec [] [name]); [discriminate|reflexivity].
      * rewrite !kind_of_cons.
        destruct (string_dec x name) as [->|Hx].
        -- rewrite child_set_child_eq, Hc.
           destruct q' as [|z q''].
           ++ destruct (list_eq_dec string_dec [name] [name]); [reflexivity|contradiction].
           ++ destruct (list_eq_dec string_dec (name :: z :: q'') [name]);
                [discriminate|reflexivity].
        -- rewrite child_set_child_neq by assumption.
           destruct (list_eq_dec string_dec (x :: q') [name]); [congruence|reflexivity].
Qed.

(** Writing to a file the bytes it already holds changes nothing. *)
Lemma write_absorb (p : path) :
  forall (n : node) (b : string), kind_of n p = IsFile b -> write n p b = Some n.
Proof.
  induction p as [|name rest IH]; intros n b Hk.
  - rewrite kind_of_nil in Hk. destruct n; [|discriminate].
    injection Hk as ->. reflexivity.
  - rewrite kind_of_cons in Hk. destruct n as [b0|es]; [discriminate|].
    simpl. destruct (child name es) as [c|] eqn:Hc; [|discriminate].
    rewrite (IH _ _ Hk), (set_child_same _ _ Hc). reflexivity.
Qed.

(** In a directory that has an entry, a name that is not a subdirectory can
    be written. *)
Lemma write_succeeds (root : path) :
  forall (n : node) (name other : string) (b : string),
    kind_of n (root ++ [other]) <> Absent ->
    kind_of n (root ++ [name]) <> IsDir ->
    exists n', write n (root ++ [name]) b = Some n'.
Proof.
  induction root as [|r root' IH]; intros n name other b Hother Hname.
  - simpl in *. rewrite kind_of_cons in Hother, Hname.
    destruct n as [b0|es]; [contradiction|].
    destruct (child name es) as [c|] eqn:Hc.
    + destruct c as [bc|esc].
      * eexists. reflexivity.
      * exfalso. apply Hname. reflexivity.
    + eexists. reflexivity.
  - simpl in *. rewrite kind_of_cons in Hother, Hname.
    destruct n as [b0|es]; [contradiction|].
    destruct (child r es) as [c|] eqn:Hc; [|contradiction].
    destruct (IH c name other b Hother Hname) as [c' Hw].
    rewrite Hw. eexists. reflexivity.
Qed.

Lemma write_fails_on_dir (p : path) :
  forall (n : node) (b : string), kind_of n p = IsDir -> write n p b = None.
Proof.
  induction p as [|name rest IH]; intros n b Hk.
  - rewrite kind_of_nil in Hk. destruct n; [discriminate|reflexivity].
  - rewrite kind_of_cons in Hk. destruct n as [b0|es]; [discriminate|].
    simpl. destruct (child name es) as [c|] eqn:Hc; [|discriminate].
    rewrite (IH _ _ Hk). reflexivity.
Qed.

Lemma flat_map_set_child_replace (f : string * node -> list path)
      (name : string) (c c' : node) (es : list (string * node)) :
  child name es = Some c ->
  (forall k, f (k, c') = f (k, c)) ->
  flat_map f (set_child name c' es) = flat_map f es.
Proof.
  intros Hc Hf. induction es as [|[k v] rest IH]; simpl in *; [discriminate|].
  destruct (String.eqb name k).
  - injection Hc as ->. simpl. rewrite Hf. reflexivity.
  - simpl. rewrite IH by assumption. reflexivity.
Qed.

Lemma flat_map_set_child_new (f : string * node -> list path)
      (name : string) (c' : node) (es : list (string * node)) :
  child name es = None ->
  f (name, c') = [] ->
  flat_map f (set_child name c' es) = flat_map f es.
Proof.
  intros Hc Hf. induction es as [|[k v] rest IH]; simpl in *.
  - rewrite Hf. reflexivity.
  - destruct (String.eqb name k); [discriminate|].
    simpl. rewrite IH by assumption. reflexivity.
Qed.

(** A write creates no directory and removes none. *)
Lemma walk_write (p : path) :
  forall (n n' : node) (b : string),
    write n p b = Some n' -> forall top, walk top n' = walk top n.
Proof.
  induction p as [|name rest IH]; intros n n' b Hw top.
  - destruct n; simpl in Hw; [|discriminate]. injection Hw as <-. reflexivity.
  - destruct n as [b0|es]; simpl in Hw; [discriminate|].
    destruct (child name es) as [c|] eqn:Hc.
    + destruct (write c rest b) as [c'|] eqn:Hwc; [|discriminate].
      injection Hw as <-. simpl. f_equal.
      apply flat_map_set_child_replace with (c := c); [assumption|].
      intros k. simpl. apply (IH _ _ _ Hwc).
    + destruct rest; [|discriminate]. injection Hw as <-. simpl. f_equal.
      apply flat_map_set_child_new; [assumption|reflexivity].
Qed.

Lemma walked_write_gen (p : path) :
  forall (n n' : node) (b : string),
    write n p b = Some n' ->
    forall pre d,
      match lookup n' d with Some t => walk (pre ++ d) t | None => [] end
      = match lookup n d with Some t => walk (pre ++ d) t | None => [] end.
Proof.
  induction p as [|name rest IH]; intros n n' b Hw pre d.
  - destruct n; simpl in Hw; [|discriminate]. injection Hw as <-.
    destruct d; reflexivity.
  - destruct d as [|x d'].
    + simpl. apply (walk_write _ _ _ Hw).
    + destruct n as [b0|es]; simpl in Hw; [discriminate|].
      replace (pre ++ x :: d') with ((pre ++ [x]) ++ d')
        by (rewrite <- app_assoc; reflexivity).
      destruct (child name es) as [c|] eqn:Hc.
      * destruct (write c rest b) as [c'|] eqn:Hwc; [|discriminate].
        injection Hw as <-. simpl.
        destruct (string_dec x name) as [->|Hx].
        -- rewrite child_set_child_eq, Hc. apply (IH _ _ _ Hwc).
        -- rewrite child_set_child_neq by assumption. reflexivity.
      * destruct rest; [|discriminate]. injection Hw as <-. simpl.
        destruct (string_dec x name) as [->|Hx].
        -- rewrite child_set_child_eq, Hc. destruct d'; reflexivity.
        -- rewrite child_set_child_neq by assumption. reflexivity.
Qed.

Lemma walked_write (p : path) (n n' : node) (b : string) (directory : path) :
  write n p b = Some n' -> walked n' directory = walked n directory.
Proof.
  intros Hw. unfold walked. apply (walked_write_gen _ _ _ Hw [] directory).
Qed.

(** ** Printing blocks *)

Lemma writes_of_app (l1 l2 : list event) :
  writes_of (l1 ++ l2) = writes_of l1 ++ writes_of l2.
Proof. apply filter_app. Qed.

Lemma prompts_of_app (l1 l2 : list event) :
  prompts_of (l1 ++ l2) = prompts_of l1 ++ prompts_of l2.
Proof. apply filter_app. Qed.

Lemma writes_of_cons (e : event) (l : list event) :
  writes_of (e :: l) = if is_write e then e :: writes_of l else writes_of l.
Proof. reflexivity. Qed.

Lemma prompts_of_cons (e : event) (l : list event) :
  prompts_of (e :: l) = if is_prompt e then e :: prompts_of l else prompts_of l.
Proof. reflexivity. Qed.

Lemma writes_of_nil : writes_of [] = [].
Proof. reflexivity. Qed.

Lemma prompts_of_nil : prompts_of [] = [].
Proof. reflexivity. Qed.

(** Normalise the projections of a log built from pieces. *)
Ltac log_simpl :=
  repeat progress
    (rewrite ?writes_of_app, ?prompts_of_app, ?writes_of_cons, ?prompts_of_cons,
       ?writes_of_nil, ?prompts_of_nil;
     cbn [is_write is_prompt app]).

Lemma output_only_ret {A : Type} (a : A) : output_only (ret a) a.
Proof. intros w. exists []. repeat split. Qed.

Lemma output_only_print (template : string) (args : list parg) :
  output_only (print template args) tt.
Proof. intros w. eexists. repeat split. Qed.

Lemma output_only_lift {A : Type} (a : A) : output_only (lift (Ok a)) a.
Proof. intros w. exists []. repeat split. Qed.

Lemma output_only_bind {A B : Type} (m : M A) (k : A -> M B) (a : A) (b : B) :
  output_only m a -> output_only (k a) b -> output_only (bind m k) b.
Proof.
  intros Hm Hk w. destruct (Hm w) as (l1 & E1 & W1 & P1).
  destruct (Hk w) as (l2 & E2 & W2 & P2).
  exists (l1 ++ l2). unfold bind. rewrite E1, E2.
  rewrite writes_of_app, prompts_of_app, W1, W2, P1, P2. repeat split.
Qed.

Lemma output_only_for_each {A : Type} (xs : list A) (body : A -> unit -> M unit) :
  (forall x, output_only (body x tt) tt) ->
  output_only (for_each xs body tt) tt.
Proof.
  intros Hbody. induction xs as [|x rest IH]; simpl.
  - apply output_only_ret.
  - eapply output_only_bind; [apply Hbody|apply IH].
Qed.

Ltac output_steps :=
  repeat first
    [ apply output_only_ret
    | apply output_only_print
    | apply output_only_lift
    | eapply output_only_bind ].

Lemma getindex_nth (l : list json) (i : nat) (v : json) :
  nth_error l i = Some v -> getindex (JArr l) (Z.of_nat i) = Ok v.
Proof.
  intros Hv. unfold getindex.
  assert (Hi : (i < List.length l)%nat) by (apply nth_error_Some; congruence).
  replace (Z.of_nat i <? 0)%Z with false by (symmetry; apply Z.ltb_ge; lia).
  replace ((0 <=? Z.of_nat i)%Z && (Z.of_nat i <? Z.of_nat (List.length l))%Z)%bool
    with true by (symmetry; apply andb_true_iff; split; [apply Z.leb_le|apply Z.ltb_lt]; lia).
  rewrite Nat2Z.id, Hv. reflexivity.
Qed.

Lemma getindex_last (l : list json) :
  l <> [] -> exists v, getindex (JArr l) (-1) = Ok v.
Proof.
  intros Hl. unfold getindex.
  assert (Hn : (0 < Z.of_nat (List.length l))%Z).
  { destruct l; [contradiction|]. simpl List.length. lia. }
  replace (-1 <? 0)%Z with true by reflexivity.
  replace ((0 <=? -1 + Z.of_nat (List.length l))%Z
           && (-1 + Z.of_nat (List.length l) <? Z.of_nat (List.length l))%Z)%bool
    with true by (symmetry; apply andb_true_iff; split; [apply Z.leb_le|apply Z.ltb_lt]; lia).
  destruct (nth_error l (Z.to_nat (-1 + Z.of_nat (List.length l)))) as [v|] eqn:E.
  - eauto.
  - apply nth_error_None in E. lia.
Qed.

Lemma output_only_print_textures (l : list json) :
  output_only (print_textures (JArr l)) tt.
Proof.
  unfold print_textures. eapply output_only_bind; [apply output_only_lift|].
  destruct (Nat.leb (List.length l) 5) eqn:E.
  - eapply output_only_bind; [apply output_only_lift|].
    apply output_only_for_each. intros x. apply output_only_print.
  - apply Nat.leb_gt in E.
    destruct l as [|a [|b rest]]; simpl in E; try lia.
    destruct (getindex_last (l := a :: b :: rest)) as [v Hv]; [discriminate|].
    rewrite Hv.
    rewrite (@getindex_nth (a :: b :: rest) 0 a eq_refl : getindex _ 0 = _).
    rewrite (@getindex_nth (a :: b :: rest) 1 b eq_refl : getindex _ 1 = _).
    output_steps.
Qed.

Lemma output_only_report_generated (p : path) (format_type : string) (l : list json) :
  output_only (report_generated p format_type (JArr l)) tt.
Proof.
  unfold report_generated.
  eapply output_only_bind; [apply output_only_print|].
  eapply output_only_bind; [apply output_only_print|].
  eapply output_only_bind; [apply output_only_lift|].
  eapply output_only_bind; [apply output_only_print|].
  apply output_only_print_textures.
Qed.

Lemma output_only_report_skipped (p : path) (format_type : string) :
  output_only (report_skipped p format_type) tt.
Proof. unfold report_skipped. output_steps. Qed.

Lemma output_only_handle_error (p : path) (c : counts) (e : exn) :
  output_only (handle_error p c e)
              (Counts (processed_count c) (skipped_count c) (error_count c + 1)).
Proof. destruct e; unfold handle_error; output_steps. Qed.

(** ** One directory of the generation walk *)

Lemma world_eta (w : world) : World (fs w) (stdin w) = w.
Proof. destruct w; reflexivity. Qed.

Lemma run_bind_ok {A B : Type} (m : M A) (k : A -> M B) (w w1 w2 : world)
      (a : A) (r : result B) (l1 l2 : list event) :
  m w = (Ok a, w1, l1) -> k a w1 = (r, w2, l2) -> bind m k w = (r, w2, l1 ++ l2).
Proof. intros E1 E2. unfold bind. rewrite E1, E2. reflexivity. Qed.

Lemma run_bind_raise {A B : Type} (m : M A) (k : A -> M B) (w w1 : world)
      (e : exn) (l1 : list event) :
  m w = (Raise e, w1, l1) -> bind m k w = (Raise e, w1, l1).
Proof. intros E1. unfold bind. rewrite E1. reflexivity. Qed.

Lemma run_try_ok {A : Type} (m : M A) (h : exn -> M A) (w w1 : world)
      (a : A) (l1 : list event) :
  m w = (Ok a, w1, l1) -> try_except m h w = (Ok a, w1, l1).
Proof. intros E1. unfold try_except. rewrite E1. reflexivity. Qed.

Lemma run_try_raise {A : Type} (m : M A) (h : exn -> M A) (w w1 w2 : world)
      (e : exn) (r : result A) (l1 l2 : list event) :
  m w = (Raise e, w1, l1) -> h e w1 = (r, w2, l2) ->
  try_except m h w = (r, w2, l1 ++ l2).
Proof. intros E1 E2. unfold try_except. rewrite E1, E2. reflexivity. Qed.

Lemma read_file_file (p : path) (w : world) (b : string) :
  kind_of (fs w) p = IsFile b -> read_file p w = (Ok b, w, [Read p]).
Proof.
  unfold kind_of, read_file.
  destruct (lookup (fs w) p) as [[b0|es]|]; try discriminate.
  intros [= ->]. reflexivity.
Qed.

Lemma read_file_dir (p : path) (w : world) :
  kind_of (fs w) p = IsDir -> read_file p w = (Raise OSError, w, []).
Proof.
  unfold kind_of, read_file.
  destruct (lookup (fs w) p) as [[b0|es]|]; try discriminate. reflexivity.
Qed.

Lemma path_exists_run (p : path) (w : world) :
  path_exists p w
  = (Ok (match kind_of (fs w) p with Absent => false | _ => true end), w, [Stat p]).
Proof.
  unfold kind_of, path_exists.
  destruct (lookup (fs w) p) as [[b0|es]|]; reflexivity.
Qed.

Lemma dump_file_opened (x : json) (p : path) (w : world) (n : node) :
  write (fs w) p (dumped x) = Some n ->
  dump_file x p w
  = (if dump_completes x then Ok tt else Raise UnicodeEncodeError,
     World n (stdin w), [Write p (dumped x)]).
Proof. intros H. unfold dump_file. rewrite H. reflexivity. Qed.

Lemma dump_file_fail (x : json) (p : path) (w : world) :
  write (fs w) p (dumped x) = None -> dump_file x p w = (Raise OSError, w, []).
Proof. intros H. unfold dump_file. rewrite H. reflexivity. Qed.

Section StepFacts.

Variable json_load : string -> result json.

Lemma load_json_file (p : path) (w : world) (bytes : string) :
  kind_of (fs w) p = IsFile bytes ->
  load_json json_load p w = (json_load bytes, w, [Read p]).
Proof.
  intros Hk. unfold load_json.
  change [Read p] with ([Read p] ++ []).
  destruct (json_load bytes) as [data|e] eqn:Hload;
    (eapply run_bind_ok; [apply read_file_file; eassumption|]);
    unfold lift; rewrite Hload; reflexivity.
Qed.

Lemma load_json_dir (p : path) (w : world) :
  kind_of (fs w) p = IsDir ->
  load_json json_load p w = (Raise OSError, w, []).
Proof.
  intros Hk. unfold load_json. apply run_bind_raise. apply read_file_dir. assumption.
Qed.

Lemma outcome_none_iff (n : node) (root_path : path) :
  has_descriptor n root_path = false <-> step_outcome json_load n root_path = NoDescriptor.
Proof.
  unfold has_descriptor, step_outcome, descriptor.
  destruct (kind_of n (root_path ++ [INDEX_JSON])) as [| |bytes].
  - split; reflexivity.
  - split; discriminate.
  - destruct (rbind (json_load bytes) (fun data => extract_textures_from_json data))
      as [[[t|] f]|e]; try (split; discriminate).
    destruct (kind_of n (root_path ++ [TEXTURES_CACHE]));
      destruct (dump_completes t); split; discriminate.
Qed.

(** The [try] block in terms of the outcome of the step. *)
Lemma generate_attempt_spec (root_path : path) (c : counts) (w : world) :
  has_descriptor (fs w) root_path = true ->
  let o := step_outcome json_load (fs w) root_path in
  exists log,
    generate_attempt json_load root_path c w
    = (match o with
       | Failed e => Raise e
       | Truncated _ _ => Raise UnicodeEncodeError
       | _ => Ok (tally o c)
       end,
       World (step_fs o root_path (fs w)) (stdin w), log)
    /\ writes_of log = step_writes o root_path
    /\ prompts_of log = [].
Proof.
  intros Hpresent.
  assert (Hother : kind_of (fs w) (root_path ++ [INDEX_JSON]) <> Absent).
  { unfold has_descriptor in Hpresent.
    destruct (kind_of (fs w) (root_path ++ [INDEX_JSON])); [discriminate| |]; discriminate. }
  unfold step_outcome, descriptor, generate_attempt.
  destruct (kind_of (fs w) (root_path ++ [INDEX_JSON])) as [| |bytes] eqn:Hidx;
    [contradiction| |].
  - (* index.json is a directory *)
    cbn [step_fs step_writes cache_bytes]. rewrite world_eta.
    exists []. split; [|split; reflexivity].
    apply run_bind_raise. apply load_json_dir. assumption.
  - (* index.json is a regular file *)
    pose proof (load_json_file _ _ Hidx) as Hread.
    unfold rbind.
    destruct (json_load bytes) as [data|e] eqn:Hload.
    + destruct (extract_textures_from_json data) as [[[textures|] format_type]|e] eqn:Hext.
      * destruct (extract_some_list _ Hext) as [l ->].
        destruct (kind_of (fs w) (root_path ++ [TEXTURES_CACHE])) as [| |b0] eqn:Hcache.
        2:{ (* textures.cache is a directory: the open fails *)
            cbn [step_fs step_writes cache_bytes]. rewrite world_eta.
            eexists. split.
            - eapply run_bind_ok; [exact Hread|].
              eapply run_bind_ok; [unfold lift; rewrite Hext; reflexivity|].
              cbn [fst snd]. apply run_bind_raise. apply dump_file_fail.
              apply write_fails_on_dir. assumption.
            - split; reflexivity. }
        all: destruct (write_succeeds root_path (fs w) TEXTURES_CACHE INDEX_JSON
                         (dumped (JArr l))) as [n1 Hw];
          [rewrite Hidx; discriminate|rewrite Hcache; discriminate|];
          pose proof (dump_file_opened (JArr l) _ _ Hw) as Hdump;
          destruct (dump_completes (JArr l)) eqn:Hdc;
          cbn [step_fs tally step_writes cache_bytes]; rewrite Hw.
        1,3: (* the dump completes *)
          destruct (output_only_report_generated (root_path ++ [TEXTURES_CACHE])
                      format_type l (World n1 (stdin w))) as (lr & Er & Wr & Pr);
          eexists; (split;
            [ eapply run_bind_ok; [exact Hread|];
              eapply run_bind_ok; [unfold lift; rewrite Hext; reflexivity|];
              cbn [fst snd];
              eapply run_bind_ok; [exact Hdump|];
              eapply run_bind_ok; [exact Er|]; reflexivity
            | log_simpl; rewrite Wr, Pr; split; reflexivity ]).
        all: (* the dump raises after the open *)
          eexists; (split;
            [ eapply run_bind_ok; [exact Hread|];
              eapply run_bind_ok; [unfold lift; rewrite Hext; reflexivity|];
              cbn [fst snd]; apply run_bind_raise; exact Hdump
            | log_simpl; split; reflexivity ]).
      * cbn [step_fs tally step_writes cache_bytes]. rewrite world_eta.
        destruct (output_only_report_skipped (root_path ++ [INDEX_JSON]) format_type w)
          as (lr & Er & Wr & Pr).
        eexists. split.
        -- eapply run_bind_ok; [exact Hread|].
           eapply run_bind_ok; [unfold lift; rewrite Hext; reflexivity|].
           cbn [fst snd]. eapply run_bind_ok; [exact Er|]. reflexivity.
        -- log_simpl. rewrite Wr, Pr. split; reflexivity.
      * cbn [step_fs step_writes cache_bytes]. rewrite world_eta.
        eexists. split.
        -- eapply run_bind_ok; [exact Hread|].
           apply run_bind_raise. unfold lift. rewrite Hext. reflexivity.
        -- split; reflexivity.
    + cbn [step_fs step_writes cache_bytes]. rewrite world_eta.
      eexists. split.
      * apply run_bind_raise. exact Hread.
      * split; reflexivity.
Qed.

(** The loop body in terms of its outcome: the counters it returns, the
    tree it leaves and the files it writes. *)
Lemma generate_step_spec (root_path : path) (c : counts) (w : world) :
  let o := step_outcome json_load (fs w) root_path in
  exists log,
    generate_step json_load root_path c w
    = (Ok (tally o c), World (step_fs o root_path (fs w)) (stdin w), log)
    /\ writes_of log = step_writes o root_path
    /\ prompts_of log = [].
Proof.
  unfold generate_step.
  pose proof (path_exists_run (root_path ++ [INDEX_JSON]) w) as Hstat.
  change (match kind_of (fs w) (root_path ++ [INDEX_JSON]) with
          | Absent => false
          | _ => true
          end) with (has_descriptor (fs w) root_path) in Hstat.
  destruct (has_descriptor (fs w) root_path) eqn:Hd.
  - (* there is an index.json *)
    destruct (generate_attempt_spec root_path c w Hd) as (la & Ea & Wa & Pa).
    destruct (step_outcome json_load (fs w) root_path) as [|t f|t f|f|e] eqn:Ho.
    5:{ (* the try block raised: the handler counts an error *)
        destruct (output_only_handle_error (root_path ++ [INDEX_JSON]) c e
                    (World (step_fs (Failed e) root_path (fs w)) (stdin w)))
          as (lh & Eh & Wh & Ph).
        eexists. split.
        - eapply run_bind_ok; [exact Hstat|].
          eapply run_bind_ok; [eapply run_try_raise; [exact Ea|exact Eh]|].
          eapply run_bind_ok; [reflexivity|]. reflexivity.
        - log_simpl. rewrite Wa, Pa, Wh, Ph. split; reflexivity. }
    3:{ (* the dump raised: the handler counts an error *)
        destruct (output_only_handle_error (root_path ++ [INDEX_JSON]) c UnicodeEncodeError
                    (World (step_fs (Truncated t f) root_path (fs w)) (stdin w)))
          as (lh & Eh & Wh & Ph).
        eexists. split.
        - eapply run_bind_ok; [exact Hstat|].
          eapply run_bind_ok; [eapply run_try_raise; [exact Ea|exact Eh]|].
          eapply run_bind_ok; [reflexivity|]. reflexivity.
        - log_simpl. rewrite Wa, Pa, Wh, Ph, !app_nil_r. split; reflexivity. }
    all: eexists; (split;
      [ eapply run_bind_ok; [exact Hstat|];
        eapply run_bind_ok; [apply run_try_ok; exact Ea|];
        eapply run_bind_ok; [reflexivity|]; reflexivity
      | log_simpl; rewrite Wa, Pa, ?app_nil_r; split; reflexivity ]).
  - (* no index.json here *)
    rewrite (proj1 (outcome_none_iff _ _) Hd). cbn [step_fs tally step_writes cache_bytes].
    rewrite world_eta. eexists. split.
    + eapply run_bind_ok; [exact Hstat|]. reflexivity.
    + split; reflexivity.
Qed.

End StepFacts.

(** ** The generation walk *)

Lemma last_component_inj (p q : path) (a b : string) :
  p ++ [a] = q ++ [b] -> p = q /\ a = b.
Proof. intros H. apply app_inj_tail in H. exact H. Qed.

Lemma index_is_not_cache (p q : path) :
  p ++ [INDEX_JSON] <> q ++ [TEXTURES_CACHE].
Proof. intros H. apply last_component_inj in H. destruct H as [_ H]. discriminate. Qed.

Lemma agree_refl (n : node) : agree n n.
Proof. repeat split; auto. Qed.

Lemma agree_trans (n1 n2 n3 : node) : agree n1 n2 -> agree n2 n3 -> agree n1 n3.
Proof.
  intros (D12 & I12) (D23 & I23). repeat split.
  - intros H. apply D12, D23, H.
  - intros H. apply D23, D12, H.
  - intros r. rewrite I23. apply I12.
Qed.

(** Writing a cache file leaves a tree that agrees with the original. *)
Lemma agree_write (n n' : node) (root_path : path) (b : string) :
  write n (root_path ++ [TEXTURES_CACHE]) b = Some n' -> agree n n'.
Proof.
  intros Hw. pose proof (kind_of_write _ _ _ Hw) as K.
  assert (Hnd : kind_of n (root_path ++ [TEXTURES_CACHE]) <> IsDir).
  { intros Hd. rewrite (write_fails_on_dir _ _ b Hd) in Hw. discriminate. }
  repeat split.
  - rewrite K. destruct (list_eq_dec string_dec p (root_path ++ [TEXTURES_CACHE]));
      [discriminate|auto].
  - rewrite K. destruct (list_eq_dec string_dec p (root_path ++ [TEXTURES_CACHE])) as [->|];
      [contradiction|auto].
  - intros r. rewrite K.
    destruct (list_eq_dec string_dec (r ++ [INDEX_JSON]) (root_path ++ [TEXTURES_CACHE])) as [E|];
      [|reflexivity].
    exfalso. exact (index_is_not_cache _ _ E).
Qed.

Lemma agree_step_fs (o : outcome) (root_path : path) (n : node) :
  agree n (step_fs o root_path n).
Proof.
  unfold step_fs. destruct (cache_bytes o) as [bytes|]; [|apply agree_refl].
  destruct (write n (root_path ++ [TEXTURES_CACHE]) bytes) eqn:Hw.
  - eapply agree_write. eassumption.
  - apply agree_refl.
Qed.

Lemma walked_step_fs (o : outcome) (root_path : path) (n : node) (directory : path) :
  walked (step_fs o root_path n) directory = walked n directory.
Proof.
  unfold step_fs. destruct (cache_bytes o) as [bytes|]; [|reflexivity].
  destruct (write n (root_path ++ [TEXTURES_CACHE]) bytes) eqn:Hw; [|reflexivity].
  eapply walked_write. eassumption.
Qed.

Section WalkFacts.

Variable json_load : string -> result json.

Lemma step_outcome_agree (n n' : node) (root_path : path) :
  agree n n' ->
  step_outcome json_load n' root_path = step_outcome json_load n root_path.
Proof.
  intros (D & I). unfold step_outcome, descriptor. rewrite I.
  destruct (kind_of n (root_path ++ [INDEX_JSON])) as [| |bytes]; try reflexivity.
  destruct (rbind (json_load bytes) (fun data => extract_textures_from_json data))
    as [[[t|] f]|e]; try reflexivity.
  pose proof (D (root_path ++ [TEXTURES_CACHE])) as Dc.
  destruct (kind_of n (root_path ++ [TEXTURES_CACHE])) eqn:K;
    destruct (kind_of n' (root_path ++ [TEXTURES_CACHE])) eqn:K'; try reflexivity;
    try (destruct Dc as [Dc _]; specialize (Dc eq_refl); discriminate);
    try (destruct Dc as [_ Dc]; specialize (Dc eq_refl); discriminate).
Qed.

(** A step that opens the cache file has an entry next to which the file
    can be written. *)
Lemma generated_writes (n0 m : node) (root_path : path) (bytes : string) :
  agree n0 m ->
  cache_bytes (step_outcome json_load n0 root_path) = Some bytes ->
  forall b, exists m', write m (root_path ++ [TEXTURES_CACHE]) b = Some m'.
Proof.
  intros Hag Ho b. rewrite <- (step_outcome_agree root_path Hag) in Ho.
  unfold step_outcome, descriptor in Ho.
  apply write_succeeds with (other := INDEX_JSON).
  - destruct (kind_of m (root_path ++ [INDEX_JSON])); discriminate.
  - destruct (kind_of m (root_path ++ [INDEX_JSON])) as [| |text]; try discriminate.
    destruct (rbind (json_load text) (fun data => extract_textures_from_json data))
      as [[[t'|] f']|e]; try discriminate.
    destruct (kind_of m (root_path ++ [TEXTURES_CACHE])); discriminate.
Qed.

Lemma settled_after_step (n0 m : node) (root_path : path) :
  agree n0 m ->
  settled json_load n0 root_path
    (step_fs (step_outcome json_load n0 root_path) root_path m).
Proof.
  intros Hag bytes Ho. unfold step_fs. rewrite Ho.
  destruct (generated_writes root_path Hag Ho bytes) as [m' Hw]. rewrite Hw.
  rewrite (kind_of_write _ _ _ Hw).
  destruct (list_eq_dec string_dec _ _); [reflexivity|contradiction].
Qed.

Lemma settled_preserved (n0 m : node) (root_path other : path) :
  settled json_load n0 other m ->
  settled json_load n0 other
    (step_fs (step_outcome json_load n0 root_path) root_path m).
Proof.
  intros Hs bytes Ho. unfold step_fs.
  destruct (cache_bytes (step_outcome json_load n0 root_path)) as [bytes'|] eqn:Hr;
    [|apply (Hs _ Ho)].
  destruct (write m (root_path ++ [TEXTURES_CACHE]) bytes') as [m'|] eqn:Hw;
    [|apply (Hs _ Ho)].
  rewrite (kind_of_write _ _ _ Hw).
  destruct (list_eq_dec string_dec (other ++ [TEXTURES_CACHE])
              (root_path ++ [TEXTURES_CACHE])) as [E|E].
  - apply last_component_inj in E. destruct E as [-> _].
    rewrite Hr in Ho. injection Ho as ->. reflexivity.
  - apply (Hs _ Ho).
Qed.

Lemma settled_absorbs (n0 m : node) (root_path : path) :
  settled json_load n0 root_path m ->
  step_fs (step_outcome json_load n0 root_path) root_path m = m.
Proof.
  intros Hs. unfold step_fs.
  destruct (cache_bytes (step_outcome json_load n0 root_path)) as [bytes|] eqn:Ho;
    [|reflexivity].
  rewrite (write_absorb _ _ (Hs _ Ho)). reflexivity.
Qed.

Lemma walk_fs_agree (n0 : node) (roots : list path) :
  forall m, agree n0 m -> agree n0 (walk_fs json_load n0 roots m).
Proof.
  induction roots as [|r rest IH]; intros m Hag; simpl; [assumption|].
  apply IH. eapply agree_trans; [eassumption|apply agree_step_fs].
Qed.

Lemma walk_fs_walked (n0 : node) (roots : list path) (directory : path) :
  forall m, walked (walk_fs json_load n0 roots m) directory = walked m directory.
Proof.
  induction roots as [|r rest IH]; intros m; simpl; [reflexivity|].
  rewrite IH. apply walked_step_fs.
Qed.

Lemma walk_fs_settles (n0 : node) (roots : list path) :
  forall (m : node) (before : list path),
    agree n0 m ->
    (forall r, In r before -> settled json_load n0 r m) ->
    forall r, In r (before ++ roots) ->
              settled json_load n0 r (walk_fs json_load n0 roots m).
Proof.
  induction roots as [|x rest IH]; intros m before Hag Hb r Hin; simpl.
  - rewrite app_nil_r in Hin. auto.
  - apply (IH _ (before ++ [x])).
    + eapply agree_trans; [eassumption|apply agree_step_fs].
    + intros r' Hin'. apply in_app_or in Hin'. destruct Hin' as [Hin'|[<-|[]]].
      * apply settled_preserved. auto.
      * apply settled_after_step. assumption.
    + rewrite <- app_assoc. exact Hin.
Qed.

Lemma walk_fs_fixed (n0 : node) (roots : list path) :
  forall m, (forall r, In r roots -> settled json_load n0 r m) ->
            walk_fs json_load n0 roots m = m.
Proof.
  induction roots as [|x rest IH]; intros m Hs; simpl; [reflexivity|].
  rewrite settled_absorbs by (apply Hs; left; reflexivity).
  apply IH. intros r Hr. apply Hs. right. assumption.
Qed.

(** Running the walk a second time over the tree it produced changes
    nothing. *)
Lemma walk_fs_idempotent (n0 : node) (roots : list path) :
  walk_fs json_load n0 roots (walk_fs json_load n0 roots n0)
  = walk_fs json_load n0 roots n0.
Proof.
  apply walk_fs_fixed. intros r Hr.
  apply (@walk_fs_settles n0 roots n0 []).
  - apply agree_refl.
  - intros r' [].
  - exact Hr.
Qed.

(** The loop of [generate_textures_cache], started in any world whose tree
    agrees with [n0]. *)
Lemma generate_loop_spec (n0 : node) (roots : list path) :
  forall (c : counts) (w : world),
    agree n0 (fs w) ->
    exists log,
      for_each roots (generate_step json_load) c w
      = (Ok (walk_counts json_load n0 roots c),
         World (walk_fs json_load n0 roots (fs w)) (stdin w), log)
      /\ writes_of log = walk_writes json_load n0 roots
      /\ prompts_of log = [].
Proof.
  induction roots as [|r rest IH]; intros c w Hag.
  - simpl. rewrite world_eta. exists []. repeat split.
  - destruct (generate_step_spec json_load r c w) as (l1 & E1 & W1 & P1).
    rewrite (step_outcome_agree r Hag) in E1, W1.
    set (w1 := World (step_fs (step_outcome json_load n0 r) r (fs w)) (stdin w)) in *.
    destruct (IH (tally (step_outcome json_load n0 r) c) w1) as (l2 & E2 & W2 & P2).
    { eapply agree_trans; [eassumption|apply agree_step_fs]. }
    exists (l1 ++ l2). split; [|split].
    + simpl. eapply run_bind_ok; [exact E1|exact E2].
    + log_simpl. rewrite W1, W2. reflexivity.
    + log_simpl. rewrite P1, P2. reflexivity.
Qed.

End WalkFacts.

(** ** A whole generation run *)

Section RunFacts.

Variable json_load : string -> result json.

Lemma print_statistics_run (c : counts) (w : world) :
  print_statistics c w
  = (Ok tt, w,
     [Print "\n📊 处理统计:" [];
      Print LINE_PROCESSED [ANat (processed_count c)];
      Print LINE_SKIPPED [ANat (skipped_count c)];
      Print LINE_ERRORS [ANat (error_count c)];
      Print LINE_TOTAL [ANat (processed_count c + skipped_count c + error_count c)]]).
Proof. reflexivity. Qed.

Lemma os_walk_run (directory : path) (w : world) :
  os_walk directory w = (Ok (walked (fs w) directory), w, [Walk directory]).
Proof. reflexivity. Qed.

(** A run over an existing directory: the walk, then the statistics. *)
Lemma generate_run_spec (directory : path) (w : world) :
  kind_of (fs w) directory <> Absent ->
  let roots := walked (fs w) directory in
  let c := walk_counts json_load (fs w) roots (Counts 0 0 0) in
  exists pre,
    generate_textures_cache json_load directory w
    = (Ok tt, World (walk_fs json_load (fs w) roots (fs w)) (stdin w),
       pre ++ [Print LINE_PROCESSED [ANat (processed_count c)];
               Print LINE_SKIPPED [ANat (skipped_count c)];
               Print LINE_ERRORS [ANat (error_count c)];
               Print LINE_TOTAL
                     [ANat (processed_count c + skipped_count c + error_count c)]])
    /\ writes_of pre = walk_writes json_load (fs w) roots
    /\ prompts_of pre = [].
Proof.
  intros Hdir roots c.
  destruct (@generate_loop_spec json_load (fs w) roots (Counts 0 0 0) w
              (agree_refl (fs w))) as (l & E & W & P).
  exists ([Stat directory] ++ [Walk directory] ++ l ++ [Print "\n📊 处理统计:" []]).
  split; [|split].
  - unfold generate_textures_cache.
    rewrite <- !app_assoc.
    eapply run_bind_ok; [apply path_exists_run|].
    destruct (kind_of (fs w) directory); [contradiction| |];
      (cbn [negb];
       eapply run_bind_ok; [apply os_walk_run|];
       eapply run_bind_ok; [exact E|];
       apply print_statistics_run).
  - log_simpl. rewrite W, app_nil_r. reflexivity.
  - log_simpl. rewrite P. reflexivity.
Qed.

(** A run over a directory that does not exist reports it and stops. *)
Lemma generate_run_missing (directory : path) (w : world) :
  kind_of (fs w) directory = Absent ->
  generate_textures_cache json_load directory w
  = (Ok tt, w, [Stat directory; Print "错误: 目录 '{directory}' 不存在" [APath directory]]).
Proof.
  intros Hdir. unfold generate_textures_cache.
  change [Stat directory; Print "错误: 目录 '{directory}' 不存在" [APath directory]]
    with ([Stat directory] ++ [Print "错误: 目录 '{directory}' 不存在" [APath directory]]).
  eapply run_bind_ok; [apply path_exists_run|]. rewrite Hdir. reflexivity.
Qed.

Lemma walked_missing (n : node) (directory : path) :
  kind_of n directory = Absent -> walked n directory = [].
Proof.
  unfold kind_of, walked. destruct (lookup n directory) as [[b|es]|]; try discriminate.
  reflexivity.
Qed.

(** Every run ends normally, with the tree and the writes of the walk. *)
Lemma generate_run_total (directory : path) (w : world) :
  let roots := walked (fs w) directory in
  exists log,
    generate_textures_cache json_load directory w
    = (Ok tt, World (walk_fs json_load (fs w) roots (fs w)) (stdin w), log)
    /\ writes_of log = walk_writes json_load (fs w) roots
    /\ prompts_of log = [].
Proof.
  intros roots. destruct (kind_of (fs w) directory) eqn:Hdir.
  - rewrite (generate_run_missing _ _ Hdir). subst roots.
    rewrite (walked_missing _ _ Hdir). simpl. rewrite world_eta.
    eexists. repeat split.
  - destruct (generate_run_spec directory w) as (pre & E & W & P);
      [rewrite Hdir; discriminate|].
    eexists. split; [exact E|]. log_simpl. rewrite W, P, app_nil_r. split; reflexivity.
  - destruct (generate_run_spec directory w) as (pre & E & W & P);
      [rewrite Hdir; discriminate|].
    eexists. split; [exact E|]. log_simpl. rewrite W, P, app_nil_r. split; reflexivity.
Qed.

End RunFacts.

Section CountFacts.

Variable json_load : string -> result json.

Lemma total_tally (o : outcome) (c : counts) :
  total (tally o c) = total c + match o with NoDescriptor => 0 | _ => 1 end.
Proof. destruct o; unfold total; simpl; lia. Qed.

Lemma walk_counts_total (n0 : node) (roots : list path) :
  forall c,
    total (walk_counts json_load n0 roots c)
    = total c + List.length (filter (has_descriptor n0) roots).
Proof.
  unfold walk_counts. induction roots as [|r rest IH]; intros c; simpl.
  - lia.
  - rewrite IH, total_tally.
    destruct (has_descriptor n0 r) eqn:Hd.
    + destruct (step_outcome json_load n0 r) eqn:Ho; simpl; try lia.
      apply outcome_none_iff in Ho. congruence.
    + apply (outcome_none_iff json_load) in Hd. rewrite Hd. simpl. lia.
Qed.

Lemma walk_fs_ext (n0 n1 : node) (roots : list path) :
  agree n0 n1 ->
  forall m, walk_fs json_load n1 roots m = walk_fs json_load n0 roots m.
Proof.
  intros Hag. induction roots as [|r rest IH]; intros m; simpl; [reflexivity|].
  rewrite (step_outcome_agree json_load r Hag). apply IH.
Qed.

Lemma walk_writes_ext (n0 n1 : node) (roots : list path) :
  agree n0 n1 ->
  walk_writes json_load n1 roots = walk_writes json_load n0 roots.
Proof.
  intros Hag. unfold walk_writes.
  induction roots as [|r rest IH]; simpl; [reflexivity|].
  rewrite (step_outcome_agree json_load r Hag), IH. reflexivity.
Qed.

End CountFacts.

(** ** What [json.dump] leaves in the file *)

Lemma string_app_assoc (a b c : string) :
  ((a ++ b) ++ c)%string = (a ++ (b ++ c))%string.
Proof. induction a as [|x a' IH]; simpl; [reflexivity|]. rewrite IH. reflexivity. Qed.

Lemma written_complete (chunks : list string) :
  forallb encodable chunks = true -> written chunks = joined chunks.
Proof.
  induction chunks as [|chunk rest IH]; simpl; [reflexivity|].
  intros H. apply andb_true_iff in H. destruct H as [Hc Hr].
  rewrite Hc, IH by assumption. reflexivity.
Qed.

(** When the dump completes the file holds the whole text. *)
Lemma dumped_complete (x : json) : dump_completes x = true -> dumped x = dumps x.
Proof. apply written_complete. Qed.

(** Escaping neither hides a lone surrogate nor makes one. *)
Lemma no_surrogate_escape_char (c : ascii) (after_ed : bool) (rest : string) :
  no_surrogate after_ed (escape_char c ++ rest) = no_surrogate after_ed (String c rest).
Proof. destruct c as [[] [] [] [] [] [] [] []]; destruct after_ed; reflexivity. Qed.

Lemma no_surrogate_escape (s : string) :
  forall (after_ed : bool) (rest : string),
    no_surrogate after_ed (escape s ++ rest) = no_surrogate after_ed (s ++ rest).
Proof.
  induction s as [|c s' IH]; intros after_ed rest; [reflexivity|].
  simpl escape. rewrite string_app_assoc, no_surrogate_escape_char.
  cbn [no_surrogate append]. rewrite IH. reflexivity.
Qed.

Lemma no_surrogate_closed (s : string) :
  forall after_ed,
    no_surrogate after_ed (s ++ String "034" EmptyString) = no_surrogate after_ed s.
Proof.
  induction s as [|c s' IH]; intros after_ed.
  - destruct after_ed; reflexivity.
  - cbn [no_surrogate append]. rewrite IH. reflexivity.
Qed.

Lemma encodable_encode_str (s : string) : encodable (encode_str s) = encodable s.
Proof.
  unfold encodable, encode_str.
  change (no_surrogate false (String "034" (escape s ++ String "034" EmptyString)))
    with (no_surrogate false (escape s ++ String "034" EmptyString)).
  rewrite no_surrogate_escape. apply no_surrogate_closed.
Qed.

Lemma encodable_first_item (s : string) :
  encodable (("[" ++ newline_indent 1) ++ encode_str s) = encodable s.
Proof. rewrite <- (encodable_encode_str s). reflexivity. Qed.

Lemma encodable_next_item (s : string) :
  encodable (("," ++ newline_indent 1) ++ encode_str s) = encodable s.
Proof. rewrite <- (encodable_encode_str s). reflexivity. Qed.

(** The chunks of a list of names: one for each name, then the line break
    and the closing bracket. *)
Lemma iterencode_list_names (chunks_of : json -> list string) (separator : string)
      (names : list string) :
  forall buf,
    iterencode_list chunks_of separator buf (map JStr names)
    = match names with
      | [] => []
      | s :: rest =>
          (buf ++ encode_str s)%string
          :: map (fun s' => (separator ++ encode_str s')%string) rest
      end.
Proof.
  induction names as [|s rest IH]; intros buf; [reflexivity|].
  cbn [map iterencode_list atom app]. rewrite IH. destruct rest; reflexivity.
Qed.

Lemma iterencode_names (names : list string) :
  iterencode 0 (JArr (map JStr names))
  = match names with
    | [] => ["[]"]
    | s :: rest =>
        (("[" ++ newline_indent 1) ++ encode_str s)%string
        :: map (fun s' => (("," ++ newline_indent 1) ++ encode_str s')%string) rest
        ++ [newline_indent 0; "]"]
    end.
Proof.
  destruct names as [|s rest]; [reflexivity|].
  change (iterencode 0 (JArr (map JStr (s :: rest))))
    with (iterencode_list (iterencode 1) ("," ++ newline_indent 1)
                          ("[" ++ newline_indent 1) (map JStr (s :: rest))
          ++ [newline_indent 0; "]"]).
  rewrite iterencode_list_names. reflexivity.
Qed.

(** A list of names is written in full exactly when every name can be
    encoded. *)
Lemma dump_completes_names (names : list string) :
  dump_completes (JArr (map JStr names)) = forallb encodable names.
Proof.
  unfold dump_completes. rewrite iterencode_names.
  destruct names as [|s rest]; [reflexivity|].
  cbn [forallb app]. rewrite encodable_first_item. f_equal.
  rewrite forallb_app.
  replace (forallb encodable [newline_indent 0; "]"]) with true by reflexivity.
  rewrite andb_true_r.
  induction rest as [|s' rest' IH]; [reflexivity|].
  cbn [map forallb]. rewrite encodable_next_item, IH. reflexivity.
Qed.

Section StepCases.

Variable json_load : string -> result json.

Lemma descriptor_present (n : node) (root_path : path)
      (r : result (option json * string)) :
  descriptor json_load n root_path = Some r ->
  kind_of n (root_path ++ [INDEX_JSON]) <> Absent.
Proof.
  unfold descriptor. destruct (kind_of n (root_path ++ [INDEX_JSON])); discriminate.
Qed.

(** The loop body on a recognized descriptor whose cache file can be
    opened: the file holds what [json.dump] wrote, and the descriptor counts
    as processed when the dump completed and as an error when it raised. *)
Lemma generate_step_recognized (root_path : path) (c : counts) (w : world)
      (t : json) (f : string) :
  descriptor json_load (fs w) root_path = Some (Ok (Some t, f)) ->
  kind_of (fs w) (root_path ++ [TEXTURES_CACHE]) <> IsDir ->
  exists n1 log,
    write (fs w) (root_path ++ [TEXTURES_CACHE]) (dumped t) = Some n1
    /\ generate_step json_load root_path c w
       = (Ok (if dump_completes t
              then Counts (processed_count c + 1) (skipped_count c) (error_count c)
              else Counts (processed_count c) (skipped_count c) (error_count c + 1)),
          World n1 (stdin w), log)
    /\ writes_of log = [Write (root_path ++ [TEXTURES_CACHE]) (dumped t)]
    /\ kind_of n1 (root_path ++ [TEXTURES_CACHE]) = IsFile (dumped t).
Proof.
  intros Hd Hk.
  destruct (write_succeeds root_path (fs w) TEXTURES_CACHE INDEX_JSON (dumped t))
    as [n1 Hw]; [exact (descriptor_present _ _ Hd)|exact Hk|].
  destruct (generate_step_spec json_load root_path c w) as (log & E & W & _).
  assert (Ho : step_outcome json_load (fs w) root_path
               = if dump_completes t then Generated t f else Truncated t f).
  { unfold step_outcome. rewrite Hd.
    destruct (kind_of (fs w) (root_path ++ [TEXTURES_CACHE])); [|contradiction|];
      reflexivity. }
  rewrite Ho in E, W. exists n1, log. split; [exact Hw|].
  assert (Hfile : kind_of n1 (root_path ++ [TEXTURES_CACHE]) = IsFile (dumped t)).
  { rewrite (kind_of_write _ _ _ Hw).
    destruct (list_eq_dec string_dec _ _); [reflexivity|contradiction]. }
  destruct (dump_completes t); unfold step_fs, step_writes in E, W;
    cbn [cache_bytes tally] in E, W; rewrite Hw in E;
    (split; [exact E|]); (split; [exact W|exact Hfile]).
Qed.

Lemma generate_step_unrecognized (root_path : path) (c : counts) (w : world) (f : string) :
  descriptor json_load (fs w) root_path = Some (Ok (None, f)) ->
  exists log,
    generate_step json_load root_path c w
    = (Ok (Counts (processed_count c) (skipped_count c + 1) (error_count c)), w, log)
    /\ writes_of log = [].
Proof.
  intros Hd.
  destruct (generate_step_spec json_load root_path c w) as (log & E & W & _).
  unfold step_outcome in E, W. rewrite Hd in E, W.
  unfold step_fs, step_writes in E, W. cbn [cache_bytes tally] in E, W.
  rewrite world_eta in E. exists log. split; assumption.
Qed.

Lemma generate_step_failed (root_path : path) (c : counts) (w : world) (e : exn) :
  descriptor json_load (fs w) root_path = Some (Raise e) ->
  exists log,
    generate_step json_load root_path c w
    = (Ok (Counts (processed_count c) (skipped_count c) (error_count c + 1)), w, log)
    /\ writes_of log = [].
Proof.
  intros Hd.
  destruct (generate_step_spec json_load root_path c w) as (log & E & W & _).
  unfold step_outcome in E, W. rewrite Hd in E, W.
  unfold step_fs, step_writes in E, W. cbn [cache_bytes tally] in E, W.
  rewrite world_eta in E. exists log. split; assumption.
Qed.

Lemma generate_step_blocked (root_path : path) (c : counts) (w : world)
      (t : json) (f : string) :
  descriptor json_load (fs w) root_path = Some (Ok (Some t, f)) ->
  kind_of (fs w) (root_path ++ [TEXTURES_CACHE]) = IsDir ->
  exists log,
    generate_step json_load root_path c w
    = (Ok (Counts (processed_count c) (skipped_count c) (error_count c + 1)), w, log)
    /\ writes_of log = [].
Proof.
  intros Hd Hk.
  destruct (generate_step_spec json_load root_path c w) as (log & E & W & _).
  unfold step_outcome in E, W. rewrite Hd, Hk in E, W.
  unfold step_fs, step_writes in E, W. cbn [cache_bytes tally] in E, W.
  rewrite world_eta in E. exists log. split; assumption.
Qed.

End StepCases.

(** ** The claims about the generation walk *)

Example generate_step_standard :
  exists log,
    generate_step example_load ["models"; "haru"] (Counts 0 0 0) (example_world [])
    = (Ok (Counts 1 0 0),
       World (step_fs (Generated (JArr [JStr "a.png"; JStr "b.png"]) FORMAT_STANDARD)
                      ["models"; "haru"] example_tree) [],
       log)
    /\ writes_of log
       = [Write ["models"; "haru"; "textures.cache"]
                (dumps (JArr [JStr "a.png"; JStr "b.png"]))].
Proof. eexists. split; [vm_compute; reflexivity|reflexivity]. Qed.

Example generate_step_other :
  exists log,
    generate_step example_load ["models"; "plain"] (Counts 0 0 0) (example_world [])
    = (Ok (Counts 0 1 0), example_world [], log)
    /\ writes_of log = [].
Proof. eexists. split; [vm_compute; reflexivity|reflexivity]. Qed.

(** A name that cannot be encoded (lines 65-66): the cache file is opened
    and emptied, [json.dump] raises on the second name, the file keeps the
    chunk of the first, and the descriptor counts as an error. *)
Example generate_step_surrogate :
  exists log,
    generate_step surrogate_load ["model"] (Counts 0 0 0) (World surrogate_tree [])
    = (Ok (Counts 0 0 1),
       World (Dir [("model",
                    Dir [("index.json", File text_surrogate);
                         ("textures.cache",
                          File ("[" ++ newline_indent 1 ++ encode_str "ok.png"))])]) [],
       log)
    /\ writes_of log
       = [Write ["model"; "textures.cache"]
                ("[" ++ newline_indent 1 ++ encode_str "ok.png")]
    /\ printed "✗ 处理错误: {index_json_path}" log = true.
Proof. eexists. split; [vm_compute; reflexivity|split; reflexivity]. Qed.

(** C3, as the code has it.  For a directory of the walk that holds an
    [index.json], the loop body opens [textures.cache] for writing exactly
    when reading, parsing and extracting gave a texture list and
    [textures.cache] is not an existing directory; the step then leaves a
    file there and counts the descriptor as processed or as an error.  For
    a list of names that can all be encoded the file holds the list as
    printed by [json.dump] and the descriptor counts as processed; for the
    empty list the file holds the empty JSON array.  When a name cannot be
    encoded, [json.dump] raises after the file was opened: the file holds
    what was written before, and the descriptor counts as an error.  A
    descriptor of no known shape leaves the tree unchanged and counts as
    skipped.  A recognized descriptor whose cache file cannot be opened
    leaves the tree unchanged and counts as an error. *)
Theorem cache_written_iff_recognized_and_writable
        (json_load : string -> result json) (root_path : path) (c : counts) (w : world) :
  has_descriptor (fs w) root_path = true ->
  exists c' w' log,
    generate_step json_load root_path c w = (Ok c', w', log)
    /\ ((exists b, In (Write (root_path ++ [TEXTURES_CACHE]) b) log)
        <-> ((exists t f, descriptor json_load (fs w) root_path = Some (Ok (Some t, f)))
             /\ kind_of (fs w) (root_path ++ [TEXTURES_CACHE]) <> IsDir))
    /\ (forall t f,
          descriptor json_load (fs w) root_path = Some (Ok (Some t, f)) ->
          kind_of (fs w) (root_path ++ [TEXTURES_CACHE]) <> IsDir ->
          exists b,
            writes_of log = [Write (root_path ++ [TEXTURES_CACHE]) b]
            /\ kind_of (fs w') (root_path ++ [TEXTURES_CACHE]) = IsFile b
            /\ (c' = Counts (processed_count c + 1) (skipped_count c) (error_count c)
                \/ c' = Counts (processed_count c) (skipped_count c) (error_count c + 1)))
    /\ (forall names f,
          descriptor json_load (fs w) root_path
          = Some (Ok (Some (JArr (map JStr names)), f)) ->
          kind_of (fs w) (root_path ++ [TEXTURES_CACHE]) <> IsDir ->
          forallb encodable names = true ->
          writes_of log
          = [Write (root_path ++ [TEXTURES_CACHE]) (dumps (JArr (map JStr names)))]
          /\ kind_of (fs w') (root_path ++ [TEXTURES_CACHE])
             = IsFile (dumps (JArr (map JStr names)))
          /\ c' = Counts (processed_count c + 1) (skipped_count c) (error_count c))
    /\ (forall names f,
          descriptor json_load (fs w) root_path
          = Some (Ok (Some (JArr (map JStr names)), f)) ->
          kind_of (fs w) (root_path ++ [TEXTURES_CACHE]) <> IsDir ->
          forallb encodable names = false ->
          kind_of (fs w') (root_path ++ [TEXTURES_CACHE])
          = IsFile (dumped (JArr (map JStr names)))
          /\ c' = Counts (processed_count c) (skipped_count c) (error_count c + 1))
    /\ (forall f,
          descriptor json_load (fs w) root_path = Some (Ok (Some (JArr []), f)) ->
          kind_of (fs w) (root_path ++ [TEXTURES_CACHE]) <> IsDir ->
          kind_of (fs w') (root_path ++ [TEXTURES_CACHE]) = IsFile "[]")
    /\ (forall f,
          descriptor json_load (fs w) root_path = Some (Ok (None, f)) ->
          writes_of log = [] /\ fs w' = fs w
          /\ c' = Counts (processed_count c) (skipped_count c + 1) (error_count c))
    /\ (forall t f,
          descriptor json_load (fs w) root_path = Some (Ok (Some t, f)) ->
          kind_of (fs w) (root_path ++ [TEXTURES_CACHE]) = IsDir ->
          writes_of log = [] /\ fs w' = fs w
          /\ c' = Counts (processed_count c) (skipped_count c) (error_count c + 1)).
Proof.
  intros Hidx.
  assert (Hin : forall log b,
             In (Write (root_path ++ [TEXTURES_CACHE]) b) log
             <-> In (Write (root_path ++ [TEXTURES_CACHE]) b) (writes_of log)).
  { intros log b. unfold writes_of. rewrite filter_In. simpl. tauto. }
  destruct (descriptor json_load (fs w) root_path) as [[[[t|] f]|e]|] eqn:Hd.
  - (* a texture list was extracted *)
    destruct (kind_of (fs w) (root_path ++ [TEXTURES_CACHE])) eqn:Hk.
    2:{ (* the cache path is a directory *)
        destruct (generate_step_blocked json_load root_path c w Hd Hk) as (log & E & W).
        do 3 eexists. split; [exact E|].
        split; [split|].
        - intros [b Hb]. apply Hin in Hb. rewrite W in Hb. destruct Hb.
        - intros [_ H]. contradiction.
        - split; [|split; [|split; [|split; [|split]]]].
          + intros t0 f0 _ H. contradiction.
          + intros names f0 _ H. contradiction.
          + intros names f0 _ H. contradiction.
          + intros f0 _ H. contradiction.
          + intros f0 H. discriminate.
          + intros t0 f0 _ _. repeat split. exact W. }
    all: destruct (generate_step_recognized json_load root_path c w Hd)
           as (n1 & log & Hw & E & W & Hfile);
      [rewrite Hk; discriminate|];
      do 3 eexists; (split; [exact E|]);
      (split; [split|]);
      [ intros _; split; [eauto|discriminate]
      | intros _; exists (dumped t); apply Hin; rewrite W; left; reflexivity
      | split; [|split; [|split; [|split; [|split]]]];
        [ intros t0 f0 H _; injection H as <- <-; exists (dumped t);
          split; [exact W|]; split; [exact Hfile|];
          destruct (dump_completes t); [left|right]; reflexivity
        | intros names f0 H _ Hnames; injection H as Ht _; subst t;
          rewrite dump_completes_names, Hnames;
          rewrite <- dumped_complete by (rewrite dump_completes_names; exact Hnames);
          repeat split; assumption
        | intros names f0 H _ Hnames; injection H as Ht _; subst t;
          rewrite dump_completes_names, Hnames; split; [exact Hfile|reflexivity]
        | intros f0 H _; injection H as Ht _; subst t; exact Hfile
        | intros f0 H; discriminate
        | intros t0 f0 _ H; discriminate ] ].
  - (* no known shape *)
    destruct (generate_step_unrecognized json_load root_path c w Hd) as (log & E & W).
    do 3 eexists. split; [exact E|].
    split; [split|].
    + intros [b Hb]. apply Hin in Hb. rewrite W in Hb. destruct Hb.
    + intros [(t & f0 & H) _]. discriminate.
    + split; [|split; [|split; [|split; [|split]]]].
      * intros t0 f0 H. discriminate.
      * intros names f0 H. discriminate.
      * intros names f0 H. discriminate.
      * intros f0 H. discriminate.
      * intros f0 H. repeat split. exact W.
      * intros t0 f0 H. discriminate.
  - (* reading, parsing or extracting raised *)
    destruct (generate_step_failed json_load root_path c w Hd) as (log & E & W).
    do 3 eexists. split; [exact E|].
    split; [split|].
    + intros [b Hb]. apply Hin in Hb. rewrite W in Hb. destruct Hb.
    + intros [(t & f0 & H) _]. discriminate.
    + split; [|split; [|split; [|split; [|split]]]].
      * intros t0 f0 H. discriminate.
      * intros names f0 H. discriminate.
      * intros names f0 H. discriminate.
      * intros f0 H. discriminate.
      * intros f0 H. discriminate.
      * intros t0 f0 H. discriminate.
  - unfold has_descriptor, descriptor in *.
    destruct (kind_of (fs w) (root_path ++ [INDEX_JSON])); discriminate.
Qed.

Lemma cache_written_iff_recognized_and_writable_witness :
  (exists c' w' log,
      generate_step example_load ["models"] (Counts 0 0 0) (example_world [])
      = (Ok c', w', log)
      /\ kind_of (fs w') ["models"; "textures.cache"] = IsFile "[]"
      /\ c' = Counts 1 0 0)
  /\ (exists c' w' log,
         generate_step surrogate_load ["model"] (Counts 0 0 0) (World surrogate_tree [])
         = (Ok c', w', log)
         /\ kind_of (fs w') ["model"; "textures.cache"]
            = IsFile ("[" ++ newline_indent 1 ++ encode_str "ok.png")
         /\ c' = Counts 0 0 1).
Proof.
  split.
  - destruct (@cache_written_iff_recognized_and_writable example_load ["models"]
                (Counts 0 0 0) (example_world []))
      as (c' & w' & log & E & _ & _ & Hgen & _ & Hempty & _).
    + reflexivity.
    + exists c', w', log. split; [exact E|]. split.
      * apply (Hempty FORMAT_STANDARD); [reflexivity|vm_compute; discriminate].
      * apply (Hgen [] FORMAT_STANDARD);
          [reflexivity|vm_compute; discriminate|reflexivity].
  - destruct (@cache_written_iff_recognized_and_writable surrogate_load ["model"]
                (Counts 0 0 0) (World surrogate_tree []))
      as (c' & w' & log & E & _ & _ & _ & Hcut & _).
    + reflexivity.
    + exists c', w', log. split; [exact E|].
      apply (Hcut ["ok.png"; lone_surrogate] FORMAT_STANDARD);
        [reflexivity|vm_compute; discriminate|reflexivity].
Defined.

(** C3, as stated, fails where [textures.cache] is a directory: the
    descriptor is recognized, with an empty texture list, yet [open] raises
    inside the [try] block (lines 65-66), the [except Exception] clause
    (lines 93-96) counts an error, and no file is written. *)
Lemma cache_path_directory_not_written :
  has_descriptor blocked_tree ["model"] = true
  /\ descriptor example_load blocked_tree ["model"]
     = Some (Ok (Some (JArr []), FORMAT_STANDARD))
  /\ exists log,
       generate_step example_load ["model"] (Counts 0 0 0) (World blocked_tree [])
       = (Ok (Counts 0 0 1), World blocked_tree [], log)
       /\ writes_of log = []
       /\ ~ ((exists b, In (Write ["model"; "textures.cache"] b) log)
             <-> (exists t f, descriptor example_load blocked_tree ["model"]
                              = Some (Ok (Some t, f)))).
Proof.
  split; [reflexivity|]. split; [reflexivity|].
  eexists. split; [vm_compute; reflexivity|]. split; [reflexivity|].
  intros [_ H].
  destruct H as [b Hb]; [exists (JArr []), FORMAT_STANDARD; reflexivity|].
  simpl in Hb.
  repeat (destruct Hb as [Hb|Hb]; [discriminate|]). exact Hb.
Qed.

(** C5.  When the contents of an [index.json] do not parse, the loop body
    writes nothing, leaves the tree as it is, adds one to the error counter
    and to no other, and returns normally, so that the loop goes on with the
    directories that remain. *)
Theorem parse_failure_counts_error
        (json_load : string -> result json) (root_path : path) (c : counts) (w : world)
        (bytes : string) (e : exn) (rest : list path) :
  kind_of (fs w) (root_path ++ [INDEX_JSON]) = IsFile bytes ->
  json_load bytes = Raise e ->
  exists log,
    generate_step json_load root_path c w
    = (Ok (Counts (processed_count c) (skipped_count c) (error_count c + 1)), w, log)
    /\ writes_of log = []
    /\ exists c' w' l,
         for_each rest (generate_step json_load)
                  (Counts (processed_count c) (skipped_count c) (error_count c + 1)) w
         = (Ok c', w', l)
         /\ for_each (root_path :: rest) (generate_step json_load) c w
            = (Ok c', w', log ++ l).
Proof.
  intros Hidx Hload.
  assert (Hd : descriptor json_load (fs w) root_path = Some (Raise e)).
  { unfold descriptor. rewrite Hidx. unfold rbind. rewrite Hload. reflexivity. }
  destruct (generate_step_failed json_load root_path c w Hd) as (log & E & W).
  exists log. split; [exact E|]. split; [exact W|].
  destruct (@generate_loop_spec json_load (fs w) rest
              (Counts (processed_count c) (skipped_count c) (error_count c + 1)) w
              (agree_refl _)) as (l & El & _).
  do 3 eexists. split; [exact El|].
  simpl. eapply run_bind_ok; [exact E|exact El].
Qed.

Lemma parse_failure_counts_error_witness :
  exists log,
    generate_step example_load ["models"; "broken"] (Counts 3 0 0) (example_world [])
    = (Ok (Counts 3 0 1), example_world [], log)
    /\ writes_of log = [].
Proof.
  destruct (@parse_failure_counts_error example_load ["models"; "broken"] (Counts 3 0 0)
              (example_world []) "not json" JSONDecodeError [])
    as (log & E & W & _).
  - reflexivity.
  - reflexivity.
  - exists log. split; [exact E|exact W].
Defined.

(** C9.  Every directory of the walk that holds an [index.json] adds one to
    exactly one of the three counters, and a directory without one adds
    nothing; at the end of a run the total that is reported is the sum of
    the three counters, and it is the number of directories of the walk
    that hold an [index.json]. *)
Theorem counters_account_for_every_descriptor (json_load : string -> result json) :
  (forall root_path c w,
      exists c' w' log,
        generate_step json_load root_path c w = (Ok c', w', log)
        /\ (has_descriptor (fs w) root_path = false -> c' = c)
        /\ (has_descriptor (fs w) root_path = true ->
            c' = Counts (processed_count c + 1) (skipped_count c) (error_count c)
            \/ c' = Counts (processed_count c) (skipped_count c + 1) (error_count c)
            \/ c' = Counts (processed_count c) (skipped_count c) (error_count c + 1)))
  /\ (forall directory w,
         kind_of (fs w) directory <> Absent ->
         exists c w' pre,
           generate_textures_cache json_load directory w
           = (Ok tt, w',
              pre ++ [Print LINE_PROCESSED [ANat (processed_count c)];
                      Print LINE_SKIPPED [ANat (skipped_count c)];
                      Print LINE_ERRORS [ANat (error_count c)];
                      Print LINE_TOTAL
                            [ANat (processed_count c + skipped_count c + error_count c)]])
           /\ processed_count c + skipped_count c + error_count c
              = List.length (filter (has_descriptor (fs w)) (walked (fs w) directory))).
Proof.
  split.
  - intros root_path c w.
    destruct (generate_step_spec json_load root_path c w) as (log & E & _).
    do 3 eexists. split; [exact E|]. split.
    + intros Hd. apply (outcome_none_iff json_load) in Hd. rewrite Hd. reflexivity.
    + intros Hd. destruct (step_outcome json_load (fs w) root_path) eqn:Ho; simpl; auto.
      apply outcome_none_iff in Ho. congruence.
  - intros directory w Hdir.
    destruct (generate_run_spec json_load directory w Hdir) as (pre & E & _).
    do 3 eexists. split; [exact E|].
    pose proof (walk_counts_total json_load (fs w) (walked (fs w) directory)
                  (Counts 0 0 0)) as T.
    unfold total in T. simpl in T. exact T.
Qed.

Lemma counters_account_for_every_descriptor_witness :
  exists c w' pre,
    generate_textures_cache example_load ["models"] (example_world [])
    = (Ok tt, w',
       pre ++ [Print LINE_PROCESSED [ANat (processed_count c)];
               Print LINE_SKIPPED [ANat (skipped_count c)];
               Print LINE_ERRORS [ANat (error_count c)];
               Print LINE_TOTAL
                     [ANat (processed_count c + skipped_count c + error_count c)]])
    /\ processed_count c + skipped_count c + error_count c = 6.
Proof.
  destruct (proj2 (counters_account_for_every_descriptor example_load)
              ["models"] (example_world []))
    as (c & w' & pre & E & T).
  - vm_compute. discriminate.
  - exists c, w', pre. split; [exact E|]. rewrite T. reflexivity.
Defined.

(** C10.  A parsed document that is not an object can make the extractor
    raise: on the array holding the string "textures" the membership test
    succeeds and the subscript raises [TypeError].  On an object it never
    raises.  The walk counts a descriptor on which it raises as an error,
    not as skipped, and writes nothing for it. *)
Theorem extractor_raises_on_non_object (json_load : string -> result json) :
  extract_textures_from_json (JArr [JStr "textures"]) = Raise TypeError
  /\ (forall d, exists r, extract_textures_from_json (JObj d) = Ok r)
  /\ (forall root_path c w bytes data e,
         kind_of (fs w) (root_path ++ [INDEX_JSON]) = IsFile bytes ->
         json_load bytes = Ok data ->
         extract_textures_from_json data = Raise e ->
         exists log,
           generate_step json_load root_path c w
           = (Ok (Counts (processed_count c) (skipped_count c) (error_count c + 1)),
              w, log)
           /\ writes_of log = []).
Proof.
  split; [reflexivity|]. split.
  - intros d. rewrite extract_object. eauto.
  - intros root_path c w bytes data e Hidx Hload Hext.
    assert (Hd : descriptor json_load (fs w) root_path = Some (Raise e)).
    { unfold descriptor. rewrite Hidx. unfold rbind. rewrite Hload, Hext. reflexivity. }
    destruct (generate_step_failed json_load root_path c w Hd) as (log & E & W).
    exists log. split; [exact E|exact W].
Qed.

Lemma extractor_raises_on_non_object_witness :
  exists log,
    generate_step example_load ["models"; "list"] (Counts 0 0 0) (example_world [])
    = (Ok (Counts 0 0 1), example_world [], log)
    /\ writes_of log = [].
Proof.
  apply (proj2 (proj2 (extractor_raises_on_non_object example_load))
           ["models"; "list"] (Counts 0 0 0) (example_world [])
           (dumps doc_array) doc_array TypeError); reflexivity.
Defined.

(** C8.  A second generation run over the tree that the first run left
    ends with the same tree, and writes the same cache files with the same
    bytes, in the same order, as the first run did. *)
Theorem generation_idempotent
        (json_load : string -> result json) (directory : path) (w : world) :
  exists w1 log1 log2,
    generate_textures_cache json_load directory w = (Ok tt, w1, log1)
    /\ generate_textures_cache json_load directory w1 = (Ok tt, w1, log2)
    /\ writes_of log2 = writes_of log1.
Proof.
  destruct (generate_run_total json_load directory w) as (log1 & E1 & W1 & _).
  set (roots := walked (fs w) directory) in *.
  set (n1 := walk_fs json_load (fs w) roots (fs w)) in *.
  assert (Hag : agree (fs w) n1) by (apply walk_fs_agree, agree_refl).
  destruct (generate_run_total json_load directory (World n1 (stdin w)))
    as (log2 & E2 & W2 & _).
  simpl fs in E2, W2. simpl stdin in E2.
  assert (Hroots : walked n1 directory = roots) by apply walk_fs_walked.
  rewrite Hroots in E2, W2.
  rewrite (walk_fs_ext json_load roots Hag) in E2.
  rewrite (walk_writes_ext json_load roots Hag) in W2.
  fold n1 in E2. unfold n1 in E2 at 2. rewrite walk_fs_idempotent in E2. fold n1 in E2.
  exists (World n1 (stdin w)), log1, log2.
  split; [exact E1|]. split; [exact E2|]. rewrite W1, W2. reflexivity.
Qed.

(** ** Preview mode *)

Section PreviewFacts.

Variable json_load : string -> result json.

(** The body of the scanning loop reads and collects; it writes nothing. *)
Lemma preview_step_spec (root_path : path) (found : list file_info) (w : world) :
  exists log,
    preview_step json_load root_path found w
    = (Ok (found ++ scan_entry json_load (fs w) root_path), w, log)
    /\ writes_of log = [] /\ prompts_of log = [].
Proof.
  unfold preview_step, scan_entry, descriptor.
  pose proof (path_exists_run (root_path ++ [INDEX_JSON]) w) as Hstat.
  destruct (kind_of (fs w) (root_path ++ [INDEX_JSON])) as [| |bytes] eqn:Hidx.
  - (* no index.json here *)
    rewrite app_nil_r. eexists. split.
    + eapply run_bind_ok; [exact Hstat|]. reflexivity.
    + split; reflexivity.
  - (* index.json is a directory *)
    rewrite app_nil_r. eexists. split.
    + eapply run_bind_ok; [exact Hstat|].
      eapply run_try_raise; [|reflexivity].
      apply run_bind_raise. apply load_json_dir. assumption.
    + split; reflexivity.
  - (* index.json is a regular file *)
    pose proof (load_json_file json_load _ _ Hidx) as Hread.
    unfold rbind.
    destruct (json_load bytes) as [data|e] eqn:Hload.
    + destruct (extract_textures_from_json data) as [[[textures|] format_type]|e] eqn:Hext.
      * destruct (extract_some_list _ Hext) as [l ->].
        eexists. split.
        -- eapply run_bind_ok; [exact Hstat|].
           apply run_try_ok.
           eapply run_bind_ok; [exact Hread|].
           eapply run_bind_ok; [unfold lift; rewrite Hext; reflexivity|].
           cbn [fst snd]. eapply run_bind_ok; [reflexivity|]. reflexivity.
        -- split; reflexivity.
      * rewrite app_nil_r. eexists. split.
        -- eapply run_bind_ok; [exact Hstat|].
           apply run_try_ok.
           eapply run_bind_ok; [exact Hread|].
           eapply run_bind_ok; [unfold lift; rewrite Hext; reflexivity|].
           reflexivity.
        -- split; reflexivity.
      * rewrite app_nil_r. eexists. split.
        -- eapply run_bind_ok; [exact Hstat|].
           eapply run_try_raise; [|reflexivity].
           eapply run_bind_ok; [exact Hread|].
           apply run_bind_raise. unfold lift. rewrite Hext. reflexivity.
        -- split; reflexivity.
    + rewrite app_nil_r. eexists. split.
      * eapply run_bind_ok; [exact Hstat|].
        eapply run_try_raise; [|reflexivity].
        apply run_bind_raise. exact Hread.
      * split; reflexivity.
Qed.

Lemma preview_loop_spec (roots : list path) :
  forall (found : list file_info) (w : world),
    exists log,
      for_each roots (preview_step json_load) found w
      = (Ok (found ++ flat_map (scan_entry json_load (fs w)) roots), w, log)
      /\ writes_of log = [] /\ prompts_of log = [].
Proof.
  induction roots as [|r rest IH]; intros found w.
  - simpl. rewrite app_nil_r. exists []. repeat split.
  - destruct (preview_step_spec r found w) as (l1 & E1 & W1 & P1).
    destruct (IH (found ++ scan_entry json_load (fs w) r) w) as (l2 & E2 & W2 & P2).
    exists (l1 ++ l2). split; [|split].
    + simpl. rewrite app_assoc. eapply run_bind_ok; [exact E1|exact E2].
    + log_simpl. rewrite W1, W2. reflexivity.
    + log_simpl. rewrite P1, P2. reflexivity.
Qed.

Lemma output_only_print_file_info (it : nat * file_info) :
  output_only (print_file_info it) tt.
Proof. unfold print_file_info. output_steps. Qed.

Lemma output_only_listing (found : list file_info) :
  output_only
    (bind (for_each (enumerate 1 found) (fun it _ => print_file_info it) tt)
          (fun _ => print "\n总共找到 {len(found_files)} 个可处理的 index.json 文件"
                          [ANat (List.length found)]))
    tt.
Proof.
  eapply output_only_bind; [|apply output_only_print].
  apply output_only_for_each. intros it. apply output_only_print_file_info.
Qed.

Lemma bind_assoc {A B C : Type} (m : M A) (k : A -> M B) (h : B -> M C) (w : world) :
  bind (bind m k) h w = bind m (fun a => bind (k a) h) w.
Proof.
  unfold bind. destruct (m w) as [[[a|e] w1] l1]; [|reflexivity].
  destruct (k a w1) as [[[b|e] w2] l2]; [|reflexivity].
  destruct (h b w2) as [[r w3] l3]. rewrite app_assoc. reflexivity.
Qed.

(** Preview mode over an existing directory is the scan, which writes
    nothing and asks nothing, followed by the confirmation block on the
    recognized set. *)
Lemma preview_mode_scan (directory : path) (w : world) :
  kind_of (fs w) directory <> Absent ->
  exists l0,
    writes_of l0 = [] /\ prompts_of l0 = []
    /\ forall r w' l,
         preview_confirm json_load directory (scan json_load (fs w) directory) w
         = (r, w', l) ->
         preview_mode json_load directory w = (r, w', l0 ++ l).
Proof.
  intros Hdir.
  destruct (preview_loop_spec (walked (fs w) directory) [] w) as (ls & Es & Ws & Ps).
  simpl in Es.
  exists ([Stat directory] ++ [Print "🔍 预览模式 - 扫描结果:" []]
          ++ [Print (str_mul "-" 50) []] ++ [Walk directory] ++ ls).
  split; [|split].
  - log_simpl. exact Ws.
  - log_simpl. exact Ps.
  - intros r w' l Hc. unfold preview_mode. rewrite <- !app_assoc.
    eapply run_bind_ok; [apply path_exists_run|].
    destruct (kind_of (fs w) directory); [contradiction| |];
      (cbn [negb];
       eapply run_bind_ok; [reflexivity|];
       eapply run_bind_ok; [reflexivity|];
       eapply run_bind_ok; [apply os_walk_run|];
       eapply run_bind_ok; [exact Es|exact Hc]).
Qed.

End PreviewFacts.

Example confirms_yes : map confirms ["y"; "Y"; " yes "; "YES"; "是"] = [true; true; true; true; true].
Proof. reflexivity. Qed.

Example confirms_no : map confirms [""; "n"; "no"; "yes please"; "ok"] = [false; false; false; false; false].
Proof. reflexivity. Qed.

(** An answer followed by a no-break space (U+00A0), and one between
    ideographic spaces (U+3000), are confirmations. *)
Example confirms_wide_space :
  map confirms
      [("y" ++ String "194" (String "160" EmptyString))%string;
       (String "227" (String "128" (String "128" EmptyString)) ++ "yes"
          ++ String "227" (String "128" (String "128" EmptyString)))%string]
  = [true; true].
Proof. reflexivity. Qed.

(** C7.  In preview mode over an existing directory the scan writes no file
    and asks nothing.  When it recognized no descriptor, the run reports
    that nothing was found and ends without a prompt and without a write.
    When it recognized some, the run asks once: at the end of input or on an
    answer other than y, yes or 是 (an empty answer included) it ends with
    no file written and the tree unchanged; on such an answer the
    generation pass runs, after the prompt, and nothing was written before
    it. *)
Theorem preview_confirms_before_generating
        (json_load : string -> result json) (directory : path) (w : world) :
  kind_of (fs w) directory <> Absent ->
  let found := scan json_load (fs w) directory in
  (exists log,
      for_each (walked (fs w) directory) (preview_step json_load) [] w = (Ok found, w, log)
      /\ writes_of log = [] /\ prompts_of log = [])
  /\ (found = [] ->
      exists pre,
        preview_mode json_load directory w = (Ok tt, w, pre ++ [Print LINE_NOTHING_FOUND []])
        /\ writes_of pre = [] /\ prompts_of pre = [])
  /\ (found <> [] -> stdin w = [] ->
      exists log,
        preview_mode json_load directory w = (Raise EOFError, w, log)
        /\ writes_of log = [])
  /\ (found <> [] -> forall line rest,
        stdin w = line :: rest -> confirms line = false ->
        exists pre,
          preview_mode json_load directory w
          = (Ok tt, World (fs w) rest, pre ++ [Print LINE_CANCELLED []])
          /\ writes_of pre = [])
  /\ (found <> [] -> forall line rest,
        stdin w = line :: rest -> confirms line = true ->
        exists pre w' lg,
          generate_textures_cache json_load directory (World (fs w) rest) = (Ok tt, w', lg)
          /\ preview_mode json_load directory w = (Ok tt, w', pre ++ lg)
          /\ writes_of pre = [] /\ prompts_of pre = [Input PROMPT_CONTINUE]).
Proof.
  intros Hdir found.
  destruct (preview_mode_scan json_load directory w Hdir) as (l0 & W0 & P0 & Hscan).
  fold found in Hscan.
  split; [|split; [|split; [|split]]].
  - apply (preview_loop_spec json_load (walked (fs w) directory) [] w).
  - intros Hnone. rewrite Hnone in Hscan.
    exists l0. split; [|split; assumption].
    apply Hscan. reflexivity.
  - intros Hsome Hin.
    destruct found as [|x xs] eqn:Hf; [contradiction|].
    destruct (output_only_listing (x :: xs) w) as (ll & El & Wl & Pl).
    eexists. split.
    + apply Hscan. unfold preview_confirm. rewrite <- bind_assoc.
      eapply run_bind_ok; [exact El|].
      apply run_bind_raise. unfold input. rewrite Hin. reflexivity.
    + log_simpl. rewrite W0, Wl. reflexivity.
  - intros Hsome line rest Hin Hno.
    destruct found as [|x xs] eqn:Hf; [contradiction|].
    destruct (output_only_listing (x :: xs) w) as (ll & El & Wl & Pl).
    exists (l0 ++ ll ++ [Input PROMPT_CONTINUE]). split.
    + rewrite <- !app_assoc. apply Hscan. unfold preview_confirm. rewrite <- bind_assoc.
      eapply run_bind_ok; [exact El|].
      eapply run_bind_ok; [unfold input; rewrite Hin; reflexivity|].
      fold (confirms line). rewrite Hno. reflexivity.
    + log_simpl. rewrite W0, Wl. reflexivity.
  - intros Hsome line rest Hin Hyes.
    destruct found as [|x xs] eqn:Hf; [contradiction|].
    destruct (output_only_listing (x :: xs) w) as (ll & El & Wl & Pl).
    destruct (generate_run_total json_load directory (World (fs w) rest))
      as (lg & Eg & _).
    exists (l0 ++ ll ++ [Input PROMPT_CONTINUE] ++ [Print "\n开始生成..." []]
            ++ [Print (str_mul "=" 50) []]).
    do 2 eexists. split; [exact Eg|]. split; [|split].
    + rewrite <- !app_assoc. apply Hscan. unfold preview_confirm. rewrite <- bind_assoc.
      eapply run_bind_ok; [exact El|].
      eapply run_bind_ok; [unfold input; rewrite Hin; reflexivity|].
      fold (confirms line). rewrite Hyes.
      eapply run_bind_ok; [reflexivity|].
      eapply run_bind_ok; [reflexivity|]. exact Eg.
    + log_simpl. rewrite W0, Wl. reflexivity.
    + log_simpl. rewrite P0, Pl. reflexivity.
Qed.

Lemma preview_confirms_before_generating_witness :
  (exists pre,
      preview_mode example_load ["models"] (example_world [""])
      = (Ok tt, example_world [], pre ++ [Print LINE_CANCELLED []])
      /\ writes_of pre = [])
  /\ (exists pre w' lg,
         generate_textures_cache example_load ["models"] (example_world [])
         = (Ok tt, w', lg)
         /\ preview_mode example_load ["models"]
                         (example_world [("y" ++ String "194" (String "160" EmptyString))%string])
            = (Ok tt, w', pre ++ lg)
         /\ writes_of pre = [] /\ prompts_of pre = [Input PROMPT_CONTINUE]).
Proof.
  split.
  - destruct (@preview_confirms_before_generating example_load ["models"]
                (example_world [""]))
      as (_ & _ & _ & Hno & _).
    + vm_compute. discriminate.
    + apply (Hno ltac:(vm_compute; discriminate) "" []); reflexivity.
  - destruct (@preview_confirms_before_generating example_load ["models"]
                (example_world [("y" ++ String "194" (String "160" EmptyString))%string]))
      as (_ & _ & _ & _ & Hyes).
    + vm_compute. discriminate.
    + apply (Hyes ltac:(vm_compute; discriminate)
                  ("y" ++ String "194" (String "160" EmptyString))%string []);
        reflexivity.
Defined.

(** ** The command line *)

(** With [-h] or [--help] as the first argument, [main] prints the banner
    and the usage text and does nothing else: no path is looked at, no file
    is read or written, and standard input is not touched. *)
Lemma main_help_first (json_load : string -> result json) (argv : list string) (w : world) :
  1 < List.length argv ->
  str_in (nth 1 argv EmptyString) ["-h"; "--help"] = true ->
  exists log,
    main json_load argv w = (Ok tt, w, log)
    /\ filter is_file_access log = []
    /\ prompts_of log = []
    /\ printed LINE_USAGE log = true.
Proof.
  intros Hlen Hhelp. unfold main. eexists. split.
  - eapply run_bind_ok; [reflexivity|].
    eapply run_bind_ok; [reflexivity|].
    apply Nat.ltb_lt in Hlen. rewrite Hlen, Hhelp. reflexivity.
  - repeat split.
Qed.

(** C6.  The help flag is honoured in the first position only.  With the
    directory first and [--help] after it, [main] prints no usage text: it
    walks the directory and writes the cache files. *)
Theorem help_flag_after_directory_ignored :
  exists w' log,
    main example_load ["generate.py"; "models"; "--help"] (example_world [])
    = (Ok tt, w', log)
    /\ printed LINE_USAGE log = false
    /\ In (Walk ["models"]) log
    /\ writes_of log
       = [Write ["models"; "textures.cache"] (dumps (JArr []));
          Write ["models"; "haru"; "textures.cache"] (dumps (JArr [JStr "a.png"; JStr "b.png"]));
          Write ["models"; "hiyori"; "textures.cache"] (dumps (JArr [JStr "t0.png"]))]
    /\ kind_of (fs w') ["models"; "textures.cache"] = IsFile "[]".
Proof.
  do 2 eexists. split; [vm_compute; reflexivity|].
  split; [reflexivity|]. split; [|split; reflexivity].
  do 6 right. left. reflexivity.
Qed.

(** * Further properties *)

(** ** The extractor on documents that are not objects *)

Lemma existsb_str_eq_value (key : string) (l : list json) :
  existsb (str_eq_value key) l = true <-> In (JStr key) l.
Proof.
  rewrite existsb_exists. split.
  - intros (x & Hin & Hx). destruct x; try discriminate.
    simpl in Hx. apply String.eqb_eq in Hx. subst. assumption.
  - intros Hin. exists (JStr key). split; [assumption|]. simpl. apply String.eqb_refl.
Qed.

(** X1.  On a top-level array the extractor raises [TypeError] when the
    array holds the string "textures" or the string "FileReferences" (the
    membership test succeeds and the subscript fails), and answers that the
    format is unknown otherwise; on a top-level string the same holds with
    the substring test; on null, a boolean or a number it always raises. *)
Theorem extract_on_non_object :
  (forall l,
      (In (JStr "textures") l \/ In (JStr "FileReferences") l ->
       extract_textures_from_json (JArr l) = Raise TypeError)
      /\ (~ In (JStr "textures") l -> ~ In (JStr "FileReferences") l ->
          extract_textures_from_json (JArr l) = Ok (None, FORMAT_UNKNOWN)))
  /\ (forall s,
         extract_textures_from_json (JStr s)
         = if (is_substring "textures" s || is_substring "FileReferences" s)%bool
           then Raise TypeError else Ok (None, FORMAT_UNKNOWN))
  /\ (forall data,
         match data with JArr _ | JStr _ | JObj _ => False | _ => True end ->
         extract_textures_from_json data = Raise TypeError).
Proof.
  split; [|split].
  - intros l.
    pose proof (existsb_str_eq_value "textures" l) as Ht.
    pose proof (existsb_str_eq_value "FileReferences" l) as Hf.
    unfold extract_textures_from_json, and_then, contains, getitem, rbind.
    destruct (existsb (str_eq_value "textures") l);
      destruct (existsb (str_eq_value "FileReferences") l); split;
      try reflexivity; intros H; try intros H';
      try (exfalso; apply H; apply Ht; reflexivity);
      try (exfalso; apply H'; apply Hf; reflexivity).
    destruct H as [H|H]; [apply Ht in H|apply Hf in H]; discriminate.
  - intros s. unfold extract_textures_from_json, and_then, contains, getitem, rbind.
    destruct (is_substring "textures" s); [reflexivity|].
    destruct (is_substring "FileReferences" s); reflexivity.
  - intros data H. destruct data; try contradiction; reflexivity.
Qed.

Lemma extract_on_non_object_witness :
  extract_textures_from_json (JArr [JInt 1; JStr "FileReferences"]) = Raise TypeError
  /\ extract_textures_from_json (JArr [JStr "a.png"; JArr [JStr "textures"]])
     = Ok (None, FORMAT_UNKNOWN)
  /\ extract_textures_from_json (JBool true) = Raise TypeError.
Proof.
  split; [|split].
  - apply (proj1 (proj1 extract_on_non_object [JInt 1; JStr "FileReferences"])).
    right. right. left. reflexivity.
  - apply (proj2 (proj1 extract_on_non_object [JStr "a.png"; JArr [JStr "textures"]]));
      intros [H|[H|[]]]; discriminate.
  - apply (proj2 (proj2 extract_on_non_object) (JBool true)). exact I.
Defined.

(** X2.  Whatever the document, a result of the extractor is of one of two
    forms: no textures with the label of the unknown format, or a list taken
    from an object with the label of one of the two formats.  So the label
    tells whether textures were found, and what is found is always a list. *)
Theorem extract_result_form (data : json) (t : option json) (label : string) :
  extract_textures_from_json data = Ok (t, label) ->
  (t = None /\ label = FORMAT_UNKNOWN)
  \/ (exists d l, data = JObj d /\ t = Some (JArr l)
                  /\ ((label = FORMAT_STANDARD /\ dict_get "textures" d = Some (JArr l))
                      \/ (label = FORMAT_CUBISM3
                          /\ exists file_refs,
                               dict_get "FileReferences" d = Some (JObj file_refs)
                               /\ dict_get "Textures" file_refs = Some (JArr l)))).
Proof.
  destruct data as [ | b | z | r | s | l | d]; try discriminate.
  - unfold extract_textures_from_json, and_then, contains, getitem, rbind.
    destruct (is_substring "textures" s); [discriminate|].
    destruct (is_substring "FileReferences" s); [discriminate|].
    intros [= <- <-]. left. split; reflexivity.
  - unfold extract_textures_from_json, and_then, contains, getitem, rbind.
    destruct (existsb (str_eq_value "textures") l); [discriminate|].
    destruct (existsb (str_eq_value "FileReferences") l); [discriminate|].
    intros [= <- <-]. left. split; reflexivity.
  - rewrite extract_object. unfold detect, standard_shape, cubism_shape.
    destruct (dict_get "textures" d) as [[ | | | | | l | m]|] eqn:Ht;
      try solve [intros [= <- <-]; right; exists d, l;
                 split; [reflexivity|]; split; [reflexivity|]; left;
                 split; [reflexivity|assumption]].
    all: destruct (dict_get "FileReferences" d) as [[ | | | | | l' | fr]|] eqn:Hf;
      try solve [intros [= <- <-]; left; split; reflexivity].
    all: destruct (dict_get "Textures" fr) as [[ | | | | | l'' | m'']|] eqn:Hx;
      try solve [intros [= <- <-]; left; split; reflexivity].
    all: intros [= <- <-]; right; exists d, l'';
      (split; [reflexivity|]); (split; [reflexivity|]); right;
      (split; [reflexivity|]); exists fr; split; assumption.
Qed.

Lemma extract_result_form_witness :
  (Some (JArr [JStr "t0.png"]) = None /\ FORMAT_CUBISM3 = FORMAT_UNKNOWN)
  \/ (exists d l, doc_cubism = JObj d /\ Some (JArr [JStr "t0.png"]) = Some (JArr l)
                  /\ ((FORMAT_CUBISM3 = FORMAT_STANDARD
                       /\ dict_get "textures" d = Some (JArr l))
                      \/ (FORMAT_CUBISM3 = FORMAT_CUBISM3
                          /\ exists file_refs,
                               dict_get "FileReferences" d = Some (JObj file_refs)
                               /\ dict_get "Textures" file_refs = Some (JArr l)))).
Proof. apply (@extract_result_form doc_cubism). reflexivity. Defined.

(** X3.  On an object the result depends on the members "textures" and
    "FileReferences" only: two objects that agree on these two keys give the
    same result, whatever their other members and the order of the members. *)
Theorem extract_depends_on_two_keys (d d' : list (string * json)) :
  dict_get "textures" d = dict_get "textures" d' ->
  dict_get "FileReferences" d = dict_get "FileReferences" d' ->
  extract_textures_from_json (JObj d) = extract_textures_from_json (JObj d').
Proof.
  intros Ht Hf. rewrite !extract_object.
  unfold detect, standard_shape, cubism_shape. rewrite Ht, Hf. reflexivity.
Qed.

Lemma extract_depends_on_two_keys_witness :
  extract_textures_from_json
    (JObj [("name", JStr "haru"); ("textures", JArr [JStr "a.png"]); ("layout", JNull)])
  = extract_textures_from_json
      (JObj [("textures", JArr [JStr "a.png"]); ("version", JInt 2)]).
Proof. apply extract_depends_on_two_keys; reflexivity. Defined.

(** ** Further properties of a generation run *)

Lemma lookup_app (d q : path) :
  forall n,
    lookup n (d ++ q)
    = match lookup n d with Some t => lookup t q | None => None end.
Proof.
  induction d as [|x d' IH]; intros n; simpl; [reflexivity|].
  destruct n as [b|es]; [reflexivity|].
  destruct (child x es) as [c|]; [apply IH|reflexivity].
Qed.

Lemma child_In (name : string) (c : node) (es : list (string * node)) :
  child name es = Some c -> In (name, c) es.
Proof.
  induction es as [|[k v] rest IH]; simpl; [discriminate|].
  destruct (String.eqb_spec name k) as [->|Hne].
  - intros [= ->]. left. reflexivity.
  - intros H. right. apply IH. assumption.
Qed.

Lemma walk_reaches (q : path) :
  forall (top : node) (pre : path),
    kind_of top q = IsDir -> In (pre ++ q) (walk pre top).
Proof.
  induction q as [|x q' IH]; intros top pre Hk.
  - rewrite kind_of_nil in Hk. destruct top as [b|es]; [discriminate|].
    rewrite app_nil_r. left. reflexivity.
  - rewrite kind_of_cons in Hk. destruct top as [b|es]; [discriminate|].
    destruct (child x es) as [c|] eqn:Hc; [|discriminate].
    simpl. right. apply in_flat_map. exists (x, c). split.
    + apply child_In. assumption.
    + simpl. replace (pre ++ x :: q') with ((pre ++ [x]) ++ q')
        by (rewrite <- app_assoc; reflexivity).
      apply IH. assumption.
Qed.

Lemma kind_of_app (n : node) (d q : path) :
  kind_of n (d ++ q)
  = match lookup n d with Some t => kind_of t q | None => Absent end.
Proof.
  unfold kind_of. rewrite lookup_app. destruct (lookup n d); reflexivity.
Qed.

Lemma walked_file (n : node) (directory : path) (b : string) :
  kind_of n directory = IsFile b -> walked n directory = [].
Proof.
  unfold kind_of, walked. destruct (lookup n directory) as [[b0|es]|]; try discriminate.
  reflexivity.
Qed.

Section MoreRunFacts.

Variable json_load : string -> result json.

Lemma recognized_bytes (n : node) (root_path : path) (t : json) (f : string) :
  descriptor json_load n root_path = Some (Ok (Some t, f)) ->
  kind_of n (root_path ++ [TEXTURES_CACHE]) <> IsDir ->
  cache_bytes (step_outcome json_load n root_path) = Some (dumped t).
Proof.
  intros Hd Hk. unfold step_outcome. rewrite Hd.
  destruct (kind_of n (root_path ++ [TEXTURES_CACHE])); [|contradiction|];
    destruct (dump_completes t); reflexivity.
Qed.


(** What a path is after the walk: what it was, or the cache file of a
    directory of the walk whose descriptor was recognized. *)
Lemma kind_of_walk_fs (n0 : node) (roots : list path) (q : path) :
  forall m,
    agree n0 m ->
    kind_of (walk_fs json_load n0 roots m) q = kind_of m q
    \/ exists root_path bytes,
         In root_path roots
         /\ cache_bytes (step_outcome json_load n0 root_path) = Some bytes
         /\ q = root_path ++ [TEXTURES_CACHE]
         /\ kind_of (walk_fs json_load n0 roots m) q = IsFile bytes.
Proof.
  induction roots as [|r rest IH]; intros m Hag; simpl; [left; reflexivity|].
  set (m1 := step_fs (step_outcome json_load n0 r) r m).
  assert (Hag1 : agree n0 m1).
  { eapply agree_trans; [eassumption|apply agree_step_fs]. }
  destruct (IH m1 Hag1) as [Hsame|(root & bytes & Hin & Ho & Hq & Hk)].
  - destruct (cache_bytes (step_outcome json_load n0 r)) as [bytes|] eqn:Hr.
    + destruct (generated_writes json_load r Hag Hr bytes) as [m' Hw].
      assert (Hm1 : m1 = m') by (unfold m1, step_fs; rewrite Hr, Hw; reflexivity).
      rewrite Hsame, Hm1, (kind_of_write _ _ _ Hw).
      destruct (list_eq_dec string_dec q (r ++ [TEXTURES_CACHE])) as [->|Hne].
      * right. exists r, bytes.
        split; [left; reflexivity|]. split; [exact Hr|]. split; reflexivity.
      * left. reflexivity.
    + left. rewrite Hsame. unfold m1, step_fs. rewrite Hr. reflexivity.
  - right. exists root, bytes.
    split; [right; assumption|]. split; [assumption|]. split; assumption.
Qed.

End MoreRunFacts.



(** X5.  When the target exists but is a regular file, the walk yields no
    directory: generation reads and writes nothing and reports four zeros,
    and preview mode reports that nothing was found, without a prompt. *)
Theorem regular_file_target
        (json_load : string -> result json) (directory : path) (w : world) (b : string) :
  kind_of (fs w) directory = IsFile b ->
  generate_textures_cache json_load directory w
  = (Ok tt, w,
     [Stat directory; Walk directory; Print "\n📊 处理统计:" [];
      Print LINE_PROCESSED [ANat 0]; Print LINE_SKIPPED [ANat 0];
      Print LINE_ERRORS [ANat 0]; Print LINE_TOTAL [ANat 0]])
  /\ preview_mode json_load directory w
     = (Ok tt, w,
        [Stat directory; Print "🔍 预览模式 - 扫描结果:" []; Print (str_mul "-" 50) [];
         Walk directory; Print LINE_NOTHING_FOUND []]).
Proof.
  intros Hdir. pose proof (walked_file _ _ Hdir) as Hw.
  pose proof (path_exists_run directory w) as Hstat. rewrite Hdir in Hstat.
  pose proof (os_walk_run directory w) as Hwalk. rewrite Hw in Hwalk.
  split.
  - unfold generate_textures_cache. etransitivity.
    + eapply run_bind_ok; [exact Hstat|]. cbn [negb].
      eapply run_bind_ok; [exact Hwalk|]. reflexivity.
    + reflexivity.
  - unfold preview_mode. etransitivity.
    + eapply run_bind_ok; [exact Hstat|]. cbn [negb].
      eapply run_bind_ok; [reflexivity|].
      eapply run_bind_ok; [reflexivity|].
      eapply run_bind_ok; [exact Hwalk|]. reflexivity.
    + reflexivity.
Qed.

Lemma regular_file_target_witness :
  preview_mode example_load ["models"] (World file_tree ["y"])
  = (Ok tt, World file_tree ["y"],
     [Stat ["models"]; Print "🔍 预览模式 - 扫描结果:" []; Print (str_mul "-" 50) [];
      Walk ["models"]; Print LINE_NOTHING_FOUND []]).
Proof.
  apply (proj2 (@regular_file_target example_load ["models"] (World file_tree ["y"])
                  "not a folder" eq_refl)).
Defined.

(** X6.  A generation run always ends normally, whatever the tree and the
    parser: no exception raised while a descriptor is processed leaves the
    loop.  It never prompts and leaves standard input untouched. *)
Theorem generation_never_raises
        (json_load : string -> result json) (directory : path) (w : world) :
  exists n log,
    generate_textures_cache json_load directory w = (Ok tt, World n (stdin w), log)
    /\ prompts_of log = [].
Proof.
  destruct (generate_run_total json_load directory w) as (log & E & _ & P).
  do 2 eexists. split; [exact E|exact P].
Qed.

(** X7.  After a generation run, every directory of the walk whose
    descriptor was recognized with a list of names, and whose
    [textures.cache] was not a directory, holds a [textures.cache] with what
    [json.dump] wrote of the list, whatever was there before and however
    many directories were processed after it: the list as printed by
    [json.dump] when every name can be encoded. *)
Theorem generation_writes_every_recognized
        (json_load : string -> result json) (directory : path) (w : world)
        (root_path : path) (names : list string) (f : string) :
  In root_path (walked (fs w) directory) ->
  descriptor json_load (fs w) root_path = Some (Ok (Some (JArr (map JStr names)), f)) ->
  kind_of (fs w) (root_path ++ [TEXTURES_CACHE]) <> IsDir ->
  exists w' log,
    generate_textures_cache json_load directory w = (Ok tt, w', log)
    /\ kind_of (fs w') (root_path ++ [TEXTURES_CACHE])
       = IsFile (dumped (JArr (map JStr names)))
    /\ In (Write (root_path ++ [TEXTURES_CACHE]) (dumped (JArr (map JStr names)))) log
    /\ (forallb encodable names = true ->
        dumped (JArr (map JStr names)) = dumps (JArr (map JStr names))).
Proof.
  intros Hin Hd Hk.
  destruct (generate_run_total json_load directory w) as (log & E & W & _).
  pose proof (recognized_bytes json_load _ _ Hd Hk) as Ho.
  do 2 eexists. split; [exact E|]. split; [|split].
  - simpl. apply (@walk_fs_settles json_load (fs w) (walked (fs w) directory) (fs w) []
                    (agree_refl _)) with (r := root_path).
    + intros r' [].
    + exact Hin.
    + exact Ho.
  - assert (Hw : In (Write (root_path ++ [TEXTURES_CACHE]) (dumped (JArr (map JStr names))))
                    (writes_of log)).
    { rewrite W. unfold walk_writes. apply in_flat_map. exists root_path.
      split; [exact Hin|]. unfold step_writes. rewrite Ho. left. reflexivity. }
    unfold writes_of in Hw. apply filter_In in Hw. apply Hw.
  - intros Hnames. apply dumped_complete. rewrite dump_completes_names. exact Hnames.
Qed.

Lemma generation_writes_every_recognized_witness :
  exists w' log,
    generate_textures_cache example_load ["models"] (example_world []) = (Ok tt, w', log)
    /\ kind_of (fs w') ["models"; "haru"; "textures.cache"]
       = IsFile (dumps (JArr [JStr "a.png"; JStr "b.png"]))
    /\ In (Write ["models"; "haru"; "textures.cache"]
                 (dumps (JArr [JStr "a.png"; JStr "b.png"]))) log.
Proof.
  destruct (@generation_writes_every_recognized example_load ["models"] (example_world [])
              ["models"; "haru"] ["a.png"; "b.png"] FORMAT_STANDARD)
    as (w' & log & E & Hfile & Hwrite & _).
  - right. left. reflexivity.
  - reflexivity.
  - vm_compute. discriminate.
  - exists w', log. split; [exact E|]. split; [exact Hfile|exact Hwrite].
Defined.



(** ** What a run looks at *)

Lemma walked_reaches_descriptor (n : node) (directory q : path) :
  has_descriptor n (directory ++ q) = true ->
  In (directory ++ q) (walked n directory).
Proof.
  unfold has_descriptor, walked. intros Hd.
  assert (Hdir : kind_of n (directory ++ q) = IsDir).
  { rewrite kind_of_app in Hd. unfold kind_of.
    destruct (lookup n (directory ++ q)) as [[b|es]|]; try reflexivity.
    - rewrite kind_of_cons in Hd. discriminate.
    - discriminate. }
  rewrite kind_of_app in Hdir.
  destruct (lookup n directory) as [top|]; [|discriminate].
  apply walk_reaches. assumption.
Qed.

Lemma log_of_run {A : Type} (m : M A) (w w' : world) (r : result A) (l : list event) :
  m w = (r, w', l) -> log_of m w = l.
Proof. intros E. unfold log_of. rewrite E. reflexivity. Qed.

Lemma log_of_bind_ok {A B : Type} (m : M A) (k : A -> M B) (w w1 : world)
      (a : A) (l1 : list event) :
  m w = (Ok a, w1, l1) -> log_of (bind m k) w = l1 ++ log_of (k a) w1.
Proof.
  intros E. unfold log_of, bind. rewrite E.
  destruct (k a w1) as [[r w2] l2]. reflexivity.
Qed.

(** The events of the first part of a sequence, and of the body of a
    [try], are among the events of the whole. *)
Lemma log_of_bind_head {A B : Type} (m : M A) (k : A -> M B) (w : world) :
  exists l2, log_of (bind m k) w = log_of m w ++ l2.
Proof.
  unfold log_of, bind. destruct (m w) as [[[a|e] w1] l1]; simpl.
  - destruct (k a w1) as [[r w2] l2]. exists l2. reflexivity.
  - exists []. rewrite app_nil_r. reflexivity.
Qed.

Lemma log_of_try_head {A : Type} (m : M A) (h : exn -> M A) (w : world) :
  exists l2, log_of (try_except m h) w = log_of m w ++ l2.
Proof.
  unfold log_of, try_except. destruct (m w) as [[[a|e] w1] l1]; simpl.
  - exists []. rewrite app_nil_r. reflexivity.
  - destruct (h e w1) as [[r w2] l2]. exists l2. reflexivity.
Qed.

Lemma print_run (template : string) (args : list parg) (w : world) :
  print template args w = (Ok tt, w, [Print template args]).
Proof. reflexivity. Qed.

Ltac log_head :=
  match goal with
  | |- context [log_of (bind ?m ?k) ?w] =>
      let l := fresh "l" in
      let E := fresh "E" in
      destruct (log_of_bind_head m k w) as [l E]; rewrite E; clear E
  | |- context [log_of (try_except ?m ?h) ?w] =>
      let l := fresh "l" in
      let E := fresh "E" in
      destruct (log_of_try_head m h w) as [l E]; rewrite E; clear E
  end.

Section VisitFacts.

Variable json_load : string -> result json.

Lemma load_json_log (p : path) (w : world) (bytes : string) :
  kind_of (fs w) p = IsFile bytes -> log_of (load_json json_load p) w = [Read p].
Proof.
  intros Hk. unfold log_of. rewrite (load_json_file json_load _ _ Hk). reflexivity.
Qed.

(** The loop body of the generation walk looks for [index.json] first, and
    reads it when it is a regular file. *)
Lemma generate_step_log (root_path : path) (c : counts) (w : world) :
  exists l,
    log_of (generate_step json_load root_path c) w = Stat (root_path ++ [INDEX_JSON]) :: l
    /\ (forall bytes,
           kind_of (fs w) (root_path ++ [INDEX_JSON]) = IsFile bytes ->
           In (Read (root_path ++ [INDEX_JSON])) l).
Proof.
  unfold generate_step.
  rewrite (@log_of_bind_ok _ _ _ _ _ _ _ _ (path_exists_run (root_path ++ [INDEX_JSON]) w)).
  eexists. split; [reflexivity|].
  intros bytes Hk. rewrite Hk. cbv beta iota.
  log_head. log_head. unfold generate_attempt. log_head.
  rewrite (load_json_log _ _ Hk). left. reflexivity.
Qed.

Lemma preview_step_log (root_path : path) (found : list file_info) (w : world) :
  exists l,
    log_of (preview_step json_load root_path found) w
    = Stat (root_path ++ [INDEX_JSON]) :: l
    /\ (forall bytes,
           kind_of (fs w) (root_path ++ [INDEX_JSON]) = IsFile bytes ->
           In (Read (root_path ++ [INDEX_JSON])) l).
Proof.
  unfold preview_step.
  rewrite (@log_of_bind_ok _ _ _ _ _ _ _ _ (path_exists_run (root_path ++ [INDEX_JSON]) w)).
  eexists. split; [reflexivity|].
  intros bytes Hk. rewrite Hk. cbv beta iota.
  log_head. log_head.
  rewrite (load_json_log _ _ Hk). left. reflexivity.
Qed.

Lemma generate_loop_visits (n0 : node) (roots : list path) :
  forall (c : counts) (w : world),
    agree n0 (fs w) ->
    forall r,
      In r roots ->
      In (Stat (r ++ [INDEX_JSON])) (log_of (for_each roots (generate_step json_load) c) w)
      /\ (forall bytes,
             kind_of n0 (r ++ [INDEX_JSON]) = IsFile bytes ->
             In (Read (r ++ [INDEX_JSON]))
                (log_of (for_each roots (generate_step json_load) c) w)).
Proof.
  induction roots as [|x rest IH]; intros c w Hag r Hin; [destruct Hin|].
  destruct (generate_step_spec json_load x c w) as (l1 & E1 & _).
  simpl for_each. rewrite (@log_of_bind_ok _ _ _ _ _ _ _ _ E1).
  destruct Hin as [<-|Hin].
  - destruct (generate_step_log x c w) as (l & El & Hread).
    rewrite (@log_of_run _ _ _ _ _ _ E1) in El. subst l1. split.
    + left. reflexivity.
    + intros bytes Hk. right. apply in_or_app. left. apply (Hread bytes).
      destruct Hag as [_ I]. rewrite I. exact Hk.
  - assert (Hag1 : agree n0 (step_fs (step_outcome json_load (fs w) x) x (fs w))).
    { eapply agree_trans; [eassumption|apply agree_step_fs]. }
    destruct (IH (tally (step_outcome json_load (fs w) x) c)
                 (World (step_fs (step_outcome json_load (fs w) x) x (fs w)) (stdin w))
                 Hag1 r Hin) as [Hs Hr].
    split; [apply in_or_app; right; exact Hs|].
    intros bytes Hk. apply in_or_app. right. exact (Hr bytes Hk).
Qed.

Lemma preview_loop_visits (roots : list path) :
  forall (found : list file_info) (w : world) (r : path),
    In r roots ->
    In (Stat (r ++ [INDEX_JSON])) (log_of (for_each roots (preview_step json_load) found) w)
    /\ (forall bytes,
           kind_of (fs w) (r ++ [INDEX_JSON]) = IsFile bytes ->
           In (Read (r ++ [INDEX_JSON]))
              (log_of (for_each roots (preview_step json_load) found) w)).
Proof.
  induction roots as [|x rest IH]; intros found w r Hin; [destruct Hin|].
  destruct (preview_step_spec json_load x found w) as (l1 & E1 & _).
  simpl for_each. rewrite (@log_of_bind_ok _ _ _ _ _ _ _ _ E1).
  destruct Hin as [<-|Hin].
  - destruct (preview_step_log x found w) as (l & El & Hread).
    rewrite (@log_of_run _ _ _ _ _ _ E1) in El. subst l1. split.
    + left. reflexivity.
    + intros bytes Hk. right. apply in_or_app. left. exact (Hread bytes Hk).
  - destruct (IH (found ++ scan_entry json_load (fs w) x) w r Hin) as [Hs Hr].
    split; [apply in_or_app; right; exact Hs|].
    intros bytes Hk. apply in_or_app. right. exact (Hr bytes Hk).
Qed.

Lemma walked_present (n : node) (directory r : path) :
  In r (walked n directory) -> kind_of n directory <> Absent.
Proof. intros Hin H. rewrite (walked_missing _ _ H) in Hin. destruct Hin. Qed.

Lemma generate_run_visits (directory : path) (w : world) (r : path) :
  In r (walked (fs w) directory) ->
  In (Stat (r ++ [INDEX_JSON])) (log_of (generate_textures_cache json_load directory) w)
  /\ (forall bytes,
         kind_of (fs w) (r ++ [INDEX_JSON]) = IsFile bytes ->
         In (Read (r ++ [INDEX_JSON]))
            (log_of (generate_textures_cache json_load directory) w)).
Proof.
  intros Hin. pose proof (walked_present _ _ _ Hin) as Hdir.
  destruct (@generate_loop_visits (fs w) (walked (fs w) directory) (Counts 0 0 0) w
              (agree_refl _) r Hin) as [Hs Hr].
  unfold generate_textures_cache.
  rewrite (@log_of_bind_ok _ _ _ _ _ _ _ _ (path_exists_run directory w)).
  destruct (kind_of (fs w) directory); [contradiction| |];
    (cbn [negb];
     rewrite (@log_of_bind_ok _ _ _ _ _ _ _ _ (os_walk_run directory w));
     log_head;
     split;
     [ cbn [app]; right; right; apply in_or_app; left; exact Hs
     | intros b Hk; cbn [app]; right; right; apply in_or_app; left;
       exact (Hr b Hk) ]).
Qed.

Lemma preview_mode_visits (directory : path) (w : world) (r : path) :
  In r (walked (fs w) directory) ->
  In (Stat (r ++ [INDEX_JSON])) (log_of (preview_mode json_load directory) w)
  /\ (forall bytes,
         kind_of (fs w) (r ++ [INDEX_JSON]) = IsFile bytes ->
         In (Read (r ++ [INDEX_JSON])) (log_of (preview_mode json_load directory) w)).
Proof.
  intros Hin. pose proof (walked_present _ _ _ Hin) as Hdir.
  destruct (@preview_loop_visits (walked (fs w) directory) [] w r Hin) as [Hs Hr].
  unfold preview_mode.
  rewrite (@log_of_bind_ok _ _ _ _ _ _ _ _ (path_exists_run directory w)).
  destruct (kind_of (fs w) directory); [contradiction| |];
    (cbn [negb];
     rewrite (@log_of_bind_ok _ _ _ _ _ _ _ _ (print_run _ _ w));
     rewrite (@log_of_bind_ok _ _ _ _ _ _ _ _ (print_run _ _ w));
     rewrite (@log_of_bind_ok _ _ _ _ _ _ _ _ (os_walk_run directory w));
     log_head;
     split;
     [ cbn [app]; do 4 right; apply in_or_app; left; exact Hs
     | intros b Hk; cbn [app]; do 4 right; apply in_or_app; left;
       exact (Hr b Hk) ]).
Qed.

End VisitFacts.

(** X9.  Both loops reach every descriptor below the target: wherever an
    [index.json] exists at any depth under the target directory, a
    generation run looks for it there and reads it when it is a regular
    file, and so does a run of preview mode, whatever is answered. *)
Theorem walk_visits_every_descriptor
        (json_load : string -> result json) (directory q : path) (w : world) :
  has_descriptor (fs w) (directory ++ q) = true ->
  let index_json_path := (directory ++ q) ++ [INDEX_JSON] in
  (exists w' log,
      generate_textures_cache json_load directory w = (Ok tt, w', log)
      /\ In (Stat index_json_path) log
      /\ (forall bytes,
             kind_of (fs w) index_json_path = IsFile bytes -> In (Read index_json_path) log))
  /\ (forall r w' log,
         preview_mode json_load directory w = (r, w', log) ->
         In (Stat index_json_path) log
         /\ (forall bytes,
                kind_of (fs w) index_json_path = IsFile bytes ->
                In (Read index_json_path) log)).
Proof.
  intros Hd index_json_path.
  pose proof (walked_reaches_descriptor _ _ _ Hd) as Hin. split.
  - destruct (generate_run_total json_load directory w) as (log & E & _).
    eexists. exists log. split; [exact E|].
    rewrite <- (@log_of_run _ _ _ _ _ _ E). apply generate_run_visits. exact Hin.
  - intros r w' log E. rewrite <- (@log_of_run _ _ _ _ _ _ E). apply preview_mode_visits. exact Hin.
Qed.

Lemma walk_visits_every_descriptor_witness :
  exists w' log,
    generate_textures_cache example_load ["models"] (example_world []) = (Ok tt, w', log)
    /\ In (Stat ["models"; "hiyori"; "index.json"]) log
    /\ In (Read ["models"; "hiyori"; "index.json"]) log.
Proof.
  destruct (proj1 (@walk_visits_every_descriptor example_load ["models"] ["hiyori"]
                     (example_world []) eq_refl))
    as (w' & log & E & Hs & Hr).
  exists w', log. split; [exact E|]. split; [exact Hs|].
  apply (Hr (dumps doc_cubism)). reflexivity.
Defined.

(** ** The counters and the files written *)

Section CategoryFacts.

Variable json_load : string -> result json.

Lemma descriptor_list (n : node) (root_path : path) (t : json) (f : string) :
  descriptor json_load n root_path = Some (Ok (Some t, f)) -> exists l, t = JArr l.
Proof.
  unfold descriptor, rbind.
  destruct (kind_of n (root_path ++ [INDEX_JSON])) as [| |bytes]; try discriminate.
  destruct (json_load bytes) as [data|e]; [|discriminate].
  intros [= H]. eapply extract_some_list. eassumption.
Qed.

(** The class of a directory of the walk, from the outcome of its step. *)
Lemma outcome_class (n : node) (root_path : path) :
  match step_outcome json_load n root_path with
  | NoDescriptor =>
      unrecognized json_load n root_path = false
      /\ opens_cache json_load n root_path = false
      /\ fails_early json_load n root_path = false
  | Generated _ _ | Truncated _ _ =>
      unrecognized json_load n root_path = false
      /\ opens_cache json_load n root_path = true
      /\ fails_early json_load n root_path = false
  | Skipped _ =>
      unrecognized json_load n root_path = true
      /\ opens_cache json_load n root_path = false
      /\ fails_early json_load n root_path = false
  | Failed _ =>
      unrecognized json_load n root_path = false
      /\ opens_cache json_load n root_path = false
      /\ fails_early json_load n root_path = true
  end.
Proof.
  unfold step_outcome, unrecognized, opens_cache, fails_early.
  destruct (descriptor json_load n root_path) as [[[[t|] f]|e]|]; try (repeat split).
  destruct (kind_of n (root_path ++ [TEXTURES_CACHE])); try (repeat split);
    destruct (dump_completes t); repeat split.
Qed.

Lemma plain_names_complete (n : node) (root_path : path) (t : json) (f : string) :
  plain_names json_load n root_path ->
  step_outcome json_load n root_path <> Truncated t f.
Proof.
  intros Hplain Ho. unfold step_outcome in Ho.
  destruct (descriptor json_load n root_path) as [[[[t'|] f']|e]|] eqn:Hd;
    try discriminate.
  destruct (Hplain t' f' Hd) as (names & -> & Hnames).
  rewrite dump_completes_names, Hnames in Ho.
  destruct (kind_of n (root_path ++ [TEXTURES_CACHE])); discriminate.
Qed.

Lemma walk_counts_classes (n0 : node) (roots : list path) :
  forall c,
    skipped_count (walk_counts json_load n0 roots c)
    = skipped_count c + List.length (filter (unrecognized json_load n0) roots)
    /\ processed_count (walk_counts json_load n0 roots c)
       + error_count (walk_counts json_load n0 roots c)
       = processed_count c + error_count c
         + List.length (filter (opens_cache json_load n0) roots)
         + List.length (filter (fails_early json_load n0) roots)
    /\ processed_count (walk_counts json_load n0 roots c)
       <= processed_count c + List.length (filter (opens_cache json_load n0) roots)
    /\ ((forall r, In r roots -> plain_names json_load n0 r) ->
        processed_count (walk_counts json_load n0 roots c)
        = processed_count c + List.length (filter (opens_cache json_load n0) roots)).
Proof.
  unfold walk_counts. induction roots as [|r rest IH]; intros c.
  - simpl. repeat split; lia.
  - cbn [fold_left filter].
    destruct (IH (tally (step_outcome json_load n0 r) c)) as (I1 & I2 & I3 & I4).
    pose proof (outcome_class n0 r) as Hc.
    pose proof (fun t f => @plain_names_complete n0 r t f) as Hp.
    destruct (step_outcome json_load n0 r) as [|t f|t f|f|e];
      destruct Hc as (-> & -> & ->); cbn [tally processed_count skipped_count error_count] in *;
      cbn [List.length];
      (split; [lia|]); (split; [lia|]); (split; [lia|]);
      intros Hall;
      try (rewrite I4 by (intros r' Hr'; apply Hall; right; exact Hr'); lia).
    exfalso. apply (Hp t f); [apply Hall; left; reflexivity|reflexivity].
Qed.

Lemma walk_writes_opened (n0 : node) (roots : list path) :
  List.length (walk_writes json_load n0 roots)
  = List.length (filter (opens_cache json_load n0) roots).
Proof.
  unfold walk_writes. induction roots as [|r rest IH]; [reflexivity|].
  cbn [flat_map filter]. rewrite length_app, IH.
  pose proof (outcome_class n0 r) as Hc. unfold step_writes.
  destruct (step_outcome json_load n0 r); destruct Hc as (_ & -> & _); reflexivity.
Qed.

End CategoryFacts.

(** X10.  The numbers reported at the end of a run count the directories of
    the walk by what the loop body met there.  The number reported as
    skipped is the number of descriptors of no known shape.  The number
    reported as generated is at most the number of recognized descriptors
    whose cache file could be opened, which is the number of files the run
    opened for writing; the rest of these count as errors, with the
    descriptors that failed before any file was opened.  When the textures
    of every recognized descriptor are names that can be encoded, every
    cache file that was opened counts as generated. *)
Theorem counters_count_their_category
        (json_load : string -> result json) (directory : path) (w : world) :
  kind_of (fs w) directory <> Absent ->
  let roots := walked (fs w) directory in
  let count := fun k : node -> path -> bool => List.length (filter (k (fs w)) roots) in
  exists c w' pre,
    generate_textures_cache json_load directory w
    = (Ok tt, w',
       pre ++ [Print LINE_PROCESSED [ANat (processed_count c)];
               Print LINE_SKIPPED [ANat (skipped_count c)];
               Print LINE_ERRORS [ANat (error_count c)];
               Print LINE_TOTAL
                     [ANat (processed_count c + skipped_count c + error_count c)]])
    /\ skipped_count c = count (unrecognized json_load)
    /\ List.length (writes_of pre) = count (opens_cache json_load)
    /\ processed_count c <= count (opens_cache json_load)
    /\ processed_count c + error_count c
       = count (opens_cache json_load) + count (fails_early json_load)
    /\ ((forall r, In r roots -> plain_names json_load (fs w) r) ->
        processed_count c = count (opens_cache json_load)
        /\ error_count c = count (fails_early json_load)).
Proof.
  intros Hdir roots count.
  destruct (generate_run_spec json_load directory w Hdir) as (pre & E & W & _).
  destruct (walk_counts_classes json_load (fs w) roots (Counts 0 0 0))
    as (H1 & H2 & H3 & H4).
  fold roots in E, W. cbn [processed_count skipped_count error_count] in H1, H2, H3, H4.
  do 3 eexists. split; [exact E|].
  split; [exact H1|]. split; [rewrite W; apply walk_writes_opened|].
  split; [exact H3|]. split; [exact H2|].
  intros Hall. specialize (H4 Hall). unfold count. split; [exact H4|lia].
Qed.

Lemma counters_count_their_category_witness :
  exists c w' pre,
    generate_textures_cache example_load ["models"] (example_world [])
    = (Ok tt, w',
       pre ++ [Print LINE_PROCESSED [ANat (processed_count c)];
               Print LINE_SKIPPED [ANat (skipped_count c)];
               Print LINE_ERRORS [ANat (error_count c)];
               Print LINE_TOTAL
                     [ANat (processed_count c + skipped_count c + error_count c)]])
    /\ skipped_count c = 1
    /\ List.length (writes_of pre) = 3
    /\ processed_count c <= 3
    /\ processed_count c + error_count c = 3 + 2.
Proof.
  destruct (@counters_count_their_category example_load ["models"] (example_world []))
    as (c & w' & pre & E & H1 & H2 & H3 & H4 & _).
  - vm_compute. discriminate.
  - exists c, w', pre. split; [exact E|].
    split; [exact H1|]. split; [exact H2|]. split; [exact H3|exact H4].
Defined.

(** ** Reports *)

Lemma printed_app (template : string) (l1 l2 : list event) :
  printed template (l1 ++ l2) = (printed template l1 || printed template l2)%bool.
Proof. apply existsb_app. Qed.

Lemma handle_error_run (p : path) (c : counts) (e : exn) (w : world) :
  handle_error p c e w
  = (Ok (Counts (processed_count c) (skipped_count c) (error_count c + 1)), w,
     [Print (error_headline e) [APath p]; Print "  错误详情: {e}" [AExn e]]).
Proof. destruct e; reflexivity. Qed.

Section ReportFacts.

Variable json_load : string -> result json.

(** The body of the scanning loop prints nothing, whatever it finds. *)
Lemma preview_step_quiet (root_path : path) (found : list file_info) (w : world) :
  exists log,
    preview_step json_load root_path found w
    = (Ok (found ++ scan_entry json_load (fs w) root_path), w, log)
    /\ prints_of log = [].
Proof.
  unfold preview_step, scan_entry, descriptor.
  pose proof (path_exists_run (root_path ++ [INDEX_JSON]) w) as Hstat.
  destruct (kind_of (fs w) (root_path ++ [INDEX_JSON])) as [| |bytes] eqn:Hidx.
  - rewrite app_nil_r. eexists. split.
    + eapply run_bind_ok; [exact Hstat|]. reflexivity.
    + reflexivity.
  - rewrite app_nil_r. eexists. split.
    + eapply run_bind_ok; [exact Hstat|].
      eapply run_try_raise; [|reflexivity].
      apply run_bind_raise. apply load_json_dir. assumption.
    + reflexivity.
  - pose proof (load_json_file json_load _ _ Hidx) as Hread.
    unfold rbind.
    destruct (json_load bytes) as [data|e] eqn:Hload.
    + destruct (extract_textures_from_json data) as [[[textures|] format_type]|e] eqn:Hext.
      * destruct (extract_some_list _ Hext) as [l ->].
        eexists. split.
        -- eapply run_bind_ok; [exact Hstat|].
           apply run_try_ok.
           eapply run_bind_ok; [exact Hread|].
           eapply run_bind_ok; [unfold lift; rewrite Hext; reflexivity|].
           cbn [fst snd]. eapply run_bind_ok; [reflexivity|]. reflexivity.
        -- reflexivity.
      * rewrite app_nil_r. eexists. split.
        -- eapply run_bind_ok; [exact Hstat|].
           apply run_try_ok.
           eapply run_bind_ok; [exact Hread|].
           eapply run_bind_ok; [unfold lift; rewrite Hext; reflexivity|].
           reflexivity.
        -- reflexivity.
      * rewrite app_nil_r. eexists. split.
        -- eapply run_bind_ok; [exact Hstat|].
           eapply run_try_raise; [|reflexivity].
           eapply run_bind_ok; [exact Hread|].
           apply run_bind_raise. unfold lift. rewrite Hext. reflexivity.
        -- reflexivity.
    + rewrite app_nil_r. eexists. split.
      * eapply run_bind_ok; [exact Hstat|].
        eapply run_try_raise; [|reflexivity].
        apply run_bind_raise. exact Hread.
      * reflexivity.
Qed.

Lemma failed_outcome (n : node) (root_path : path) (e : exn) :
  descriptor json_load n root_path = Some (Raise e) ->
  step_outcome json_load n root_path = Failed e
  /\ has_descriptor n root_path = true.
Proof.
  intros Hd. unfold step_outcome. rewrite Hd. split; [reflexivity|].
  unfold has_descriptor. unfold descriptor in Hd.
  destruct (kind_of n (root_path ++ [INDEX_JSON])); [discriminate| |]; reflexivity.
Qed.

End ReportFacts.

(** X12.  A descriptor that cannot be read or parsed, or on which the
    extractor raises, is passed over in silence by the scan of preview mode
    (the list of found files is unchanged and nothing is printed), while the
    generation walk counts it as an error and prints the report of its
    [except] clause: the JSON headline for a [JSONDecodeError], the general
    one for any other exception, followed by the detail line. *)
Theorem failure_is_silent_in_preview_and_reported_in_generation
        (json_load : string -> result json) (root_path : path) (w : world) (e : exn)
        (found : list file_info) (c : counts) :
  descriptor json_load (fs w) root_path = Some (Raise e) ->
  (exists log,
      preview_step json_load root_path found w = (Ok found, w, log)
      /\ prints_of log = [])
  /\ (exists log,
         generate_step json_load root_path c w
         = (Ok (Counts (processed_count c) (skipped_count c) (error_count c + 1)), w, log)
         /\ printed (error_headline e) log = true
         /\ printed "  错误详情: {e}" log = true
         /\ printed (error_headline (match e with
                                     | JSONDecodeError => OSError
                                     | _ => JSONDecodeError
                                     end)) log = false).
Proof.
  intros Hd. split.
  - destruct (preview_step_quiet json_load root_path found w) as (log & E & P).
    unfold scan_entry in E. rewrite Hd, app_nil_r in E. eauto.
  - destruct (failed_outcome json_load _ _ Hd) as [Ho Hpresent].
    destruct (generate_attempt_spec json_load root_path c w Hpresent) as (la & Ea & _).
    rewrite Ho in Ea. cbn [step_fs cache_bytes] in Ea. rewrite world_eta in Ea.
    assert (Hla : prints_of la = []).
    { revert Ea. unfold generate_attempt, descriptor in *.
      destruct (kind_of (fs w) (root_path ++ [INDEX_JSON])) as [| |bytes] eqn:Hidx;
        [discriminate| |].
      - unfold bind. rewrite (load_json_dir json_load _ _ Hidx).
        intros H. injection H. intros. subst. reflexivity.
      - unfold bind. rewrite (load_json_file json_load _ _ Hidx).
        unfold rbind in Hd.
        destruct (json_load bytes) as [data|e0];
          [|intros H; injection H; intros; subst; reflexivity].
        unfold lift. injection Hd as Hd. rewrite Hd.
        intros H. injection H. intros. subst. reflexivity. }
    pose proof (path_exists_run (root_path ++ [INDEX_JSON]) w) as Hstat.
    change (match kind_of (fs w) (root_path ++ [INDEX_JSON]) with
            | Absent => false
            | _ => true
            end) with (has_descriptor (fs w) root_path) in Hstat.
    rewrite Hpresent in Hstat.
    eexists. split.
    + unfold generate_step.
      eapply run_bind_ok; [exact Hstat|].
      eapply run_bind_ok;
        [eapply run_try_raise; [exact Ea|apply handle_error_run]|].
      eapply run_bind_ok; [reflexivity|]. reflexivity.
    + assert (Hnone : forall t, printed t la = false).
      { intros t. unfold printed. apply not_true_is_false. intros H.
        apply existsb_exists in H. destruct H as (x & Hin & Hx).
        destruct x; try discriminate.
        assert (Hp : In (Print template args) (prints_of la)).
        { unfold prints_of. apply filter_In. split; [assumption|reflexivity]. }
        rewrite Hla in Hp. destruct Hp. }
      rewrite !printed_app, !Hnone.
      destruct e; repeat split; reflexivity.
Qed.

Lemma failure_is_silent_in_preview_and_reported_in_generation_witness :
  exists log,
    generate_step example_load ["models"; "broken"] (Counts 0 0 0) (example_world [])
    = (Ok (Counts 0 0 1), example_world [], log)
    /\ printed "✗ JSON错误: {index_json_path}" log = true
    /\ printed "  错误详情: {e}" log = true
    /\ printed "✗ 处理错误: {index_json_path}" log = false.
Proof.
  apply (proj2 (@failure_is_silent_in_preview_and_reported_in_generation
                  example_load ["models"; "broken"] (example_world []) JSONDecodeError
                  [] (Counts 0 0 0) eq_refl)).
Defined.

(** ** What preview mode announces *)

Lemma announced_app (l1 l2 : list event) :
  announced (l1 ++ l2) = announced l1 ++ announced l2.
Proof. apply flat_map_app. Qed.

Lemma opened_for_writing_app (l1 l2 : list event) :
  opened_for_writing (l1 ++ l2) = opened_for_writing l1 ++ opened_for_writing l2.
Proof. apply flat_map_app. Qed.

Lemma announced_quiet (l : list event) : prints_of l = [] -> announced l = [].
Proof.
  induction l as [|e l' IH]; [reflexivity|].
  destruct e; simpl; try exact IH. discriminate.
Qed.

Lemma opened_for_writing_writes (l : list event) :
  opened_for_writing (writes_of l) = opened_for_writing l.
Proof.
  induction l as [|e l' IH]; [reflexivity|].
  destruct e; simpl; rewrite <- IH; reflexivity.
Qed.

Lemma prints_of_app (l1 l2 : list event) :
  prints_of (l1 ++ l2) = prints_of l1 ++ prints_of l2.
Proof. apply filter_app. Qed.

(** The listing of preview mode: four lines for each entry. *)
Lemma listing_run (found : list file_info) :
  forall (k : nat) (w : world),
    for_each (enumerate k found) (fun it _ => print_file_info it) tt w
    = (Ok tt, w,
       flat_map (fun it : nat * file_info =>
                   [Print "{i}. {file_info['path']}" [ANat (fst it); APath (info_path (snd it))];
                    Print "   格式: {file_info['format']}" [AStr (info_format (snd it))];
                    Print "   纹理数量: {file_info['texture_count']}"
                          [ANat (info_texture_count (snd it))];
                    Print "   将生成: {file_info['path'].parent / 'textures.cache'}"
                          [APath (removelast (info_path (snd it)) ++ [TEXTURES_CACHE])]])
                (enumerate k found)).
Proof.
  induction found as [|info rest IH]; intros k w; [reflexivity|].
  cbn [enumerate for_each flat_map].
  eapply run_bind_ok; [reflexivity|]. apply IH.
Qed.

Lemma announced_listing (found : list file_info) :
  forall k,
    announced
      (flat_map (fun it : nat * file_info =>
                   [Print "{i}. {file_info['path']}" [ANat (fst it); APath (info_path (snd it))];
                    Print "   格式: {file_info['format']}" [AStr (info_format (snd it))];
                    Print "   纹理数量: {file_info['texture_count']}"
                          [ANat (info_texture_count (snd it))];
                    Print "   将生成: {file_info['path'].parent / 'textures.cache'}"
                          [APath (removelast (info_path (snd it)) ++ [TEXTURES_CACHE])]])
                (enumerate k found))
    = map (fun info => removelast (info_path info) ++ [TEXTURES_CACHE]) found.
Proof.
  induction found as [|info rest IH]; intros k; [reflexivity|].
  cbn [enumerate flat_map map]. rewrite announced_app, IH. reflexivity.
Qed.

Section AnnounceFacts.

Variable json_load : string -> result json.

Lemma preview_loop_quiet (roots : list path) :
  forall (found : list file_info) (w : world),
    exists log,
      for_each roots (preview_step json_load) found w
      = (Ok (found ++ flat_map (scan_entry json_load (fs w)) roots), w, log)
      /\ prints_of log = [].
Proof.
  induction roots as [|r rest IH]; intros found w.
  - simpl. rewrite app_nil_r. exists []. split; reflexivity.
  - destruct (preview_step_quiet json_load r found w) as (l1 & E1 & P1).
    destruct (IH (found ++ scan_entry json_load (fs w) r) w) as (l2 & E2 & P2).
    exists (l1 ++ l2). split.
    + simpl. rewrite app_assoc. eapply run_bind_ok; [exact E1|exact E2].
    + rewrite prints_of_app, P1, P2. reflexivity.
Qed.

(** Preview mode up to the confirmation block announces nothing. *)
Lemma preview_mode_scan_quiet (directory : path) (w : world) :
  kind_of (fs w) directory <> Absent ->
  exists l0,
    announced l0 = []
    /\ forall r w' l,
         preview_confirm json_load directory (scan json_load (fs w) directory) w
         = (r, w', l) ->
         preview_mode json_load directory w = (r, w', l0 ++ l).
Proof.
  intros Hdir.
  destruct (preview_loop_quiet (walked (fs w) directory) [] w) as (ls & Es & Ps).
  simpl in Es.
  exists ([Stat directory] ++ [Print "🔍 预览模式 - 扫描结果:" []]
          ++ [Print (str_mul "-" 50) []] ++ [Walk directory] ++ ls).
  split.
  - rewrite !announced_app, (announced_quiet _ Ps). reflexivity.
  - intros r w' l Hc. unfold preview_mode. rewrite <- !app_assoc.
    eapply run_bind_ok; [apply path_exists_run|].
    destruct (kind_of (fs w) directory); [contradiction| |];
      (cbn [negb];
       eapply run_bind_ok; [reflexivity|];
       eapply run_bind_ok; [reflexivity|];
       eapply run_bind_ok; [apply os_walk_run|];
       eapply run_bind_ok; [exact Es|exact Hc]).
Qed.

(** The cache path announced for an entry of the scan is the path that
    the generation step opens. *)
Lemma scan_entry_paths (n : node) (root_path : path) :
  kind_of n (root_path ++ [TEXTURES_CACHE]) <> IsDir ->
  map (fun info => removelast (info_path info) ++ [TEXTURES_CACHE])
      (scan_entry json_load n root_path)
  = opened_for_writing (step_writes (step_outcome json_load n root_path) root_path).
Proof.
  intros Hk. unfold scan_entry, step_outcome, step_writes.
  destruct (descriptor json_load n root_path) as [[[[t|] f]|e]|] eqn:Hd; try reflexivity.
  destruct (descriptor_list json_load _ _ Hd) as [l ->].
  destruct (kind_of n (root_path ++ [TEXTURES_CACHE])); [|contradiction|];
    destruct (dump_completes (JArr l)); simpl; rewrite removelast_last; reflexivity.
Qed.

Lemma scan_paths (n : node) (roots : list path) :
  (forall r, In r roots -> kind_of n (r ++ [TEXTURES_CACHE]) <> IsDir) ->
  map (fun info => removelast (info_path info) ++ [TEXTURES_CACHE])
      (flat_map (scan_entry json_load n) roots)
  = opened_for_writing (walk_writes json_load n roots).
Proof.
  unfold walk_writes. induction roots as [|r rest IH]; intros H; [reflexivity|].
  cbn [flat_map]. rewrite map_app, opened_for_writing_app, IH, scan_entry_paths.
  - reflexivity.
  - apply H. left. reflexivity.
  - intros r' Hr'. apply H. right. assumption.
Qed.

End AnnounceFacts.

(** X11.  Preview mode announces what generation does.  When no
    [textures.cache] of the walk is a directory, the paths on the lines
    "将生成" that a run of preview mode prints before it is declined are, in
    the same order, the paths of the files that a generation run over the
    same tree opens for writing. *)
Theorem preview_announces_generation
        (json_load : string -> result json) (directory : path) (w : world)
        (line : string) (rest : list string) :
  kind_of (fs w) directory <> Absent ->
  (forall r, In r (walked (fs w) directory) ->
             kind_of (fs w) (r ++ [TEXTURES_CACHE]) <> IsDir) ->
  stdin w = line :: rest ->
  confirms line = false ->
  exists w1 log1 w2 log2,
    preview_mode json_load directory w = (Ok tt, w1, log1)
    /\ generate_textures_cache json_load directory w = (Ok tt, w2, log2)
    /\ fs w1 = fs w
    /\ announced log1 = opened_for_writing log2.
Proof.
  intros Hdir Hk Hin Hno.
  destruct (preview_mode_scan_quiet json_load directory w Hdir) as (l0 & A0 & Hscan).
  destruct (generate_run_total json_load directory w) as (l2 & E2 & W2 & _).
  pose proof (scan_paths json_load (fs w) (walked (fs w) directory) Hk) as Hpaths.
  fold (scan json_load (fs w) directory) in Hpaths.
  rewrite <- W2, opened_for_writing_writes in Hpaths.
  destruct (scan json_load (fs w) directory) as [|x xs] eqn:Hf.
  - (* nothing was recognized: nothing is announced and nothing is written *)
    do 4 eexists. split; [apply Hscan; reflexivity|]. split; [exact E2|].
    split; [reflexivity|].
    rewrite announced_app, A0, <- Hpaths. reflexivity.
  - do 4 eexists. split; [|split; [exact E2|split]].
    + apply Hscan. unfold preview_confirm.
      eapply run_bind_ok; [apply listing_run|].
      eapply run_bind_ok; [reflexivity|].
      eapply run_bind_ok; [unfold input; rewrite Hin; reflexivity|].
      fold (confirms line). rewrite Hno. reflexivity.
    + reflexivity.
    + rewrite !announced_app, A0, announced_listing, Hpaths.
      change (announced [Print "\n总共找到 {len(found_files)} 个可处理的 index.json 文件"
                               [ANat (List.length (x :: xs))]]) with (@nil path).
      change (announced [Input PROMPT_CONTINUE]) with (@nil path).
      change (announced [Print LINE_CANCELLED []]) with (@nil path).
      cbn [app]. apply app_nil_r.
Qed.

Lemma preview_announces_generation_witness :
  exists w1 log1 w2 log2,
    preview_mode example_load ["models"] (example_world ["n"]) = (Ok tt, w1, log1)
    /\ generate_textures_cache example_load ["models"] (example_world ["n"])
       = (Ok tt, w2, log2)
    /\ fs w1 = example_tree
    /\ announced log1 = opened_for_writing log2.
Proof.
  apply (@preview_announces_generation example_load ["models"] (example_world ["n"])
           "n" []).
  - vm_compute. discriminate.
  - intros r Hr. vm_compute in Hr.
    repeat (destruct Hr as [<-|Hr]; [vm_compute; discriminate|]). destruct Hr.
  - reflexivity.
  - reflexivity.
Defined.

(** ** More on the command line *)

(** X13.  With [-h] or [--help] as the first argument the run is the same
    whatever else is given: one fixed text is printed, banner and usage,
    whatever the other arguments, the tree, the parser and standard input;
    no path is looked at, no file is read or written, nothing is asked, and
    the world is left as it was. *)
Theorem help_first_is_fixed_output :
  exists log,
    filter is_file_access log = []
    /\ prompts_of log = []
    /\ printed LINE_USAGE log = true
    /\ forall (json_load : string -> result json) (argv : list string) (w : world),
         1 < List.length argv ->
         str_in (nth 1 argv EmptyString) ["-h"; "--help"] = true ->
         main json_load argv w = (Ok tt, w, log).
Proof.
  eexists. split; [|split; [|split]].
  4:{ intros json_load argv w Hlen Hhelp. unfold main.
      eapply run_bind_ok; [reflexivity|].
      eapply run_bind_ok; [reflexivity|].
      apply Nat.ltb_lt in Hlen. rewrite Hlen, Hhelp. reflexivity. }
  all: reflexivity.
Qed.

Lemma help_first_is_fixed_output_witness :
  exists log,
    main example_load ["generate.py"; "--help"; "models"; "--preview"] (example_world ["y"])
    = (Ok tt, example_world ["y"], log)
    /\ main example_load ["generate.py"; "-h"] (World file_tree [])
       = (Ok tt, World file_tree [], log).
Proof.
  destruct help_first_is_fixed_output as (log & _ & _ & _ & H).
  exists log. split; apply H; solve [simpl; lia | reflexivity].
Defined.

Lemma first_positional_skips (flags : list string) (dir : string) (rest : list string)
      (default : string) :
  forallb starts_with_dash flags = true ->
  starts_with_dash dir = false ->
  first_positional (flags ++ dir :: rest) default = dir.
Proof.
  unfold starts_with_dash. intros Hflags Hdir.
  induction flags as [|x flags' IH]; simpl.
  - rewrite Hdir. reflexivity.
  - simpl in Hflags. apply andb_true_iff in Hflags. destruct Hflags as [Hx Hrest].
    rewrite Hx. simpl. apply IH. assumption.
Qed.

Lemma first_positional_default (flags : list string) (default : string) :
  forallb starts_with_dash flags = true ->
  first_positional flags default = default.
Proof.
  unfold starts_with_dash. intros Hflags.
  induction flags as [|x flags' IH]; simpl; [reflexivity|].
  simpl in Hflags. apply andb_true_iff in Hflags. destruct Hflags as [Hx Hrest].
  rewrite Hx. simpl. apply IH. assumption.
Qed.

(** X14.  Unless the first argument is a help flag, the target directory is
    the first argument that does not start with a dash, wherever it stands
    among the options, and the current directory when every argument starts
    with a dash; preview mode is chosen when [--preview] or [-p] occurs
    anywhere in [sys.argv].  What follows the directory is not looked at as
    a directory.  Without arguments the current directory is generated. *)
Theorem main_takes_first_positional
        (json_load : string -> result json) (prog dir : string)
        (flags rest : list string) (w : world) :
  forallb starts_with_dash flags = true ->
  starts_with_dash dir = false ->
  str_in (nth 0 (flags ++ [dir]) EmptyString) ["-h"; "--help"] = false ->
  let argv := prog :: flags ++ dir :: rest in
  main json_load argv w
  = bind (print "Live2D Textures Cache 生成器" [])
         (fun _ => bind (print (str_mul "=" 50) [])
                        (fun _ => run json_load dir
                                      (str_in "--preview" argv || str_in "-p" argv)))
         w
  /\ (flags <> [] ->
      main json_load (prog :: flags) w
      = bind (print "Live2D Textures Cache 生成器" [])
             (fun _ => bind (print (str_mul "=" 50) [])
                            (fun _ => run json_load "."
                                          (str_in "--preview" (prog :: flags)
                                           || str_in "-p" (prog :: flags))))
             w)
  /\ main json_load [prog] w
     = bind (print "Live2D Textures Cache 生成器" [])
            (fun _ => bind (print (str_mul "=" 50) [])
                           (fun _ => run json_load "." false))
            w.
Proof.
  intros Hflags Hdir Hhelp argv. split; [|split].
  - unfold main, argv.
    assert (Hlen : Nat.ltb 1 (List.length (prog :: flags ++ dir :: rest)) = true).
    { apply Nat.ltb_lt. simpl. rewrite length_app. simpl. lia. }
    assert (Hfirst : nth 1 (prog :: flags ++ dir :: rest) EmptyString
                     = nth 0 (flags ++ [dir]) EmptyString).
    { destruct flags; reflexivity. }
    rewrite Hlen, Hfirst, Hhelp. cbn [tl].
    rewrite (@first_positional_skips flags dir rest "." Hflags Hdir). reflexivity.
  - intros Hne. unfold main. destruct flags as [|x flags']; [contradiction|].
    assert (Hx : str_in (nth 1 (prog :: x :: flags') EmptyString) ["-h"; "--help"]
                 = false) by exact Hhelp.
    assert (Hlen : Nat.ltb 1 (List.length (prog :: x :: flags')) = true) by reflexivity.
    rewrite Hlen, Hx. cbn [tl].
    rewrite (@first_positional_default (x :: flags') "." Hflags). reflexivity.
  - reflexivity.
Qed.

Lemma main_takes_first_positional_witness :
  main example_load ["generate.py"; "--preview"; "models"; "other"] (example_world ["n"])
  = bind (print "Live2D Textures Cache 生成器" [])
         (fun _ => bind (print (str_mul "=" 50) [])
                        (fun _ => run example_load "models" true))
         (example_world ["n"]).
Proof.
  apply (proj1 (@main_takes_first_positional example_load "generate.py" "models"
                  ["--preview"] ["other"] (example_world ["n"]) eq_refl eq_refl eq_refl)).
Defined.

(** ** The listing of the textures *)

Lemma for_each_print {A : Type} (template : string) (args : A -> list parg)
      (xs : list A) (w : world) :
  for_each xs (fun it _ => print template (args it)) tt w
  = (Ok tt, w, map (fun it => Print template (args it)) xs).
Proof.
  induction xs as [|x rest IH]; simpl; [reflexivity|].
  unfold bind. simpl. rewrite IH. reflexivity.
Qed.

Lemma nth_error_last (l : list json) (d : json) :
  l <> [] -> nth_error l (List.length l - 1) = Some (last l d).
Proof.
  induction l as [|a [|b rest] IH]; intros H; [contradiction|reflexivity|].
  replace (List.length (a :: b :: rest) - 1) with (S (List.length (b :: rest) - 1))
    by (simpl; lia).
  change (nth_error (a :: b :: rest) (S (List.length (b :: rest) - 1)))
    with (nth_error (b :: rest) (List.length (b :: rest) - 1)).
  rewrite IH by discriminate. reflexivity.
Qed.

(** X15.  The listing of a texture list after a cache file is generated
    never raises and is short: every texture on a line of its own when there
    are at most five, and otherwise four lines, for the first texture, the
    second, an ellipsis, and the last texture with the length of the list. *)
Theorem print_textures_abridges (l : list json) (w : world) :
  print_textures (JArr l) w = (Ok tt, w, texture_lines l)
  /\ List.length (texture_lines l) <= 5.
Proof.
  split.
  - unfold print_textures, texture_lines, bind, lift, len, iter.
    destruct (Nat.leb (List.length l) 5) eqn:E.
    + rewrite for_each_print. reflexivity.
    + apply Nat.leb_gt in E.
      destruct l as [|a [|b rest]]; simpl in E; try lia.
      rewrite (@getindex_nth (a :: b :: rest) 0 a eq_refl : getindex _ 0 = _).
      rewrite (@getindex_nth (a :: b :: rest) 1 b eq_refl : getindex _ 1 = _).
      assert (Hlast : getindex (JArr (a :: b :: rest)) (-1)
                      = Ok (last (a :: b :: rest) JNull)).
      { replace (-1)%Z with (-1)%Z by reflexivity. unfold getindex.
        set (n := List.length (a :: b :: rest)).
        assert (Hn : (0 < n)%nat) by (unfold n; simpl; lia).
        replace (-1 <? 0)%Z with true by reflexivity.
        replace ((0 <=? -1 + Z.of_nat n)%Z && (-1 + Z.of_nat n <? Z.of_nat n)%Z)%bool
          with true
          by (symmetry; apply andb_true_iff; split; [apply Z.leb_le|apply Z.ltb_lt]; lia).
        replace (Z.to_nat (-1 + Z.of_nat n)) with (n - 1) by lia.
        unfold n. rewrite (nth_error_last JNull) by discriminate. reflexivity. }
      rewrite Hlast. reflexivity.
  - unfold texture_lines. destruct (Nat.leb (List.length l) 5) eqn:E.
    + apply Nat.leb_le in E. rewrite length_map.
      assert (Hen : forall (xs : list json) k, List.length (enumerate k xs) = List.length xs).
      { induction xs as [|x xs' IH]; intros k; simpl; [reflexivity|]. rewrite IH. reflexivity. }
      rewrite Hen. exact E.
    + simpl. lia.
Qed.

(** ** The bytes of a cache file *)

Lemma unescape_head_escape_char (c : ascii) (rest : string) :
  unescape_head (escape_char c ++ rest) = Some (c, rest).
Proof. destruct c as [[] [] [] [] [] [] [] []]; reflexivity. Qed.

Lemma escape_char_head (c : ascii) (rest : string) :
  match (escape_char c ++ rest)%string with
  | String a _ => Ascii.eqb a "034"
  | EmptyString => true
  end = false.
Proof. destruct c as [[] [] [] [] [] [] [] []]; reflexivity. Qed.

(** An escaped string body, closed by its quote, can be read back in one
    way only. *)
Lemma escape_closed_inj (s1 : string) :
  forall (s2 r1 r2 : string),
    (escape s1 ++ String "034" r1)%string = (escape s2 ++ String "034" r2)%string ->
    s1 = s2 /\ r1 = r2.
Proof.
  induction s1 as [|c1 s1' IH]; intros s2 r1 r2 H; destruct s2 as [|c2 s2'].
  - simpl in H. injection H as ->. split; reflexivity.
  - exfalso. simpl in H. rewrite string_app_assoc in H.
    pose proof (escape_char_head c2 (escape s2' ++ String "034" r2)) as Hh.
    rewrite <- H in Hh. discriminate.
  - exfalso. simpl in H. rewrite string_app_assoc in H.
    pose proof (escape_char_head c1 (escape s1' ++ String "034" r1)) as Hh.
    rewrite H in Hh. discriminate.
  - simpl in H. rewrite !string_app_assoc in H.
    apply (f_equal unescape_head) in H.
    rewrite !unescape_head_escape_char in H. injection H as -> H.
    destruct (IH _ _ _ H) as [-> ->]. split; reflexivity.
Qed.

Lemma encode_str_inj (s1 s2 r1 r2 : string) :
  (encode_str s1 ++ r1)%string = (encode_str s2 ++ r2)%string -> s1 = s2 /\ r1 = r2.
Proof.
  unfold encode_str. simpl. rewrite !string_app_assoc. simpl.
  intros [= H]. apply escape_closed_inj in H. exact H.
Qed.

Lemma string_app_inv_head (p a b : string) :
  (p ++ a)%string = (p ++ b)%string -> a = b.
Proof.
  induction p as [|c p' IH]; simpl; [auto|].
  intros H. injection H as H. auto.
Qed.

(** The chunks after the first name, down to the closing bracket, can be
    read back in one way only. *)
Lemma names_tail_inj (l1 : list string) :
  forall l2,
    joined (map (fun s => (("," ++ newline_indent 1) ++ encode_str s)%string) l1
            ++ [newline_indent 0; "]"])
    = joined (map (fun s => (("," ++ newline_indent 1) ++ encode_str s)%string) l2
              ++ [newline_indent 0; "]"]) ->
    l1 = l2.
Proof.
  induction l1 as [|s1 rest1 IH]; intros l2 H; destruct l2 as [|s2 rest2].
  - reflexivity.
  - discriminate.
  - discriminate.
  - cbn [map app joined] in H. rewrite !string_app_assoc in H.
    do 2 apply string_app_inv_head in H. apply encode_str_inj in H. destruct H as [-> H].
    f_equal. apply IH. exact H.
Qed.

(** Two lists of names with the same JSON text are the same list. *)
Lemma dumps_names_inj (l1 l2 : list string) :
  dumps (JArr (map JStr l1)) = dumps (JArr (map JStr l2)) -> l1 = l2.
Proof.
  unfold dumps. rewrite !iterencode_names.
  destruct l1 as [|s1 rest1]; destruct l2 as [|s2 rest2].
  - reflexivity.
  - discriminate.
  - discriminate.
  - cbn [joined]. rewrite !string_app_assoc.
    intros H. do 2 apply string_app_inv_head in H. apply encode_str_inj in H. destruct H as [-> H].
    f_equal. apply names_tail_inj. exact H.
Qed.

(** X16.  A cache file determines its texture list.  When two directories
    of a walk hold recognized descriptors with different lists of names,
    all of which can be encoded, the run leaves different bytes in their
    two cache files, whatever characters the names hold (quotes,
    backslashes, commas, line breaks): nothing is lost or confused when the
    list is written. *)
Theorem cache_bytes_determine_textures
        (json_load : string -> result json) (directory : path) (w : world)
        (r1 r2 : path) (names1 names2 : list string) (f1 f2 : string) :
  In r1 (walked (fs w) directory) ->
  In r2 (walked (fs w) directory) ->
  descriptor json_load (fs w) r1 = Some (Ok (Some (JArr (map JStr names1)), f1)) ->
  descriptor json_load (fs w) r2 = Some (Ok (Some (JArr (map JStr names2)), f2)) ->
  kind_of (fs w) (r1 ++ [TEXTURES_CACHE]) <> IsDir ->
  kind_of (fs w) (r2 ++ [TEXTURES_CACHE]) <> IsDir ->
  forallb encodable names1 = true ->
  forallb encodable names2 = true ->
  names1 <> names2 ->
  exists w' log,
    generate_textures_cache json_load directory w = (Ok tt, w', log)
    /\ kind_of (fs w') (r1 ++ [TEXTURES_CACHE]) = IsFile (dumps (JArr (map JStr names1)))
    /\ kind_of (fs w') (r2 ++ [TEXTURES_CACHE]) = IsFile (dumps (JArr (map JStr names2)))
    /\ kind_of (fs w') (r1 ++ [TEXTURES_CACHE]) <> kind_of (fs w') (r2 ++ [TEXTURES_CACHE]).
Proof.
  intros Hin1 Hin2 Hd1 Hd2 Hk1 Hk2 He1 He2 Hne.
  destruct (generate_run_total json_load directory w) as (log & E & _).
  pose proof (recognized_bytes json_load _ _ Hd1 Hk1) as Ho1.
  pose proof (recognized_bytes json_load _ _ Hd2 Hk2) as Ho2.
  rewrite dumped_complete in Ho1 by (rewrite dump_completes_names; exact He1).
  rewrite dumped_complete in Ho2 by (rewrite dump_completes_names; exact He2).
  pose proof (@walk_fs_settles json_load (fs w) (walked (fs w) directory) (fs w) []
                (agree_refl _) (fun r' (H : In r' []) => match H with end)) as Hs.
  pose proof (Hs r1 Hin1 _ Ho1) as Hf1.
  pose proof (Hs r2 Hin2 _ Ho2) as Hf2.
  do 2 eexists. split; [exact E|]. simpl fs.
  split; [exact Hf1|]. split; [exact Hf2|].
  rewrite Hf1, Hf2. intros H. injection H as H.
  apply Hne. apply dumps_names_inj. exact H.
Qed.

Lemma cache_bytes_determine_textures_witness :
  exists w' log,
    generate_textures_cache example_load ["models"] (example_world []) = (Ok tt, w', log)
    /\ kind_of (fs w') ["models"; "haru"; "textures.cache"]
       <> kind_of (fs w') ["models"; "hiyori"; "textures.cache"].
Proof.
  destruct (@cache_bytes_determine_textures example_load ["models"] (example_world [])
              ["models"; "haru"] ["models"; "hiyori"] ["a.png"; "b.png"] ["t0.png"]
              FORMAT_STANDARD FORMAT_CUBISM3)
    as (w' & log & E & _ & _ & Hne).
  - right. left. reflexivity.
  - do 2 right. left. reflexivity.
  - reflexivity.
  - reflexivity.
  - vm_compute. discriminate.
  - vm_compute. discriminate.
  - reflexivity.
  - reflexivity.
  - discriminate.
  - exists w', log. split; [exact E|exact Hne].
Defined.

(** ** The confirmation *)

Lemma string_app_nil_r (a : string) : (a ++ "")%string = a.
Proof. induction a as [|x a' IH]; simpl; [reflexivity|]. rewrite IH. reflexivity. Qed.

Lemma reverse_app (a b : string) : reverse (a ++ b) = (reverse b ++ reverse a)%string.
Proof.
  induction a as [|x a' IH]; simpl.
  - rewrite string_app_nil_r. reflexivity.
  - rewrite IH, string_app_assoc. reflexivity.
Qed.

Lemma blank_app (a b : string) : blank (a ++ b) = (blank a && blank b)%bool.
Proof.
  induction a as [|x a' IH]; simpl; [reflexivity|].
  rewrite IH, andb_assoc. reflexivity.
Qed.

Lemma blank_reverse (a : string) : blank (reverse a) = blank a.
Proof.
  induction a as [|x a' IH]; simpl; [reflexivity|].
  rewrite blank_app, IH. simpl. rewrite andb_true_r, andb_comm. reflexivity.
Qed.

Lemma lower_app (a b : string) : lower (a ++ b) = (lower a ++ lower b)%string.
Proof. induction a as [|x a' IH]; simpl; [reflexivity|]. rewrite IH. reflexivity. Qed.

Lemma lower_reverse (a : string) : lower (reverse a) = reverse (lower a).
Proof.
  induction a as [|x a' IH]; simpl; [reflexivity|].
  rewrite lower_app, IH. reflexivity.
Qed.

Lemma high_not_space (c : ascii) :
  Nat.leb 128 (nat_of_ascii c) = true -> is_space c = false.
Proof. destruct c as [[] [] [] [] [] [] [] []]; try discriminate; reflexivity. Qed.

Lemma lower_char_high (c : ascii) :
  Nat.leb 128 (nat_of_ascii c) = true -> lower_char c = c.
Proof. destruct c as [[] [] [] [] [] [] [] []]; try discriminate; reflexivity. Qed.

Lemma lower_char_low (c : ascii) :
  Nat.leb 128 (nat_of_ascii c) = false -> Nat.leb 128 (nat_of_ascii (lower_char c)) = false.
Proof. destruct c as [[] [] [] [] [] [] [] []]; try discriminate; reflexivity. Qed.

Lemma is_space_lower_char (c : ascii) : is_space (lower_char c) = is_space c.
Proof. destruct c as [[] [] [] [] [] [] [] []]; reflexivity. Qed.

Ltac bool_hyps :=
  repeat match goal with
         | H : (_ || _)%bool = true |- _ => apply orb_true_iff in H; destruct H as [H|H]
         | H : (_ && _)%bool = true |- _ => apply andb_true_iff in H; destruct H
         | H : Nat.eqb _ _ = true |- _ => apply Nat.eqb_eq in H
         | H : Nat.leb _ _ = true |- _ => apply Nat.leb_le in H
         end.

Lemma is_space2_high (a b : ascii) :
  is_space2 a b = true ->
  Nat.leb 128 (nat_of_ascii a) = true /\ Nat.leb 128 (nat_of_ascii b) = true.
Proof.
  unfold is_space2. intros H. bool_hyps; split; apply Nat.leb_le; lia.
Qed.

Lemma is_space3_high (a b c : ascii) :
  is_space3 a b c = true ->
  Nat.leb 128 (nat_of_ascii a) = true /\ Nat.leb 128 (nat_of_ascii b) = true
  /\ Nat.leb 128 (nat_of_ascii c) = true.
Proof.
  unfold is_space3. intros H. bool_hyps; repeat split; apply Nat.leb_le; lia.
Qed.

Lemma is_space2_lower_char (a b : ascii) :
  is_space2 (lower_char a) (lower_char b) = is_space2 a b.
Proof.
  destruct (Nat.leb 128 (nat_of_ascii a)) eqn:Ha;
    destruct (Nat.leb 128 (nat_of_ascii b)) eqn:Hb.
  - rewrite !lower_char_high by assumption. reflexivity.
  - destruct (is_space2 a b) eqn:E;
      [apply is_space2_high in E; destruct E; congruence|].
    destruct (is_space2 (lower_char a) (lower_char b)) eqn:E'; [|reflexivity].
    apply is_space2_high in E'. destruct E' as [_ E'].
    rewrite (lower_char_low _ Hb) in E'. discriminate.
  - destruct (is_space2 a b) eqn:E;
      [apply is_space2_high in E; destruct E; congruence|].
    destruct (is_space2 (lower_char a) (lower_char b)) eqn:E'; [|reflexivity].
    apply is_space2_high in E'. destruct E' as [E' _].
    rewrite (lower_char_low _ Ha) in E'. discriminate.
  - destruct (is_space2 a b) eqn:E;
      [apply is_space2_high in E; destruct E; congruence|].
    destruct (is_space2 (lower_char a) (lower_char b)) eqn:E'; [|reflexivity].
    apply is_space2_high in E'. destruct E' as [E' _].
    rewrite (lower_char_low _ Ha) in E'. discriminate.
Qed.

Lemma is_space3_lower_char (a b c : ascii) :
  is_space3 (lower_char a) (lower_char b) (lower_char c) = is_space3 a b c.
Proof.
  destruct (Nat.leb 128 (nat_of_ascii a)) eqn:Ha;
    destruct (Nat.leb 128 (nat_of_ascii b)) eqn:Hb;
    destruct (Nat.leb 128 (nat_of_ascii c)) eqn:Hc;
    try (rewrite !lower_char_high by assumption; reflexivity);
    (destruct (is_space3 a b c) eqn:E;
     [apply is_space3_high in E; destruct E as (? & ? & ?); congruence|]);
    (destruct (is_space3 (lower_char a) (lower_char b) (lower_char c)) eqn:E'; [|reflexivity]);
    apply is_space3_high in E'; destruct E' as (Ea & Eb & Ec);
    try (rewrite (lower_char_low _ Ha) in Ea; discriminate);
    try (rewrite (lower_char_low _ Hb) in Eb; discriminate);
    try (rewrite (lower_char_low _ Hc) in Ec; discriminate).
Qed.

Lemma is_space2_after_space (a b : ascii) : is_space b = true -> is_space2 a b = false.
Proof.
  intros Hb. destruct (is_space2 a b) eqn:E; [|reflexivity].
  apply is_space2_high in E. destruct E as [_ E].
  rewrite (high_not_space _ E) in Hb. discriminate.
Qed.

Lemma is_space3_after_space (a b c : ascii) :
  (is_space b || is_space c)%bool = true -> is_space3 a b c = false.
Proof.
  intros H. destruct (is_space3 a b c) eqn:E; [|reflexivity].
  apply is_space3_high in E. destruct E as (_ & Eb & Ec).
  rewrite (high_not_space _ Eb), (high_not_space _ Ec) in H. discriminate.
Qed.

Section StripHead.

Variable space2 : ascii -> ascii -> bool.
Variable space3 : ascii -> ascii -> ascii -> bool.

Lemma strip_head_blank_app (p s : string) :
  blank p = true -> strip_head is_space space2 space3 (p ++ s) = strip_head is_space space2 space3 s.
Proof.
  induction p as [|c p' IH]; simpl; [reflexivity|].
  intros H. apply andb_true_iff in H. destruct H as [Hc Hp].
  simpl. rewrite Hc. apply IH. assumption.
Qed.

Hypothesis space2_lower :
  forall a b, space2 (lower_char a) (lower_char b) = space2 a b.
Hypothesis space3_lower :
  forall a b c, space3 (lower_char a) (lower_char b) (lower_char c) = space3 a b c.

Lemma lower_strip_head_len (n : nat) :
  forall s, String.length s <= n -> lower (strip_head is_space space2 space3 s) = strip_head is_space space2 space3 (lower s).
Proof.
  induction n as [|n IH]; intros s Hlen.
  - destruct s; [reflexivity|simpl in Hlen; lia].
  - destruct s as [|a rest]; [reflexivity|].
    simpl in Hlen. cbn [strip_head lower]. rewrite is_space_lower_char.
    destruct (is_space a); [apply IH; lia|].
    destruct rest as [|b rest2]; [reflexivity|].
    simpl in Hlen. cbn [lower]. rewrite space2_lower.
    destruct (space2 a b); [apply IH; lia|].
    destruct rest2 as [|c rest3]; [reflexivity|].
    simpl in Hlen. cbn [lower]. rewrite space3_lower.
    destruct (space3 a b c); [apply IH; lia|reflexivity].
Qed.

Lemma lower_strip_head (s : string) : lower (strip_head is_space space2 space3 s) = strip_head is_space space2 space3 (lower s).
Proof. apply (@lower_strip_head_len (String.length s)). lia. Qed.

Hypothesis space2_after_space : forall a b, is_space b = true -> space2 a b = false.
Hypothesis space3_after_space :
  forall a b c, (is_space b || is_space c)%bool = true -> space3 a b c = false.

(** White space after a string is left where it is, unless white space is
    all there is. *)
Lemma strip_head_app_blank_len (p : string) (n : nat) :
  blank p = true ->
  forall s, String.length s <= n ->
            exists p', blank p' = true /\ strip_head is_space space2 space3 (s ++ p) = (strip_head is_space space2 space3 s ++ p')%string.
Proof.
  intros Hp.
  induction n as [|n IH]; intros s Hlen.
  - destruct s; [|simpl in Hlen; lia].
    exists EmptyString. split; [reflexivity|].
    rewrite <- (string_app_nil_r p) at 1.
    apply (strip_head_blank_app p EmptyString Hp).
  - destruct s as [|a rest].
    { exists EmptyString. split; [reflexivity|].
      rewrite <- (string_app_nil_r p) at 1.
      apply (strip_head_blank_app p EmptyString Hp). }
    simpl in Hlen. cbn [strip_head append].
    destruct (is_space a); [apply IH; lia|].
    destruct rest as [|b rest2].
    { exists p. split; [assumption|]. cbn [append].
      destruct p as [|b p1]; [reflexivity|].
      simpl in Hp. apply andb_true_iff in Hp. destruct Hp as [Hb Hp1].
      rewrite (space2_after_space a b Hb).
      destruct p1 as [|c p2]; [reflexivity|].
      rewrite (space3_after_space a b c) by (rewrite Hb; reflexivity). reflexivity. }
    simpl in Hlen. cbn [append].
    destruct (space2 a b); [apply IH; lia|].
    destruct rest2 as [|c rest3].
    { exists p. split; [assumption|]. cbn [append].
      destruct p as [|c p1]; [reflexivity|].
      simpl in Hp. apply andb_true_iff in Hp. destruct Hp as [Hc Hp1].
      rewrite (space3_after_space a b c) by (rewrite Hc; apply orb_true_r). reflexivity. }
    simpl in Hlen. cbn [append].
    destruct (space3 a b c); [apply IH; lia|].
    exists p. split; [assumption|reflexivity].
Qed.

End StripHead.

Lemma lstrip_blank_app (p s : string) : blank p = true -> lstrip (p ++ s) = lstrip s.
Proof. apply strip_head_blank_app. Qed.

Lemma rstrip_app_blank (s p : string) : blank p = true -> rstrip (s ++ p) = rstrip s.
Proof.
  intros Hp. unfold rstrip. rewrite reverse_app.
  rewrite strip_head_blank_app by (rewrite blank_reverse; exact Hp). reflexivity.
Qed.

Lemma strip_padded (p1 s p2 : string) :
  blank p1 = true -> blank p2 = true -> strip (p1 ++ s ++ p2) = strip s.
Proof.
  intros H1 H2. unfold strip. rewrite (lstrip_blank_app p1 (s ++ p2) H1).
  destruct (@strip_head_app_blank_len is_space2 is_space3
              is_space2_after_space is_space3_after_space p2 (String.length s) H2 s
              (le_n _)) as (p' & Hp' & E).
  unfold lstrip. rewrite E. apply rstrip_app_blank. assumption.
Qed.

Lemma lower_lstrip (s : string) : lower (lstrip s) = lstrip (lower s).
Proof.
  apply lower_strip_head; [apply is_space2_lower_char|apply is_space3_lower_char].
Qed.

Lemma lower_rstrip (s : string) : lower (rstrip s) = rstrip (lower s).
Proof.
  unfold rstrip. rewrite lower_reverse, lower_strip_head, lower_reverse; [reflexivity| |].
  - intros b a. apply is_space2_lower_char.
  - intros c b a. apply is_space3_lower_char.
Qed.

Lemma lower_strip (s : string) : lower (strip s) = strip (lower s).
Proof. unfold strip. rewrite lower_rstrip, lower_lstrip. reflexivity. Qed.

(** X17.  The answer to the confirmation prompt is read without regard to
    the white space around it and to the case of its letters: two lines
    that differ only in these are both taken as a confirmation or both as a
    refusal. *)
Theorem confirmation_ignores_padding_and_case (p1 p2 s s' : string) :
  blank p1 = true -> blank p2 = true ->
  lower s = lower s' ->
  confirms (p1 ++ s ++ p2) = confirms s'.
Proof.
  intros H1 H2 Hl. unfold confirms.
  rewrite (@strip_padded p1 s p2 H1 H2), !lower_strip, Hl. reflexivity.
Qed.

Lemma confirmation_ignores_padding_and_case_witness :
  confirms ("  " ++ "YeS" ++ " ") = confirms "yes".
Proof. apply confirmation_ignores_padding_and_case; reflexivity. Defined.

(** ** Preview followed by generation *)

(** X18.  Preview mode, once confirmed, leaves the files that a direct
    generation run over the same directory leaves: the same tree and the
    same writes, in the same order; it consumes the one line of the answer. *)
Theorem confirmed_preview_is_generation
        (json_load : string -> result json) (directory : path) (w : world)
        (line : string) (rest : list string) :
  kind_of (fs w) directory <> Absent ->
  scan json_load (fs w) directory <> [] ->
  stdin w = line :: rest ->
  confirms line = true ->
  exists w1 l1 w2 l2,
    generate_textures_cache json_load directory w = (Ok tt, w1, l1)
    /\ preview_mode json_load directory w = (Ok tt, w2, l2)
    /\ fs w2 = fs w1
    /\ writes_of l2 = writes_of l1
    /\ stdin w2 = rest.
Proof.
  intros Hdir Hsome Hin Hyes.
  destruct (preview_mode_scan json_load directory w Hdir) as (l0 & W0 & P0 & Hscan).
  destruct (scan json_load (fs w) directory) as [|x xs] eqn:Hf; [contradiction|].
  destruct (output_only_listing (x :: xs) w) as (ll & El & Wl & Pl).
  destruct (generate_run_total json_load directory w) as (lg1 & E1 & W1 & _).
  destruct (generate_run_total json_load directory (World (fs w) rest))
    as (lg2 & E2 & W2 & _).
  simpl fs in E2, W2. simpl stdin in E2.
  do 4 eexists. split; [exact E1|]. split.
  - apply Hscan. unfold preview_confirm. rewrite <- bind_assoc.
    eapply run_bind_ok; [exact El|].
    eapply run_bind_ok; [unfold input; rewrite Hin; reflexivity|].
    fold (confirms line). rewrite Hyes.
    eapply run_bind_ok; [reflexivity|].
    eapply run_bind_ok; [reflexivity|]. exact E2.
  - split; [reflexivity|]. split; [|reflexivity].
    log_simpl. rewrite W0, Wl, W1, W2. reflexivity.
Qed.

Lemma confirmed_preview_is_generation_witness :
  exists w1 l1 w2 l2,
    generate_textures_cache example_load ["models"] (example_world ["Y"])
    = (Ok tt, w1, l1)
    /\ preview_mode example_load ["models"] (example_world ["Y"]) = (Ok tt, w2, l2)
    /\ fs w2 = fs w1
    /\ writes_of l2 = writes_of l1
    /\ stdin w2 = [].
Proof.
  apply (@confirmed_preview_is_generation example_load ["models"] (example_world ["Y"])
           "Y" []).
  - vm_compute. discriminate.
  - vm_compute. discriminate.
  - reflexivity.
  - reflexivity.
Defined.

(** ** A second run *)

Section SecondRunFacts.

Variable json_load : string -> result json.

Lemma walk_counts_ext (n0 n1 : node) (roots : list path) :
  agree n0 n1 ->
  forall c, walk_counts json_load n1 roots c = walk_counts json_load n0 roots c.
Proof.
  intros Hag. unfold walk_counts.
  induction roots as [|r rest IH]; intros c; simpl; [reflexivity|].
  rewrite (step_outcome_agree json_load r Hag). apply IH.
Qed.

Lemma present_after_walk (n0 : node) (roots : list path) (q : path) :
  kind_of n0 q <> Absent ->
  kind_of (walk_fs json_load n0 roots n0) q <> Absent.
Proof.
  intros Hq.
  destruct (@kind_of_walk_fs json_load n0 roots q n0 (agree_refl _))
    as [H|(r & bytes & _ & _ & _ & H)]; rewrite H; [assumption|discriminate].
Qed.

End SecondRunFacts.

(** X19.  A second run over the tree that a first run left reports the
    same three counters and the same total as the first: the cache files of
    the first run are not taken for descriptors and turn no outcome. *)
Theorem second_run_reports_same_counts
        (json_load : string -> result json) (directory : path) (w : world) :
  kind_of (fs w) directory <> Absent ->
  exists c w1 pre1 pre2,
    generate_textures_cache json_load directory w
    = (Ok tt, w1,
       pre1 ++ [Print LINE_PROCESSED [ANat (processed_count c)];
                Print LINE_SKIPPED [ANat (skipped_count c)];
                Print LINE_ERRORS [ANat (error_count c)];
                Print LINE_TOTAL
                      [ANat (processed_count c + skipped_count c + error_count c)]])
    /\ generate_textures_cache json_load directory w1
       = (Ok tt, w1,
          pre2 ++ [Print LINE_PROCESSED [ANat (processed_count c)];
                   Print LINE_SKIPPED [ANat (skipped_count c)];
                   Print LINE_ERRORS [ANat (error_count c)];
                   Print LINE_TOTAL
                         [ANat (processed_count c + skipped_count c + error_count c)]]).
Proof.
  intros Hdir.
  destruct (generate_run_spec json_load directory w Hdir) as (pre1 & E1 & _).
  set (roots := walked (fs w) directory) in *.
  set (n1 := walk_fs json_load (fs w) roots (fs w)) in *.
  assert (Hag : agree (fs w) n1) by (apply walk_fs_agree, agree_refl).
  assert (Hdir1 : kind_of (fs (World n1 (stdin w))) directory <> Absent).
  { simpl. apply present_after_walk. assumption. }
  destruct (generate_run_spec json_load directory (World n1 (stdin w)) Hdir1)
    as (pre2 & E2 & _).
  simpl fs in E2. simpl stdin in E2.
  assert (Hroots : walked n1 directory = roots) by apply walk_fs_walked.
  rewrite Hroots in E2.
  rewrite (walk_fs_ext json_load roots Hag) in E2.
  rewrite (walk_counts_ext json_load roots Hag) in E2.
  fold n1 in E2. unfold n1 in E2 at 2. rewrite walk_fs_idempotent in E2. fold n1 in E2.
  do 4 eexists. split; [exact E1|exact E2].
Qed.

Lemma second_run_reports_same_counts_witness :
  exists c w1 pre1 pre2,
    generate_textures_cache example_load ["models"] (example_world [])
    = (Ok tt, w1,
       pre1 ++ [Print LINE_PROCESSED [ANat (processed_count c)];
                Print LINE_SKIPPED [ANat (skipped_count c)];
                Print LINE_ERRORS [ANat (error_count c)];
                Print LINE_TOTAL
                      [ANat (processed_count c + skipped_count c + error_count c)]])
    /\ generate_textures_cache example_load ["models"] w1
       = (Ok tt, w1,
          pre2 ++ [Print LINE_PROCESSED [ANat (processed_count c)];
                   Print LINE_SKIPPED [ANat (skipped_count c)];
                   Print LINE_ERRORS [ANat (error_count c)];
                   Print LINE_TOTAL
                         [ANat (processed_count c + skipped_count c + error_count c)]]).
Proof.
  apply (@second_run_reports_same_counts example_load ["models"] (example_world [])).
  vm_compute. discriminate.
Defined.
